(** * leo_segmentation: the meta-learning engine and its checkpoint store

    A shallow embedding of [leo_segmentation/model.py] and
    [leo_segmentation/utils.py].

    Conventions.
    - A Python call either returns a value or raises: [result A].  Where the
      state reached matters after an exception, it is returned beside the
      result.
    - Tensors that are only moved around (images, features, weights) are an
      abstract type, and the library functions that act on them ([torch.cat],
      [F.conv2d], [CrossEntropyLoss], [Adam.step]) are fields of the class
      [Net.Lib] or Section variables.  A loss tensor carries its autograd graph
      with it, so [torch.autograd.grad(loss, leaves)] is a function of the loss
      and of the leaves, left uninterpreted.
    - A method that calls another method of the class runs the embedding of
      that method: [forward] runs [forward_encoder], [forward_decoder] and
      [forward_segnetwork], the two loops run [forward] and its parts, and
      [compute_loss] runs both loops.  Shapes are taken to fit, so the torch
      primitives are total on tensors; what Python itself refuses (a name or
      an attribute that is not bound, a call with the wrong number of
      arguments, a value of the wrong type, an unpacking of the wrong length)
      raises in the embedding as it does in the run.
    - Gradients that are averaged are vectors of exact rationals; the rounding
      of floating point is outside the model.
    - Name resolution follows Python: a name that is neither a local of the
      function nor bound at module level raises [NameError]; a local that no
      executed statement has bound raises [UnboundLocalError].
    - Ghost events record that a given source line was executed; they are the
      only additions to what the source computes.

    Reading of the source.
    - [leo_inner_loop] is indented under [forward] in model.py, after its
      [return]: it is a local function that is never defined, and class [LEO]
      has no attribute of that name.  Its body is embedded as written.
    - Lines 213-215 of model.py break [torch.autograd.grad(...)] after the dot;
      they are read as the one call, whose list of inputs holds the weight and
      the generator [self.decoder.parameters()].
    - The second definition of [get_named_dict] in utils.py (lines 385-395) is
      the one in force. *)

From Stdlib Require Import ZArith QArith Lia Lqa List String Ascii Bool.
From Stdlib Require Import Decimal DecimalPos DecimalString.
From stdpp Require Import base option list gmap strings.
Import ListNotations.

Close Scope Q_scope.
Local Open Scope string_scope.
Local Open Scope list_scope.
Local Open Scope Z_scope.

(** ** Python runtime *)

Inductive exn : Type :=
| NameError (name : string)
| UnboundLocalError (name : string)
| TypeError (msg : string)
| ValueError (msg : string)
| IndexError (msg : string)
| EOFError
| ZeroDivisionError
| RuntimeError (msg : string)
| FileNotFoundError (path : string)
| AttributeError (type attribute : string). (* 'type' object has no attribute 'attribute' *)

Inductive result (A : Type) : Type :=
| Return (a : A)
| Raise (e : exn).
Arguments Return {A} a.
Arguments Raise {A} e.

Definition bind {A B} (r : result A) (k : A -> result B) : result B :=
  match r with
  | Return a => k a
  | Raise e => Raise e
  end.

Notation "'let*' x ':=' r 'in' k" := (bind r (fun x => k))
  (at level 10, x pattern, r at level 100, k at level 200).

(** The names bound at module level of [model.py]: its imports, classes and
    functions.  Nothing else is assigned at top level. *)
Definition module_names : list string :=
  [ "os"; "torch"; "np"; "nn"; "Normal"; "CrossEntropyLoss"; "SummaryWriter";
    "models"; "F"; "display_data_shape"; "get_named_dict"; "calc_iou_per_class";
    "log_data"; "load_config"; "EncoderBlock"; "decoder_block"; "DecoderBlock";
    "LEO"; "save_model"; "load_model" ].

(** The builtins that the modelled functions use. *)
Definition builtin_names : list string :=
  [ "range"; "len"; "zip"; "float"; "sum"; "int"; "max"; "input"; "print";
    "list"; "enumerate"; "super"; "ValueError" ].

(** [resolves globals locals name]: Python finds [name] among the function's
    local names, the module's globals, or the builtins. *)
Definition resolves (globals locals : list string) (name : string) : bool :=
  existsb (String.eqb name) (locals ++ globals ++ builtin_names).

(** Loops with an early [return]: an iteration goes on to the next one,
    returns from the function, or raises; the state reached is kept in each
    case. *)
Inductive flow (S R : Type) : Type :=
| Next (s : S)
| Returned (r : R) (s : S)
| Raised (e : exn) (s : S).
Arguments Next {S R} s.
Arguments Returned {S R} r s.
Arguments Raised {S R} e s.

(** [for x in xs: body] *)
Fixpoint for_in {A S R} (xs : list A) (body : A -> S -> flow S R) (s : S) : flow S R :=
  match xs with
  | [] => Next s
  | x :: xs' =>
      match body x s with
      | Next s' => for_in xs' body s'
      | other => other
      end
  end.

(** A statement of a loop body that may raise: the exception leaves the loop
    with the state [s] reached so far. *)
Definition try {A S R} (r : result A) (s : S) (k : A -> flow S R) : flow S R :=
  match r with
  | Return a => k a
  | Raise e => Raised e s
  end.

Notation "'try!' x ':=' r 'from' s 'in' k" := (try r s (fun x => k))
  (at level 10, x pattern, r at level 100, s at level 9, k at level 200).

(** [range(n)]: empty when [n <= 0]. *)
Definition range (n : Z) : list nat := seq 0 (Z.to_nat n).

(** ** utils.py: calc_iou_per_class *)

Module Iou.

(** The float64 values that dividing one pixel count by another can give. *)
Inductive npfloat : Type :=
| Fin (q : Q)
| Inf
| NaN.

(** [a / b] on two numpy integer sums (both counts, so never negative):
    [0/0] is nan and [a/0] is inf, each with a RuntimeWarning only. *)
Definition true_divide (a b : nat) : npfloat :=
  match b with
  | O => match a with O => NaN | _ => Inf end
  | _ => Fin (Z.of_nat a # Pos.of_nat b)
  end.

Definition np_add (a b : npfloat) : npfloat :=
  match a, b with
  | NaN, _ | _, NaN => NaN
  | Inf, _ | _, Inf => Inf
  | Fin x, Fin y => Fin (x + y)
  end.

(** [np.mean] of a non-empty Python list of floats. *)
Definition np_mean (xs : list npfloat) : npfloat :=
  match fold_left np_add xs (Fin 0) with
  | Fin s => Fin (s / inject_Z (Z.of_nat (length xs)))
  | other => other
  end.

(** A prediction [pred_x[i]] has shape (C, H, W).  It is kept pixel-major: one
    entry per pixel, holding that pixel's C logits along axis 0. *)
Definition logits := list (list Q).

(** [np.argmax] along one pixel's channel axis: the first index of the maximum. *)
Fixpoint argmax_from (best : Q) (besti i : Z) (vs : list Q) : Z :=
  match vs with
  | [] => besti
  | v :: vs' =>
      if Qle_bool v best then argmax_from best besti (i + 1) vs'
      else argmax_from v i (i + 1) vs'
  end.

Definition argmax (vs : list Q) : result Z :=
  match vs with
  | [] => Raise (ValueError "attempt to get argmax of an empty sequence")
  | v :: vs' => Return (argmax_from v 0 1 vs')
  end.

(** [np.argmax(pred_x[i], 0).astype(int)] *)
Fixpoint argmax_axis0 (p : logits) : result (list Z) :=
  match p with
  | [] => Return []
  | px :: p' =>
      let* k := argmax px in
      let* ks := argmax_axis0 p' in
      Return (k :: ks)
  end.

(** numpy's truth value of an integer: non-zero. *)
Definition truthy (v : Z) : bool := negb (v =? 0).

Definition binarize (m : list Z) : list bool := List.map truthy m.

Fixpoint logical_and (a b : list Z) : list bool :=
  match a, b with
  | x :: a', y :: b' => (truthy x && truthy y) :: logical_and a' b'
  | _, _ => []
  end.

Fixpoint logical_or (a b : list Z) : list bool :=
  match a, b with
  | x :: a', y :: b' => (truthy x || truthy y) :: logical_or a' b'
  | _, _ => []
  end.

(** [np.sum] of a boolean array: the number of [True] entries. *)
Definition np_sum (bs : list bool) : nat := List.length (List.filter (fun b => b) bs).

(** Lines 198-200 for one example.  Arrays of different sizes do not
    broadcast (the broadcasting of axes of size one is not modelled). *)
Definition iou_example (pred_i : logits) (target_i : list Z) : result npfloat :=
  let* pred := argmax_axis0 pred_i in
  if Nat.eqb (List.length target_i) (List.length pred) then
    Return (true_divide (np_sum (logical_and target_i pred))
                        (np_sum (logical_or target_i pred)))
  else Raise (ValueError "operands could not be broadcast together").

(** The loop of lines 197-202: [iou_per_class] grows by one entry per example
    and [mean_iou_per_class] is rebound in every iteration. *)
Fixpoint iou_loop (pred_x : list logits) (targets : list (list Z))
    (iou_per_class : list npfloat) (mean_iou_per_class : option npfloat)
    : result (option npfloat) :=
  match pred_x with
  | [] => Return mean_iou_per_class
  | p :: pred_x' =>
      match targets with
      | [] => Raise (IndexError "index out of range")
      | t :: targets' =>
          let* iou := iou_example p t in
          let iou_per_class' := iou_per_class ++ [iou] in
          iou_loop pred_x' targets' iou_per_class' (Some (np_mean iou_per_class'))
      end
  end.

Definition calc_iou_per_class (pred_x : list logits) (targets : list (list Z))
    : result npfloat :=
  let* m := iou_loop pred_x targets [] None in
  match m with
  | Some v => Return v
  | None => Raise (UnboundLocalError "mean_iou_per_class")
  end.





Lemma and_le_or (a b : list Z) :
  (np_sum (logical_and a b) <= np_sum (logical_or a b))%nat.
Proof.
  unfold np_sum. revert b.
  induction a as [|x a IH]; intros [|y b]; simpl; try lia.
  specialize (IH b).
  destruct (truthy x), (truthy y); simpl; lia.
Qed.

Lemma and_eq_or_same (a b : list Z) :
  binarize a = binarize b -> logical_and a b = logical_or a b.
Proof.
  revert b. induction a as [|x a IH]; intros [|y b]; simpl; try discriminate; auto.
  intros H. injection H as H1 H2. rewrite (IH b H2), H1.
  destruct (truthy y); reflexivity.
Qed.


Lemma true_divide_fin (a b : nat) :
  (0 < b)%nat -> true_divide a b = Fin (Z.of_nat a # Pos.of_nat b).
Proof. destruct b; [lia|reflexivity]. Qed.

Lemma pos_of_nat_Z (b : nat) : (0 < b)%nat -> Z.pos (Pos.of_nat b) = Z.of_nat b.
Proof.
  intros Hb. rewrite <- positive_nat_Z, Nat2Pos.id by lia. reflexivity.
Qed.

Lemma ratio_bounds (a b : nat) :
  (0 < b)%nat -> (a <= b)%nat ->
  (0 <= Z.of_nat a # Pos.of_nat b)%Q /\ (Z.of_nat a # Pos.of_nat b <= 1)%Q.
Proof.
  intros Hb Hab. unfold Qle; simpl. split; [lia|].
  rewrite Z.mul_1_r. 
  rewrite pos_of_nat_Z by exact Hb. lia.
Qed.



(** The mean over a batch: when each example's IoU is a ratio in [0, 1], so
    is what [calc_iou_per_class] returns. *)
Definition in_unit (x : npfloat) : Prop := exists q, x = Fin q /\ (0 <= q)%Q /\ (q <= 1)%Q.

Lemma fold_np_add_unit xs : forall s,
  Forall in_unit xs ->
  exists t, fold_left np_add xs (Fin s) = Fin t /\
            (s <= t)%Q /\ (t <= s + inject_Z (Z.of_nat (List.length xs)))%Q.
Proof.
  induction xs as [|x xs IH]; intros s Hxs.
  - exists s. split; [reflexivity|].
    change (inject_Z (Z.of_nat (List.length (@nil npfloat)))) with 0%Q. split; lra.
  - inversion Hxs as [|? ? (q & -> & Hq0 & Hq1) Hrest]; subst.
    destruct (IH (s + q)%Q Hrest) as (t & Ht & Hlo & Hhi).
    exists t. cbn [fold_left np_add]. split; [exact Ht|].
    cbn [List.length]. rewrite Nat2Z.inj_succ. unfold Z.succ. rewrite inject_Z_plus.
    change (inject_Z 1) with 1%Q. split; lra.
Qed.

Lemma np_mean_unit xs : xs <> [] -> Forall in_unit xs -> in_unit (np_mean xs).
Proof.
  intros Hne Hxs. unfold np_mean.
  destruct (fold_np_add_unit xs 0%Q Hxs) as (t & -> & Hlo & Hhi).
  rewrite Qplus_0_l in Hhi.
  assert (0 < inject_Z (Z.of_nat (List.length xs)))%Q as Hlen.
  { change 0%Q with (inject_Z 0). rewrite <- Zlt_Qlt.
    destruct xs; [contradiction|cbn [List.length]; lia]. }
  eexists. split; [reflexivity|]. split.
  - apply Qle_shift_div_l; [exact Hlen|]. rewrite Qmult_0_l. exact Hlo.
  - apply Qle_shift_div_r; [exact Hlen|]. rewrite Qmult_1_l. exact Hhi.
Qed.

Lemma iou_loop_unit pred_x : forall targets acc m,
  Forall2 (fun p t => exists v, iou_example p t = Return v /\ in_unit v) pred_x targets ->
  Forall in_unit acc ->
  pred_x <> [] ->
  exists v, iou_loop pred_x targets acc m = Return (Some v) /\ in_unit v.
Proof.
  induction pred_x as [|p pred_x IH]; intros targets acc m Hall Hacc Hne; [contradiction|].
  inversion Hall as [|? t ? targets' (v & Hv & Hunit) Hrest]; subst.
  cbn [iou_loop]. rewrite Hv. cbn [bind].
  assert (Forall in_unit (acc ++ [v])) as Hacc'.
  { apply Forall_app. split; [exact Hacc|]. constructor; [exact Hunit|constructor]. }
  destruct pred_x as [|p' pred_x].
  - inversion Hrest; subst. cbn [iou_loop]. eexists. split; [reflexivity|].
    apply np_mean_unit; [|exact Hacc'].
    intros Habs. apply app_eq_nil in Habs. destruct Habs; discriminate.
  - apply IH; [exact Hrest|exact Hacc'|discriminate].
Qed.

Lemma calc_iou_per_class_unit pred_x targets :
  Forall2 (fun p t => exists v, iou_example p t = Return v /\ in_unit v) pred_x targets ->
  pred_x <> [] ->
  exists v, calc_iou_per_class pred_x targets = Return v /\ in_unit v.
Proof.
  intros Hall Hne. unfold calc_iou_per_class.
  destruct (iou_loop_unit pred_x targets [] None Hall ltac:(constructor) Hne)
    as (v & -> & Hv).
  exists v. split; [reflexivity|exact Hv].
Qed.

End Iou.

(** ** Python strings and paths *)

Module PyStr.

(** [str(n)] / an f-string field for an integer. *)
Definition str_of_int (n : Z) : string := DecimalString.NilZero.string_of_int (Z.to_int n).

(** [s.split(sep)] for a one-character separator: never an empty list. *)
Fixpoint split_on (sep : ascii) (s : string) : list string :=
  match s with
  | EmptyString => [EmptyString]
  | String c s' =>
      if Ascii.eqb c sep then EmptyString :: split_on sep s'
      else match split_on sep s' with
           | [] => [String c EmptyString]
           | w :: ws => String c w :: ws
           end
  end.

(** [xs[i]] for [i >= 0]. *)
Definition index {A} (xs : list A) (i : nat) : result A :=
  match nth_error xs i with
  | Some x => Return x
  | None => Raise (IndexError "list index out of range")
  end.

(** [s[i]] for [i >= 0]: a string of one character. *)
Definition char_at (s : string) (i : nat) : result string :=
  match String.get i s with
  | Some c => Return (String c EmptyString)
  | None => Raise (IndexError "string index out of range")
  end.

(** [s.rfind(c)]: the last index of [c], or -1. *)
Fixpoint rfind_from (c : ascii) (s : string) (i last : Z) : Z :=
  match s with
  | EmptyString => last
  | String d s' => rfind_from c s' (i + 1) (if Ascii.eqb d c then i else last)
  end.

Definition rfind (c : ascii) (s : string) : Z := rfind_from c s 0 (-1).

Fixpoint all_dots (s : string) : bool :=
  match s with
  | EmptyString => true
  | String c s' => Ascii.eqb c "." && all_dots s'
  end.

(** [os.path.splitext(p)[-1]] (posixpath): the text from the last dot on,
    unless that dot comes before the last separator or only dots precede it
    in the file name. *)
Definition splitext_ext (p : string) : string :=
  let sepIndex := rfind "/" p in
  let dotIndex := rfind "." p in
  if sepIndex <? dotIndex then
    let filenameIndex := Z.to_nat (sepIndex + 1) in
    let lead := substring filenameIndex (Z.to_nat dotIndex - filenameIndex) p in
    if all_dots lead then EmptyString
    else substring (Z.to_nat dotIndex) (String.length p - Z.to_nat dotIndex) p
  else EmptyString.

Definition digit_of (c : ascii) : option Z :=
  let n := Z.of_N (N_of_ascii c) in
  if (48 <=? n) && (n <=? 57) then Some (n - 48) else None.

Fixpoint parse_digits (s : string) (acc : Z) : option Z :=
  match s with
  | EmptyString => Some acc
  | String c s' =>
      match digit_of c with
      | Some d => parse_digits s' (10 * acc + d)
      | None => None
      end
  end.

Definition is_space (c : ascii) : bool :=
  let n := Z.of_N (N_of_ascii c) in ((9 <=? n) && (n <=? 13)) || (n =? 32).

Fixpoint lstrip (s : string) : string :=
  match s with
  | String c s' => if is_space c then lstrip s' else s
  | EmptyString => EmptyString
  end.

Fixpoint rstrip (s : string) : string :=
  match s with
  | EmptyString => EmptyString
  | String c s' =>
      match rstrip s' with
      | EmptyString => if is_space c then EmptyString else String c EmptyString
      | r => String c r
      end
  end.

(** [int(s)] on ASCII text: surrounding whitespace, an optional sign and
    decimal digits (digit-group underscores are not modelled). *)
Definition py_int (s : string) : result Z :=
  let s := rstrip (lstrip s) in
  let '(sign, body) :=
    match s with
    | String "-" r => (-1, r)
    | String "+" r => (1, r)
    | _ => (1, s)
    end in
  match body with
  | EmptyString => Raise (ValueError "invalid literal for int() with base 10")
  | _ =>
      match parse_digits body 0 with
      | Some n => Return (sign * n)
      | None => Raise (ValueError "invalid literal for int() with base 10")
      end
  end.

(** [max(xs)] on a list of integers. *)
Definition py_max (xs : list Z) : result Z :=
  match xs with
  | [] => Raise (ValueError "max() arg is an empty sequence")
  | x :: xs' => Return (fold_left Z.max xs' x)
  end.

(** A list comprehension whose element expression may raise. *)
Fixpoint comprehension {A B} (f : A -> result B) (xs : list A) : result (list B) :=
  match xs with
  | [] => Return []
  | x :: xs' =>
      let* y := f x in
      let* ys := comprehension f xs' in
      Return (y :: ys)
  end.

Definition ends_with_sep (s : string) : bool :=
  match String.get (String.length s - 1) s with
  | Some c => Ascii.eqb c "/"
  | None => false
  end.

Definition starts_with_sep (s : string) : bool :=
  match s with
  | String c _ => Ascii.eqb c "/"
  | EmptyString => false
  end.

(** [os.path.join(a, b)] (posixpath). *)
Definition path_join (a b : string) : string :=
  if starts_with_sep b then b
  else if (String.length a =? 0)%nat || ends_with_sep a then (a ++ b)%string
  else (a ++ "/" ++ b)%string.

Example split_dot : split_on "." "checkpoint_12.pth.tar" = ["checkpoint_12"; "pth"; "tar"].
Proof. reflexivity. Qed.

Example splitext_tar : splitext_ext "checkpoint_12.pth.tar" = ".tar".
Proof. reflexivity. Qed.

Example splitext_hidden : splitext_ext ".tar" = "".
Proof. reflexivity. Qed.

Example int_padded : py_int " 12 " = Return 12.
Proof. reflexivity. Qed.

(** *** Printing an integer and reading it back *)

Definition is_digit (c : ascii) : bool :=
  match digit_of c with Some _ => true | None => false end.

Fixpoint all_digits (s : string) : bool :=
  match s with
  | EmptyString => true
  | String c s' => is_digit c && all_digits s'
  end.

(** The value of a decimal numeral read from the left, continuing [acc]. *)
Fixpoint value_acc (d : Decimal.uint) (acc : Z) : Z :=
  match d with
  | Decimal.Nil => acc
  | Decimal.D0 d' => value_acc d' (10 * acc + 0)
  | Decimal.D1 d' => value_acc d' (10 * acc + 1)
  | Decimal.D2 d' => value_acc d' (10 * acc + 2)
  | Decimal.D3 d' => value_acc d' (10 * acc + 3)
  | Decimal.D4 d' => value_acc d' (10 * acc + 4)
  | Decimal.D5 d' => value_acc d' (10 * acc + 5)
  | Decimal.D6 d' => value_acc d' (10 * acc + 6)
  | Decimal.D7 d' => value_acc d' (10 * acc + 7)
  | Decimal.D8 d' => value_acc d' (10 * acc + 8)
  | Decimal.D9 d' => value_acc d' (10 * acc + 9)
  end.

Lemma parse_digits_numeral d : forall acc,
  parse_digits (NilEmpty.string_of_uint d) acc = Some (value_acc d acc).
Proof.
  induction d; intros acc; cbn [NilEmpty.string_of_uint parse_digits value_acc];
    try reflexivity;
    match goal with
    | |- context [digit_of ?c] =>
        let v := eval vm_compute in (digit_of c) in change (digit_of c) with v
    end; cbv iota; apply IHd.
Qed.

Lemma numeral_all_digits d : all_digits (NilEmpty.string_of_uint d) = true.
Proof.
  induction d; cbn [NilEmpty.string_of_uint all_digits]; try reflexivity;
    match goal with
    | |- context [is_digit ?c] =>
        let v := eval vm_compute in (is_digit c) in change (is_digit c) with v
    end; cbn [andb]; exact IHd.
Qed.

Lemma value_acc_pos d : forall acc,
  value_acc d (Z.pos acc) = Z.pos (Pos.of_uint_acc d acc).
Proof.
  induction d; intros acc; cbn [value_acc Pos.of_uint_acc]; try reflexivity;
    match goal with
    | |- value_acc _ ?z = Z.pos (Pos.of_uint_acc _ ?p) =>
        replace z with (Z.pos p) by lia
    end; auto.
Qed.

Lemma value_acc_zero d : value_acc d 0 = Z.of_N (Pos.of_uint d).
Proof.
  induction d; cbn [value_acc Pos.of_uint]; try reflexivity; try exact IHd;
    match goal with
    | |- value_acc _ ?z = Z.of_N (N.pos (Pos.of_uint_acc _ ?p)) =>
        change z with (Z.pos p)
    end; apply value_acc_pos.
Qed.

Lemma str_of_int_nonneg n :
  0 <= n ->
  exists d, str_of_int n = NilEmpty.string_of_uint d /\ d <> Decimal.Nil /\
            value_acc d 0 = n.
Proof.
  intros Hn. destruct n as [|p|p]; [| |lia].
  - exists (Decimal.D0 Decimal.Nil). repeat split. discriminate.
  - exists (Pos.to_uint p). unfold str_of_int. cbn [Z.to_int NilZero.string_of_int].
    pose proof (Unsigned.to_uint_nonnil p) as Hnil.
    split; [|split; [exact Hnil|]].
    + unfold NilZero.string_of_uint. destruct (Pos.to_uint p); [contradiction|..]; reflexivity.
    + rewrite value_acc_zero, Unsigned.of_to. reflexivity.
Qed.

Lemma lstrip_digits s : all_digits s = true -> lstrip s = s.
Proof.
  destruct s as [|c s]; [reflexivity|]. cbn [all_digits lstrip]. intros H.
  apply andb_prop in H. destruct H as [Hc _].
  destruct c as [[] [] [] [] [] [] [] []]; try discriminate Hc; reflexivity.
Qed.

Lemma rstrip_digits s : all_digits s = true -> rstrip s = s.
Proof.
  induction s as [|c s IH]; [reflexivity|]. cbn [all_digits rstrip]. intros H.
  apply andb_prop in H. destruct H as [Hc Hs]. rewrite (IH Hs).
  destruct s; [|reflexivity].
  destruct c as [[] [] [] [] [] [] [] []]; try discriminate Hc; reflexivity.
Qed.

Lemma split_on_digits sep s :
  is_digit sep = false -> all_digits s = true -> split_on sep s = [s].
Proof.
  intros Hsep. induction s as [|c s IH]; [reflexivity|]. cbn [all_digits split_on].
  intros H. apply andb_prop in H. destruct H as [Hc Hs]. rewrite (IH Hs).
  destruct (Ascii.eqb c sep) eqn:Heq; [|reflexivity].
  apply Ascii.eqb_eq in Heq. subst c. congruence.
Qed.

(** The string has no occurrence of [sep]. *)
Fixpoint lacks (sep : ascii) (s : string) : bool :=
  match s with
  | EmptyString => true
  | String c s' => negb (Ascii.eqb c sep) && lacks sep s'
  end.

Lemma lacks_digits sep s :
  is_digit sep = false -> all_digits s = true -> lacks sep s = true.
Proof.
  intros Hsep. induction s as [|c s IH]; [reflexivity|]. cbn [all_digits lacks].
  intros H. apply andb_prop in H. destruct H as [Hc Hs]. rewrite (IH Hs).
  destruct (Ascii.eqb c sep) eqn:Heq; [|reflexivity].
  apply Ascii.eqb_eq in Heq. subst c. congruence.
Qed.

Lemma append_cons c (a b : string) : (String c a ++ b = String c (a ++ b))%string.
Proof. reflexivity. Qed.

Lemma append_assoc (a b c : string) : ((a ++ b) ++ c = a ++ (b ++ c))%string.
Proof.
  induction a as [|x a IH]; [reflexivity|]. rewrite !append_cons, IH. reflexivity.
Qed.

Lemma lacks_app sep a b :
  lacks sep a = true -> lacks sep b = true -> lacks sep (a ++ b) = true.
Proof.
  induction a as [|c a IH]; [auto|]. rewrite append_cons. cbn [lacks].
  intros H Hb. apply andb_prop in H. destruct H as [-> Ha]. cbn [andb]. auto.
Qed.

Lemma split_on_lacks sep s : lacks sep s = true -> split_on sep s = [s].
Proof.
  induction s as [|c s IH]; [reflexivity|]. cbn [lacks split_on].
  intros H. apply andb_prop in H. destruct H as [Hc Hs]. rewrite (IH Hs).
  destruct (Ascii.eqb c sep); [discriminate|reflexivity].
Qed.

Lemma split_on_app sep a b :
  lacks sep a = true ->
  split_on sep (a ++ String sep b) = a :: split_on sep b.
Proof.
  induction a as [|c a IH].
  - intros _. change (split_on sep (String sep b) = "" :: split_on sep b).
    cbn [split_on]. rewrite Ascii.eqb_refl. reflexivity.
  - rewrite append_cons. cbn [lacks split_on].
    intros H. apply andb_prop in H. destruct H as [Hc Ha]. rewrite (IH Ha).
    destruct (Ascii.eqb c sep); [discriminate|reflexivity].
Qed.

Lemma rfind_from_lacks c s : forall i last,
  lacks c s = true -> rfind_from c s i last = last.
Proof.
  induction s as [|d s IH]; intros i last; [reflexivity|]. cbn [lacks rfind_from].
  intros H. apply andb_prop in H. destruct H as [Hd Hs].
  destruct (Ascii.eqb d c); [discriminate|]. apply IH. exact Hs.
Qed.

Lemma rfind_from_app c a b : forall i last,
  rfind_from c (a ++ b) i last
  = rfind_from c b (i + Z.of_nat (String.length a)) (rfind_from c a i last).
Proof.
  induction a as [|d a IH]; intros i last.
  - change ("" ++ b)%string with b. cbn [String.length rfind_from Z.of_nat].
    rewrite Z.add_0_r. reflexivity.
  - rewrite append_cons. cbn [rfind_from String.length]. rewrite IH.
    f_equal. lia.
Qed.

Lemma substring_all b : substring 0 (String.length b) b = b.
Proof. induction b as [|c b IH]; [reflexivity|]. cbn. rewrite IH. reflexivity. Qed.

Lemma substring_skip a b :
  substring (String.length a) (String.length b) (a ++ b) = b.
Proof.
  induction a as [|c a IH].
  - apply substring_all.
  - rewrite append_cons. cbn [String.length substring]. exact IH.
Qed.

Lemma length_append (a b : string) :
  String.length (a ++ b) = (String.length a + String.length b)%nat.
Proof.
  induction a as [|c a IH]; [reflexivity|]. rewrite append_cons. cbn [String.length].
  rewrite IH. reflexivity.
Qed.

(** [int(str(n)) == n] for an episode number. *)
Lemma py_int_str_of_int n : 0 <= n -> py_int (str_of_int n) = Return n.
Proof.
  intros Hn. destruct (str_of_int_nonneg n Hn) as (d & -> & Hnil & Hval).
  unfold py_int.
  rewrite lstrip_digits by apply numeral_all_digits.
  rewrite rstrip_digits by apply numeral_all_digits.
  pose proof (parse_digits_numeral d 0) as Hp. rewrite Hval in Hp.
  destruct d; try contradiction; cbn [NilEmpty.string_of_uint] in *;
    rewrite Hp; f_equal; lia.
Qed.

End PyStr.

(** ** model.py / utils.py: save_model and load_model *)

Module CheckpointStore.
Import PyStr.

Section Store.
(** What [state_dict()] yields and the loss statistics are opaque to the
    store. *)
Variables ModelState OptState Loss : Type.

(** [data_to_save] *)
Record checkpoint : Type := {
  ck_mode : string;
  ck_episode : Z;
  ck_model_state_dict : ModelState;
  ck_optimizer_state_dict : OptState;
  ck_kl_loss : Loss;
  ck_total_val_loss : Loss
}.

(** [torch.save] writes the pickled record as the file's bytes. *)
Variable pickle : checkpoint -> string.

(** [config.experiment] and [config.data_path] *)
Record config : Type := {
  data_path : string;
  experiment_number : Z;
  experiment_episode : Z;
  prompt_deletion : bool
}.

(** The process's world: files by path, the lines waiting on standard input
    and the lines printed so far. *)
Record world : Type := {
  fs : gmap string string;
  stdin : list string;
  stdout : list string
}.

Definition set_fs (w : world) (f : gmap string string) : world :=
  {| fs := f; stdin := stdin w; stdout := stdout w |}.

Definition print (line : string) (w : world) : world :=
  {| fs := fs w; stdin := stdin w; stdout := stdout w ++ [line] |}.

(** [input()] *)
Definition input (w : world) : result string * world :=
  match stdin w with
  | [] => (Raise EOFError, w)
  | l :: rest => (Return l, {| fs := fs w; stdin := rest; stdout := stdout w |})
  end.

(** [os.path.exists] *)
Definition exists_path (w : world) (p : string) : bool := bool_decide (is_Some (fs w !! p)).

(** [torch.save(data, path)] into an existing directory. *)
Definition torch_save (d : checkpoint) (p : string) (w : world) : world :=
  set_fs w (<[p := pickle d]> (fs w)).

(** [os.remove(path)] *)
Definition os_remove (p : string) (w : world) : result unit * world :=
  match fs w !! p with
  | Some _ => (Return tt, set_fs w (delete p (fs w)))
  | None => (Raise (FileNotFoundError p), w)
  end.

(** [log_data]: append to the file when it exists, create it otherwise. *)
Definition log_data (msg log_filename : string) (w : world) : world :=
  match fs w !! log_filename with
  | Some old => set_fs w (<[log_filename := (old ++ msg)%string]> (fs w))
  | None => set_fs w (<[log_filename := msg]> (fs w))
  end.

Definition model_dir (c : config) : string :=
  path_join (path_join (data_path c) "models")
            ("experiment_" ++ str_of_int (experiment_number c))%string.

Definition checkpoint_path (c : config) (episode : Z) : string :=
  path_join (model_dir c) ("checkpoint_" ++ str_of_int episode ++ ".pth.tar")%string.

Definition positive_options : list string := ["Yes"; "y"; "yes"].
Definition negative_options : list string := ["No"; "n"; "no"].

(** [user_input in options] *)
Definition member (s : string) (options : list string) : bool :=
  existsb (String.eqb s) options.

(** The [while trials < 3] loop of [save_model].  Every iteration either
    leaves the loop or adds one to [trials], so three iterations are its
    bound; [None] stands for an exhausted bound. *)
Fixpoint overwrite_loop (bound : nat) (c : config) (d : checkpoint) (trials : Z)
    (w : world) : option (result unit * world) :=
  if negb (trials <? 3) then Some (Return tt, w)
  else
    match bound with
    | O => None
    | S bound' =>
        let '(user_input, w) :=
          if prompt_deletion c then
            input (print "Type Yes or y to confirm deletion else No or n"
                    (print ("Are you sure you want to delete checkpoint: "
                            ++ str_of_int (ck_episode d))%string w))
          else (Return "Yes", w) in
        match user_input with
        | Raise e => Some (Raise e, w)
        | Return user_input =>
            if member user_input positive_options then
              match os_remove (checkpoint_path c (ck_episode d)) w with
              | (Raise e, w) => Some (Raise e, w)
              | (Return _, w) =>
                  let w := torch_save d (checkpoint_path c (ck_episode d)) w in
                  let log_filename := path_join (model_dir c) "model_log.txt" in
                  let msg := (String "010" "*********** checkpoint "
                              ++ str_of_int (ck_episode d)
                              ++ " was deleted **************")%string in
                  Some (Return tt, log_data msg log_filename w)
              end
            else if member user_input negative_options then
              Some (Raise (ValueError
                      "Supply the correct episode number to start experiment"), w)
            else
              let trials := trials + 1 in
              let w := print "Wrong Value Supplied" w in
              let w := print ("You have " ++ str_of_int (3 - trials) ++ " left")%string w in
              if trials =? 3 then
                Some (Raise (ValueError "Supply the correct answer to the question"), w)
              else overwrite_loop bound' c d trials w
        end
    end.

(** [save_model(model, optimizer, config, stats)], with [d] the record built
    from its first, second and fourth arguments. *)
Definition save_model (c : config) (d : checkpoint) (w : world)
    : option (result unit * world) :=
  let p := checkpoint_path c (ck_episode d) in
  if negb (exists_path w p) then Some (Return tt, torch_save d p w)
  else overwrite_loop 3 c d 0 w.

(** An answer the prompt does not recognise. *)
Definition unrecognized (s : string) : Prop :=
  member s positive_options = false /\ member s negative_options = false.

Lemma unrecognized_step bound c d trials w i rest :
  trials < 3 ->
  prompt_deletion c = true ->
  stdin w = i :: rest ->
  unrecognized i ->
  exists w1,
    fs w1 = fs w /\ stdin w1 = rest /\
    overwrite_loop (S bound) c d trials w =
      if trials + 1 =? 3
      then Some (Raise (ValueError "Supply the correct answer to the question"), w1)
      else overwrite_loop bound c d (trials + 1) w1.
Proof.
  intros Ht Hp Hin [Hpos Hneg].
  eexists. split; [|split]; cycle 2.
  - cbn [overwrite_loop].
    replace (trials <? 3) with true by (symmetry; apply Z.ltb_lt; exact Ht).
    cbn [negb]. rewrite Hp. unfold input, print. cbn [stdin fs stdout].
    rewrite Hin, Hpos, Hneg. reflexivity.
  - reflexivity.
  - reflexivity.
Qed.

(** The bound of three iterations is never exhausted: [save_model] always
    returns or raises. *)
Lemma overwrite_loop_total c d w bound trials :
  3 - trials <= Z.of_nat bound ->
  exists r, overwrite_loop bound c d trials w = Some r.
Proof.
  revert trials w.
  induction bound as [|bound IH]; intros trials w Hb.
  - cbn [overwrite_loop].
    replace (trials <? 3) with false by (symmetry; apply Z.ltb_ge; lia).
    eauto.
  - cbn [overwrite_loop].
    destruct (trials <? 3) eqn:Hlt; cbn [negb]; [|eauto].
    destruct (if prompt_deletion c then _ else _) as [[user_input|e] w0]; [|eauto].
    destruct (member user_input positive_options).
    { destruct (os_remove _ w0) as [[u|e] w1]; eauto. }
    destruct (member user_input negative_options); [eauto|].
    destruct (trials + 1 =? 3); [eauto|].
    apply IH. lia.
Qed.

Lemma save_model_total c d w : exists r, save_model c d w = Some r.
Proof.
  unfold save_model.
  destruct (negb (exists_path w _)); [eauto|].
  apply overwrite_loop_total. simpl. lia.
Qed.

(** C6: an existing checkpoint, [prompt_deletion] on and three answers in a
    row that are neither affirmative nor negative: [save_model] raises and
    the files are as they were. *)
Theorem save_model_three_unrecognized c d w old i1 i2 i3 rest :
  fs w !! checkpoint_path c (ck_episode d) = Some old ->
  prompt_deletion c = true ->
  stdin w = i1 :: i2 :: i3 :: rest ->
  unrecognized i1 -> unrecognized i2 -> unrecognized i3 ->
  exists w',
    save_model c d w =
      Some (Raise (ValueError "Supply the correct answer to the question"), w') /\
    fs w' = fs w /\ stdin w' = rest.
Proof.
  intros Hold Hp Hin H1 H2 H3.
  unfold save_model, exists_path.
  rewrite bool_decide_eq_true_2 by (rewrite Hold; eauto).
  cbn [negb].
  destruct (unrecognized_step 2 c d 0 w i1 _ ltac:(lia) Hp Hin H1) as (w1 & Hf1 & Hs1 & ->).
  change (0 + 1) with 1; change (1 =? 3) with false; cbv iota.
  destruct (unrecognized_step 1 c d 1 w1 i2 _ ltac:(lia) Hp Hs1 H2) as (w2 & Hf2 & Hs2 & ->).
  change (1 + 1) with 2; change (2 =? 3) with false; cbv iota.
  destruct (unrecognized_step 0 c d 2 w2 i3 _ ltac:(lia) Hp Hs2 H3) as (w3 & Hf3 & Hs3 & ->).
  change (2 + 1) with 3; change (3 =? 3) with true; cbv iota.
  exists w3. split; [reflexivity|]. split; congruence.
Qed.

End Store.

(** [load_model] of model.py, lines 379-383: the episode to load, given what
    [os.listdir(model_dir)] returned. *)
Definition model_load_episode (listing : list string) (experiment_episode : Z) : result Z :=
  let checkpoints := List.filter (fun i => String.eqb (splitext_ext i) ".tar") listing in
  let* episodes :=
    comprehension
      (fun cp =>
         let* stem := index (split_on "." cp) 0 in
         let* field := index (split_on "_" stem) 1 in
         py_int field)
      checkpoints in
  let* max_cp := py_max episodes in
  Return (if experiment_episode =? -1 then max_cp else experiment_episode).

(** [checkpoints.pop()]: drops the last entry of the listing. *)
Definition pop {A} (xs : list A) : result (list A) :=
  match xs with
  | [] => Raise (IndexError "pop from empty list")
  | _ => Return (removelast xs)
  end.

(** [load_model] of utils.py, lines 280-284. *)
Definition utils_load_episode (listing : list string) (experiment_episode : Z) : result Z :=
  let* checkpoints := pop listing in
  let* episodes :=
    comprehension (fun cp => let* ch := char_at cp 11 in py_int ch) checkpoints in
  let* max_cp := py_max episodes in
  Return (if experiment_episode =? -1 then max_cp else experiment_episode).


Definition demo_config : config :=
  {| data_path := "data"; experiment_number := 1; experiment_episode := -1;
     prompt_deletion := true |}.

Definition demo_checkpoint : checkpoint unit unit unit :=
  {| ck_mode := "meta_train"; ck_episode := 5; ck_model_state_dict := tt;
     ck_optimizer_state_dict := tt; ck_kl_loss := tt; ck_total_val_loss := tt |}.

Definition demo_world : world :=
  {| fs := {[ "data/models/experiment_1/checkpoint_5.pth.tar" := "old" ]};
     stdin := ["maybe"; ""; "YES"];
     stdout := [] |}.

Lemma save_model_three_unrecognized_witness :
  exists w',
    save_model unit unit unit (fun _ => "new") demo_config demo_checkpoint demo_world =
      Some (Raise (ValueError "Supply the correct answer to the question"), w') /\
    fs w' = fs demo_world /\ stdin w' = [].
Proof.
  apply (save_model_three_unrecognized unit unit unit (fun _ => "new")
           demo_config demo_checkpoint demo_world "old" "maybe" "" "YES" []).
  - apply lookup_singleton_eq.
  - reflexivity.
  - reflexivity.
  - split; reflexivity.
  - split; reflexivity.
  - split; reflexivity.
Defined.

(** [int(cp[11])] on a checkpoint name: the first digit of the episode and
    nothing after it. *)
Lemma utils_reads_one_character (d : ascii) (rest : string) (v : Z) :
  digit_of d = Some v ->
  (let* ch := char_at ("checkpoint_" ++ String d rest) 11 in py_int ch) = Return v.
Proof.
  intros Hd. cbn [char_at String.get String.append bind Nat.eqb].
  destruct d as [[] [] [] [] [] [] [] []]; cbn in Hd; try discriminate;
    injection Hd as <-; reflexivity.
Qed.

(** The name [save_model] gives the checkpoint of an episode. *)
Definition checkpoint_name (episode : Z) : string :=
  ("checkpoint_" ++ str_of_int episode ++ ".pth.tar")%string.

Lemma str_of_int_digits n : 0 <= n -> all_digits (str_of_int n) = true.
Proof.
  intros Hn. destruct (str_of_int_nonneg n Hn) as (d & -> & _ & _).
  apply numeral_all_digits.
Qed.

(** A checkpoint name passes the filter of model.py, line 380. *)
Lemma checkpoint_name_is_tar n :
  0 <= n -> splitext_ext (checkpoint_name n) = ".tar".
Proof.
  intros Hn. pose proof (str_of_int_digits n Hn) as Hd.
  set (stem := ("checkpoint_" ++ str_of_int n ++ ".pth")%string).
  assert (checkpoint_name n = (stem ++ ".tar")%string) as Hname.
  { unfold checkpoint_name, stem. rewrite !append_assoc. reflexivity. }
  assert (lacks "/" stem = true) as Hsep.
  { unfold stem. apply lacks_app; [reflexivity|]. apply lacks_app; [|reflexivity].
    apply lacks_digits; [reflexivity|exact Hd]. }
  assert (exists k, String.length stem = S k) as [k Hk].
  { unfold stem. change ("checkpoint_" ++ str_of_int n ++ ".pth")%string
      with (String "c" ("heckpoint_" ++ str_of_int n ++ ".pth"))%string.
    cbn [String.length]. eauto. }
  unfold splitext_ext. rewrite Hname.
  unfold rfind. rewrite !rfind_from_app.
  rewrite (rfind_from_lacks "/" stem) by exact Hsep.
  cbn [rfind_from Ascii.eqb Bool.eqb String.length].
  change (0 + Z.of_nat (String.length stem)) with (Z.of_nat (String.length stem)).
  replace (-1 <? Z.of_nat (String.length stem)) with true
    by (symmetry; apply Z.ltb_lt; lia).
  change (Z.to_nat (-1 + 1)) with 0%nat.
  rewrite Nat2Z.id, Nat.sub_0_r.
  replace (substring 0 (String.length stem) (stem ++ ".tar"))
    with (substring 0 (S k) (String "c" ("heckpoint_" ++ str_of_int n ++ ".pth.tar")))
    by (rewrite <- Hk, <- Hname; reflexivity).
  cbn [substring all_dots Ascii.eqb Bool.eqb andb].
  rewrite length_append, Nat.add_comm, Nat.add_sub.
  exact (substring_skip stem ".tar").
Qed.

(** model.py, line 381, on one checkpoint name: the whole episode number. *)
Lemma model_reads_episode n :
  0 <= n ->
  (let* stem := index (split_on "." (checkpoint_name n)) 0 in
   let* field := index (split_on "_" stem) 1 in
   py_int field) = Return n.
Proof.
  intros Hn. pose proof (str_of_int_digits n Hn) as Hd.
  unfold checkpoint_name.
  change ("checkpoint_" ++ str_of_int n ++ ".pth.tar")%string
    with ("checkpoint_" ++ (str_of_int n ++ String "." "pth.tar"))%string.
  rewrite <- append_assoc.
  rewrite split_on_app.
  2:{ apply lacks_app; [reflexivity|]. apply lacks_digits; [reflexivity|exact Hd]. }
  cbn [index nth_error bind].
  change ("checkpoint_" ++ str_of_int n)%string
    with ("checkpoint" ++ String "_" (str_of_int n))%string.
  rewrite split_on_app by reflexivity.
  rewrite split_on_lacks by (apply lacks_digits; [reflexivity|exact Hd]).
  cbn [index nth_error bind]. apply py_int_str_of_int. exact Hn.
Qed.

Lemma comprehension_episodes episodes :
  Forall (fun n => 0 <= n) episodes ->
  comprehension
    (fun cp =>
       let* stem := index (split_on "." cp) 0 in
       let* field := index (split_on "_" stem) 1 in
       py_int field)
    (List.map checkpoint_name episodes) = Return episodes.
Proof.
  induction 1 as [|n episodes Hn _ IH]; [reflexivity|].
  cbn [List.map comprehension]. rewrite (model_reads_episode n Hn). cbn [bind].
  rewrite IH. reflexivity.
Qed.

Lemma fold_max_bounds xs : forall x,
  let m := fold_left Z.max xs x in
  In m (x :: xs) /\ Forall (fun n => n <= m) (x :: xs).
Proof.
  induction xs as [|y xs IH]; intros x; cbn [fold_left].
  - split; [left; reflexivity|]. constructor; [lia|constructor].
  - destruct (IH (Z.max x y)) as [Hin Hall]. cbn zeta in *.
    inversion Hall as [|? ? Hmax Hrest]; subst. split.
    + destruct Hin as [Heq|Hin]; [|right; right; exact Hin].
      rewrite <- Heq.
      destruct (Z.max_spec x y) as [[_ ->]|[_ ->]]; [right; left|left]; reflexivity.
    + constructor; [lia|]. constructor; [lia|exact Hrest].
Qed.

(** [load_model] of model.py selects the largest episode, of however many
    digits, when the files of extension [.tar] in the directory are the
    checkpoints that [save_model] wrote. *)
Lemma model_load_latest_is_max listing episodes :
  List.filter (fun i => String.eqb (splitext_ext i) ".tar") listing
    = List.map checkpoint_name episodes ->
  episodes <> [] ->
  Forall (fun n => 0 <= n) episodes ->
  exists m, model_load_episode listing (-1) = Return m /\
            In m episodes /\ Forall (fun n => n <= m) episodes.
Proof.
  intros Hfilter Hne Hpos. unfold model_load_episode.
  rewrite Hfilter, (comprehension_episodes episodes Hpos). cbn [bind].
  destruct episodes as [|x xs]; [contradiction|].
  cbn [py_max bind]. eexists. split; [reflexivity|].
  exact (fold_max_bounds xs x).
Qed.

Lemma filter_checkpoints episodes :
  Forall (fun n => 0 <= n) episodes ->
  List.filter (fun i => String.eqb (splitext_ext i) ".tar") (List.map checkpoint_name episodes)
    = List.map checkpoint_name episodes.
Proof.
  induction 1 as [|n episodes Hn _ IH]; [reflexivity|].
  cbn [List.map List.filter]. rewrite (checkpoint_name_is_tar n Hn), IH. reflexivity.
Qed.

(** The directory as the program leaves it: the checkpoints and the two log
    files of [check_experiment]. *)
Corollary model_load_latest_with_logs episodes :
  episodes <> [] ->
  Forall (fun n => 0 <= n) episodes ->
  exists m,
    model_load_episode
      (List.map checkpoint_name episodes ++ ["model_log.txt"; "val_stats_log.txt"]) (-1)
      = Return m /\
    In m episodes /\ Forall (fun n => n <= m) episodes.
Proof.
  intros Hne Hpos. apply model_load_latest_is_max; [|exact Hne|exact Hpos].
  rewrite List.filter_app, (filter_checkpoints episodes Hpos).
  apply app_nil_r.
Qed.

(** C7: with checkpoints of episodes 9 and 10 and the log file in the
    directory, [load_model] of utils.py takes episode 9 for the latest (it
    reads the single character at index 11 of each name), where [load_model]
    of model.py takes episode 10. *)
Theorem utils_load_latest_first_digit_only :
  utils_load_episode ["checkpoint_9.pth.tar"; "checkpoint_10.pth.tar"; "model_log.txt"] (-1)
    = Return 9 /\
  model_load_episode ["checkpoint_9.pth.tar"; "checkpoint_10.pth.tar"; "model_log.txt"] (-1)
    = Return 10.
Proof. split; reflexivity. Qed.

End CheckpointStore.

(** ** model.py: EncoderBlock.forward *)

Module Encoder.
Local Open Scope nat_scope.

Definition output_layers : list nat := [1; 3; 6; 13].

(** [i in output_layers] *)
Definition is_output (i : nat) : bool := existsb (Nat.eqb i) output_layers.

Section Backbone.
Variable Tensor : Type.

(** Lines 24-27: [i] counts the layers passed, [features] grows by the
    activations of the output layers. *)
Fixpoint encoder_loop (i : nat) (layers : list (Tensor -> Tensor)) (x : Tensor)
    (features : list Tensor) : Tensor * list Tensor :=
  match layers with
  | [] => (x, features)
  | layer :: rest =>
      let x := layer x in
      let features := if is_output i then features ++ [x] else features in
      encoder_loop (S i) rest x features
  end.

Definition forward (layers : list (Tensor -> Tensor)) (x : Tensor) : Tensor * list Tensor :=
  encoder_loop 0 layers x [].

(** The activation after the first [k] layers. *)
Definition activation (layers : list (Tensor -> Tensor)) (k : nat) (x : Tensor) : Tensor :=
  fold_left (fun t layer => layer t) (firstn k layers) x.

Lemma encoder_loop_taps layers : forall i x features,
  encoder_loop i layers x features
  = (activation layers (List.length layers) x,
     features ++ List.map (fun j => activation layers (S (j - i)) x)
                          (List.filter is_output (seq i (List.length layers)))).
Proof.
  induction layers as [|layer rest IH]; intros i x features.
  - cbn. rewrite app_nil_r. reflexivity.
  - cbn [encoder_loop List.length seq List.filter]. rewrite IH.
    unfold activation. cbn [firstn fold_left]. f_equal.
    assert (List.map (fun j => fold_left (fun t l => l t) (firstn (S (j - S i)) rest) (layer x))
                     (List.filter is_output (seq (S i) (List.length rest)))
            = List.map (fun j => fold_left (fun t l => l t)
                                           (firstn (S (j - i)) (layer :: rest)) x)
                       (List.filter is_output (seq (S i) (List.length rest)))) as Hshift.
    { apply map_ext_in. intros j Hj. apply filter_In in Hj. destruct Hj as [Hj _].
      apply in_seq in Hj. replace (j - i)%nat with (S (j - S i)) by lia. reflexivity. }
    rewrite Hshift. destruct (is_output i).
    + cbn [List.map]. rewrite Nat.sub_diag, <- app_assoc. reflexivity.
    + reflexivity.
Qed.

Lemma no_output_from n : forall i, (14 <= i)%nat -> List.filter is_output (seq i n) = [].
Proof.
  induction n as [|n IH]; intros i Hi; [reflexivity|].
  cbn [seq List.filter]. rewrite (IH (S i)) by lia.
  replace (is_output i) with false; [reflexivity|].
  unfold is_output, output_layers. cbn [existsb].
  repeat match goal with
         | |- context [Nat.eqb i ?k] =>
             replace (Nat.eqb i k) with false by (symmetry; apply Nat.eqb_neq; lia)
         end.
  reflexivity.
Qed.

Lemma filter_shorter (f : nat -> bool) n m :
  (n <= m)%nat ->
  (List.length (List.filter f (seq 0 n)) <= List.length (List.filter f (seq 0 m)))%nat.
Proof.
  intros Hnm. replace m with (n + (m - n))%nat by lia.
  rewrite seq_app, List.filter_app, length_app. lia.
Qed.

(** X30: the encoder returns the activation of its last layer and, for a
    backbone of at least 14 layers, exactly four skip features: the
    activations after the layers of index 1, 3, 6 and 13, in that order.  A
    shorter backbone yields fewer than four. *)
Theorem forward_taps layers x :
  fst (forward layers x) = activation layers (List.length layers) x /\
  ((14 <= List.length layers)%nat ->
   snd (forward layers x)
   = [activation layers 2 x; activation layers 4 x; activation layers 7 x;
      activation layers 14 x]) /\
  ((List.length layers < 14)%nat -> (List.length (snd (forward layers x)) < 4)%nat).
Proof.
  unfold forward. rewrite encoder_loop_taps. cbn [fst snd app].
  split; [reflexivity|]. split; intros Hn.
  - replace (List.length layers) with (14 + (List.length layers - 14))%nat at 1 by lia.
    rewrite seq_app, List.filter_app, (no_output_from _ (0 + 14)) by lia.
    reflexivity.
  - rewrite length_map.
    pose proof (filter_shorter is_output (List.length layers) 13 ltac:(lia)) as Hle.
    change (List.length (List.filter is_output (seq 0 13))) with 3%nat in Hle. lia.
Qed.

End Backbone.

(** A backbone of 19 layers, as mobilenet_v2 has, each adding one. *)
Definition demo_layers : list (Z -> Z) := repeat Z.succ 19.

Lemma forward_taps_witness :
  fst (forward Z demo_layers 0%Z) = activation Z demo_layers (List.length demo_layers) 0%Z /\
  (14 <= List.length demo_layers ->
   snd (forward Z demo_layers 0%Z)
   = [activation Z demo_layers 2 0%Z; activation Z demo_layers 4 0%Z;
      activation Z demo_layers 7 0%Z; activation Z demo_layers 14 0%Z]) /\
  (List.length demo_layers < 14 -> List.length (snd (forward Z demo_layers 0%Z)) < 4).
Proof. exact (forward_taps Z demo_layers 0%Z). Defined.

End Encoder.

(** ** model.py: LEO.forward_segnetwork *)

Module SegmentationHead.

Section Head.
Variable Tensor : Type.
(** [torch.cat(tensors, dim)] *)
Variable torch_cat : list Tensor -> Z -> Tensor.
(** [F.conv2d(input, weight, bias, stride, padding)]; the kernel size is the
    shape of [weight]. *)
Variable conv2d : Tensor -> Tensor -> option Tensor -> Z -> Z -> Tensor.
(** What the name [bias] would denote in a module that binds it. *)
Variable bias : option Tensor.

Definition forward_segnetwork_locals : list string :=
  ["self"; "decoder_out"; "x"; "weight"; "o"; "pred"].

(** Lines 126-128, in a module whose top level binds [globals].  The stride
    is conv2d's default, 1; [seg_weight] is the weight stored on [self]. *)
Definition forward_segnetwork_in (globals : list string) (seg_weight : Tensor)
    (decoder_out x weight : Tensor) : result Tensor :=
  let o := torch_cat [decoder_out; x] 1 in
  if resolves globals forward_segnetwork_locals "bias"
  then Return (conv2d o weight bias 1 1)
  else Raise (NameError "bias").

(** The method as model.py has it. *)
Definition forward_segnetwork := forward_segnetwork_in module_names.

(** C9: [forward_segnetwork] hands [F.conv2d] the name [bias], which nothing
    in model.py binds: every call raises [NameError] and no logits are
    returned. *)
Theorem forward_segnetwork_raises seg_weight decoder_out x weight :
  forward_segnetwork seg_weight decoder_out x weight = Raise (NameError "bias").
Proof. reflexivity. Qed.

(** With [bias] bound at module level the method is the one convolution over
    the channel-wise concatenation, with the weight it was given. *)
Lemma forward_segnetwork_bound globals seg_weight decoder_out x weight :
  In "bias" globals ->
  forward_segnetwork_in globals seg_weight decoder_out x weight =
    Return (conv2d (torch_cat [decoder_out; x] 1) weight bias 1 1).
Proof.
  intros Hin. unfold forward_segnetwork_in.
  replace (resolves globals forward_segnetwork_locals "bias") with true; [reflexivity|].
  symmetry. unfold resolves. apply existsb_exists. exists "bias". split.
  - apply in_or_app. right. apply in_or_app. left. exact Hin.
  - reflexivity.
Qed.

(** The weight stored on [self] plays no part. *)
Lemma forward_segnetwork_ignores_stored globals sw1 sw2 decoder_out x weight :
  forward_segnetwork_in globals sw1 decoder_out x weight =
  forward_segnetwork_in globals sw2 decoder_out x weight.
Proof. reflexivity. Qed.

End Head.

End SegmentationHead.

(** ** model.py: DecoderBlock.forward and the forward pass of LEO *)

Module Net.

(** The Python values that the forward pass hands around: a tensor, a list,
    a tuple, or the generator that [parameters()] returns. *)
#[local] Unset Elimination Schemes.
Inductive value (Tensor : Type) : Type :=
| VTensor (t : Tensor)
| VList (items : list (value Tensor))
| VTuple (items : list (value Tensor))
| VGenerator (items : list (value Tensor)).
#[local] Set Elimination Schemes.
Arguments VTensor {Tensor} t.
Arguments VList {Tensor} items.
Arguments VTuple {Tensor} items.
Arguments VGenerator {Tensor} items.

Definition type_name {Tensor} (v : value Tensor) : string :=
  match v with
  | VTensor _ => "Tensor"
  | VList _ => "list"
  | VTuple _ => "tuple"
  | VGenerator _ => "generator"
  end.

(** [xs[i]] on a list or a tuple; a negative index counts from the end. *)
Definition sequence_index {A} (xs : list A) (i : Z) : result A :=
  let n := Z.of_nat (List.length xs) in
  let j := if i <? 0 then n + i else i in
  if (0 <=? j) && (j <? n) then
    match nth_error xs (Z.to_nat j) with
    | Some x => Return x
    | None => Raise (IndexError "index out of range")
    end
  else Raise (IndexError "index out of range").

(** The library functions that the methods of [LEO] call, on tensors whose
    shapes fit: torch, numpy and [utils.calc_iou_per_class]. *)
Class Lib (Tensor Scalar IoU : Type) : Type := {
  (** [torch.cat(tensors, dim)] *)
  torch_cat : list Tensor -> Z -> Tensor;
  (** [F.conv2d(input, weight, bias, stride, padding)] *)
  conv2d : Tensor -> Tensor -> option Tensor -> Z -> Z -> Tensor;
  (** [t.requires_grad] *)
  requires_grad : Tensor -> bool;
  (** [t[i]] and [t[:n]] *)
  tensor_index : Tensor -> Z -> Tensor;
  tensor_slice : Tensor -> Z -> Tensor;
  (** [iter(t)]: the slices along the first dimension; a tensor without
      dimensions cannot be iterated. *)
  tensor_iter : Tensor -> result (list Tensor);
  (** [CrossEntropyLoss()(input, target)] *)
  loss_fn : Tensor -> Tensor -> Tensor;
  (** [torch.autograd.grad(output, inputs, create_graph=False)] on a list of
      tensors: one gradient for each input. *)
  autograd_grad : Tensor -> list Tensor -> list Tensor;
  (** [t.long()] *)
  long : Tensor -> Tensor;
  (** [c * t], [a - b], [a + b], [t / n] *)
  smul : Scalar -> Tensor -> Tensor;
  sub : Tensor -> Tensor -> Tensor;
  tadd : Tensor -> Tensor -> Tensor;
  tdiv : Tensor -> Z -> Tensor;
  (** [float(t)] *)
  to_float : Tensor -> Scalar;
  calc_iou_per_class : Tensor -> Tensor -> IoU;
  (** [np.mean] of a list of IoUs and of a list of losses *)
  np_mean_iou : list IoU -> IoU;
  np_mean_loss : list Tensor -> Tensor
}.

(** Tensors that are updated in place live in a heap. *)
Abbreviation loc := positive.
Abbreviation heap Tensor := (gmap positive Tensor).

(** The layers of [self.decoder], at their current parameters, and the cells
    of those parameters in the order of [parameters()]. *)
Record DecoderBlock (Tensor : Type) : Type := {
  conv_trans1 : Tensor -> Tensor;
  conv_1 : Tensor -> Tensor;
  conv_trans2 : Tensor -> Tensor;
  conv_2 : Tensor -> Tensor;
  conv_trans3 : Tensor -> Tensor;
  conv_3 : Tensor -> Tensor;
  conv_trans4 : Tensor -> Tensor;
  conv_4 : Tensor -> Tensor;
  conv_trans_final : Tensor -> Tensor;
  parameters : list loc
}.
Arguments conv_trans1 {Tensor} d.
Arguments conv_1 {Tensor} d.
Arguments conv_trans2 {Tensor} d.
Arguments conv_2 {Tensor} d.
Arguments conv_trans3 {Tensor} d.
Arguments conv_3 {Tensor} d.
Arguments conv_trans4 {Tensor} d.
Arguments conv_4 {Tensor} d.
Arguments conv_trans_final {Tensor} d.
Arguments parameters {Tensor} d.

(** An instance of [LEO]: what its methods read from [self] and from
    [self.config]. *)
Record LEO (Tensor Scalar : Type) : Type := {
  encoder : list (Tensor -> Tensor);   (* self.encoder.layers *)
  decoder : DecoderBlock Tensor;
  seg_weight : loc;
  inner_loop_lr : Scalar;
  num_adaptation_steps : Z;
  finetuning_lr : Scalar;
  num_finetuning_steps : Z;
  display_stats_interval : Z
}.
Arguments encoder {Tensor Scalar} l.
Arguments decoder {Tensor Scalar} l.
Arguments seg_weight {Tensor Scalar} l.
Arguments inner_loop_lr {Tensor Scalar} l.
Arguments num_adaptation_steps {Tensor Scalar} l.
Arguments finetuning_lr {Tensor Scalar} l.
Arguments num_finetuning_steps {Tensor Scalar} l.
Arguments display_stats_interval {Tensor Scalar} l.

(** The attributes of an instance of [LEO] that model.py provides: the
    methods of the class body and what [__init__] assigns.  [leo_inner_loop]
    is not one of them, and [nn.Module] has no attribute of that name. *)
Definition LEO_attributes : list string :=
  [ "__init__"; "freeze_encoder"; "forward_encoder"; "forward_decoder";
    "forward_segnetwork"; "forward"; "finetuning_inner_loop"; "compute_loss";
    "config"; "mode"; "img_dims"; "encoder"; "decoder"; "device"; "seg_weight";
    "loss_fn"; "optimizer_decoder"; "optimizer_seg_network" ].

Definition has_attribute (attributes : list string) (name : string) : bool :=
  existsb (String.eqb name) attributes.

Section Network.
Context {Tensor Scalar IoU : Type} `{!Lib Tensor Scalar IoU} `{!Inhabited Tensor}.
(** What the name [bias] would denote in a module that binds it. *)
Variable bias : option Tensor.

Local Abbreviation value := (value Tensor).

(** A torch function handed something that is not a tensor. *)
Definition as_tensor (v : value) : result Tensor :=
  match v with
  | VTensor t => Return t
  | _ => Raise (TypeError ("expected Tensor, got " ++ type_name v))
  end.

(** [v[i]] *)
Definition subscript (v : value) (i : Z) : result value :=
  match v with
  | VTensor t => Return (VTensor (tensor_index t i))
  | VList items | VTuple items => sequence_index items i
  | VGenerator _ => Raise (TypeError "'generator' object is not subscriptable")
  end.

(** [v[:n]] *)
Definition slice_to (v : value) (n : nat) : result value :=
  match v with
  | VTensor t => Return (VTensor (tensor_slice t (Z.of_nat n)))
  | VList items => Return (VList (firstn n items))
  | VTuple items => Return (VTuple (firstn n items))
  | VGenerator _ => Raise (TypeError "'generator' object is not subscriptable")
  end.

(** [a + b] *)
Definition add (a b : value) : result value :=
  match a, b with
  | VTensor s, VTensor t => Return (VTensor (tadd s t))
  | VList xs, VList ys => Return (VList (xs ++ ys))
  | VTuple xs, VTuple ys => Return (VTuple (xs ++ ys))
  | _, _ => Raise (TypeError ("cannot add " ++ type_name b ++ " to " ++ type_name a))
  end.

(** [v.requires_grad] *)
Definition get_requires_grad (v : value) : result bool :=
  match v with
  | VTensor t => Return (requires_grad t)
  | _ => Raise (AttributeError (type_name v) "requires_grad")
  end.

(** [torch.autograd.grad(output, inputs, create_graph=False)]: every input
    has to be a tensor. *)
Definition torch_autograd_grad (output : Tensor) (inputs : list value)
    : result (list Tensor) :=
  match mapM (fun v => match v with VTensor t => Some t | _ => None end) inputs with
  | Some leaves => Return (autograd_grad output leaves)
  | None => Raise (TypeError "grad: all inputs have to be Tensors")
  end.

(** Lines 22-28, [EncoderBlock.forward]: the tuple [(x, features)]. *)
Definition EncoderBlock_forward (layers : list (Tensor -> Tensor)) (x : Tensor) : value :=
  let '(x, features) := Encoder.forward Tensor layers x in
  VTuple [VTensor x; VList (List.map VTensor features)].

(** Lines 59-72, [DecoderBlock.forward(x, concat_features)]. *)
Definition DecoderBlock_forward (d : DecoderBlock Tensor) (x concat_features : value)
    : result Tensor :=
  let* x := as_tensor x in
  let o := conv_trans1 d x in
  let* f := let* f := subscript concat_features (-1) in as_tensor f in
  let o := torch_cat [o; f] 1 in
  let o := conv_1 d o in
  let o := conv_trans2 d o in
  let* f := let* f := subscript concat_features (-2) in as_tensor f in
  let o := torch_cat [o; f] 1 in
  let o := conv_2 d o in
  let o := conv_trans3 d o in
  let* f := let* f := subscript concat_features (-3) in as_tensor f in
  let o := torch_cat [o; f] 1 in
  let o := conv_3 d o in
  let o := conv_trans4 d o in
  let* f := let* f := subscript concat_features (-4) in as_tensor f in
  let o := torch_cat [o; f] 1 in
  let o := conv_4 d o in
  let o := conv_trans_final d o in
  Return o.

(** [self.decoder(...)]: the arguments are bound to the parameters [x] and
    [concat_features] of [DecoderBlock.forward]. *)
Definition call_decoder (d : DecoderBlock Tensor) (args : list value) : result Tensor :=
  match args with
  | [x; concat_features] => DecoderBlock_forward d x concat_features
  | [] | [_] => Raise (TypeError "forward() missing required positional arguments")
  | _ => Raise (TypeError "forward() takes 3 positional arguments but more were given")
  end.

(** Lines 105-108.  The flag that line 107 would set is not part of a
    tensor's value. *)
Definition forward_encoder (self : LEO Tensor Scalar) (x : Tensor) : result value :=
  let encoder_outputs := EncoderBlock_forward (encoder self) x in
  let* last := subscript encoder_outputs (-1) in
  let* _ := get_requires_grad last in
  Return encoder_outputs.

(** Lines 112-113. *)
Definition forward_decoder (self : LEO Tensor Scalar) (encoder_outputs : value)
    : result Tensor :=
  let* output := call_decoder (decoder self) [encoder_outputs] in
  Return output.

(** Lines 126-128. *)
Definition forward_segnetwork_in (globals : list string) (self : LEO Tensor Scalar)
    (h : heap Tensor) (decoder_out x weight : Tensor) : result Tensor :=
  SegmentationHead.forward_segnetwork_in Tensor torch_cat conv2d bias globals
    (h !!! seg_weight self) decoder_out x weight.

(** Lines 143-150, [forward(x, latents=None)]. *)
Definition forward_in (globals : list string) (self : LEO Tensor Scalar) (h : heap Tensor)
    (x : Tensor) (latents : option value) : result (value * Tensor * Tensor) :=
  let* encoder_outputs := forward_encoder self x in
  let* (encoder_outputs, latents) :=
    match latents with
    | Some latents =>
        let* head := slice_to encoder_outputs 4 in
        let* encoder_outputs := add head (VList [latents]) in
        Return (encoder_outputs, latents)
    | None =>
        let* latents := subscript encoder_outputs (-1) in
        Return (encoder_outputs, latents)
    end in
  let* features := forward_decoder self encoder_outputs in
  let* pred := forward_segnetwork_in globals self h features x (h !!! seg_weight self) in
  Return (latents, features, pred).

(** The encoder hands back a tuple whose last element is the list of skip
    features: line 106 asks a list for [requires_grad]. *)
Lemma forward_encoder_raises self x :
  forward_encoder self x = Raise (AttributeError "list" "requires_grad").
Proof.
  unfold forward_encoder, EncoderBlock_forward.
  destruct (Encoder.forward Tensor (encoder self) x) as [out features].
  reflexivity.
Qed.

(** [self.decoder] is called with one argument where its [forward] takes
    two. *)
Lemma forward_decoder_raises self encoder_outputs :
  exists msg, forward_decoder self encoder_outputs = Raise (TypeError msg).
Proof. eexists. reflexivity. Qed.

Lemma forward_raises globals self h x latents :
  forward_in globals self h x latents = Raise (AttributeError "list" "requires_grad").
Proof. unfold forward_in. rewrite forward_encoder_raises. reflexivity. Qed.

End Network.

(** A small instance: tensors are integers, every layer adds one, and every
    gradient is one. *)
#[export] Instance demo_lib : Lib Z Z Z := {|
  torch_cat := fun tensors _ => fold_right Z.add 0 tensors;
  conv2d := fun o weight _ _ _ => o * weight;
  requires_grad := fun _ => false;
  tensor_index := fun t _ => t;
  tensor_slice := fun t _ => t;
  tensor_iter := fun _ => Raise (TypeError "iteration over a 0-d tensor");
  loss_fn := Z.sub;
  autograd_grad := fun _ inputs => List.map (fun _ => 1) inputs;
  long := fun t => t;
  smul := Z.mul;
  sub := Z.sub;
  tadd := Z.add;
  tdiv := Z.div;
  to_float := fun t => t;
  calc_iou_per_class := fun _ _ => 0;
  np_mean_iou := fun _ => 0;
  np_mean_loss := fun _ => 0
|}.

Definition demo_decoder : DecoderBlock Z :=
  {| conv_trans1 := Z.succ; conv_1 := Z.succ; conv_trans2 := Z.succ; conv_2 := Z.succ;
     conv_trans3 := Z.succ; conv_3 := Z.succ; conv_trans4 := Z.succ; conv_4 := Z.succ;
     conv_trans_final := Z.succ; parameters := [2%positive] |}.

Definition demo_self (num_adaptation_steps num_finetuning_steps : Z) : LEO Z Z :=
  {| encoder := Encoder.demo_layers; decoder := demo_decoder; seg_weight := 1%positive;
     inner_loop_lr := 1; num_adaptation_steps := num_adaptation_steps;
     finetuning_lr := 1; num_finetuning_steps := num_finetuning_steps;
     display_stats_interval := 10 |}.

(** The head weight is 10, the one decoder parameter is 2. *)
Definition demo_heap : gmap positive Z := {[ 1%positive := 10; 2%positive := 2 ]}.

End Net.

(** ** model.py: leo_inner_loop *)

Module InnerLoop.
Import Net.

Section Adapter.
Context {Tensor Scalar IoU : Type} `{!Lib Tensor Scalar IoU} `{!Inhabited Tensor}.
Variable bias : option Tensor.

(** The locals that outlive an iteration of the loop of lines 169-175;
    [features] is bound by line 174 only. *)
Record locals : Type := {
  l_latents : value Tensor;
  l_features : option Tensor;
  l_tr_loss : Tensor
}.

(** Lines 170-175: one adaptation step. *)
Definition adaptation_step (globals : list string) (self : LEO Tensor Scalar)
    (h : heap Tensor) (x y : Tensor) (s : locals) : result locals :=
  let inner_lr := inner_loop_lr self in
  let* grads := torch_autograd_grad (l_tr_loss s) [l_latents s] in
  let* latents_grad := sequence_index grads 0 in
  let* latents := as_tensor (l_latents s) in
  let latents := sub latents (smul inner_lr latents_grad) in
  let* (latents, features, pred) :=
    forward_in bias globals self h x (Some (VTensor latents)) in
  let tr_loss := loss_fn pred (long y) in
  Return {| l_latents := latents; l_features := Some features; l_tr_loss := tr_loss |}.

(** [for _ in range(...)] over the body above. *)
Fixpoint adapt (globals : list string) (self : LEO Tensor Scalar) (h : heap Tensor)
    (x y : Tensor) (steps : list nat) (s : locals) : result locals :=
  match steps with
  | [] => Return s
  | _ :: rest =>
      let* s := adaptation_step globals self h x y s in
      adapt globals self h x y rest s
  end.

(** Lines 166-178: the body of the function that model.py nests under
    [forward]. *)
Definition leo_inner_loop_in (globals : list string) (self : LEO Tensor Scalar)
    (h : heap Tensor) (x y : Tensor) : result (Tensor * Tensor) :=
  let* (latents, _, pred) := forward_in bias globals self h x None in
  let tr_loss := loss_fn y pred in
  let* s := adapt globals self h x y (range (num_adaptation_steps self))
                  {| l_latents := latents; l_features := None; l_tr_loss := tr_loss |} in
  let* grads := torch_autograd_grad (l_tr_loss s) [VTensor (h !!! seg_weight self)] in
  let* seg_weight_grad := sequence_index grads 0 in
  match l_features s with
  | None => Raise (UnboundLocalError "features")
  | Some features => Return (seg_weight_grad, features)
  end.

Definition leo_inner_loop := leo_inner_loop_in module_names.

(** [self.leo_inner_loop(x, y)] on an instance with the given attributes:
    the attribute is looked up, then called. *)
Definition call_leo_inner_loop_in (attributes globals : list string)
    (self : LEO Tensor Scalar) (h : heap Tensor) (x y : Tensor)
    : result (Tensor * Tensor) :=
  if has_attribute attributes "leo_inner_loop"
  then leo_inner_loop_in globals self h x y
  else Raise (AttributeError "LEO" "leo_inner_loop").

(** The call on an instance of the class of model.py. *)
Definition call_leo_inner_loop := call_leo_inner_loop_in LEO_attributes module_names.

(** The body stops at its first statement that calls [forward], whatever
    the module binds. *)
Lemma leo_inner_loop_in_raises globals self h x y :
  leo_inner_loop_in globals self h x y = Raise (AttributeError "list" "requires_grad").
Proof. unfold leo_inner_loop_in. rewrite forward_raises. reflexivity. Qed.

(** C3: with [num_adaptation_steps = 0], as with any other number of steps,
    the inner loop returns no gradient.  Called as model.py calls it, as a
    method of [LEO], it raises [AttributeError]: the definition is nested
    under [forward] and the class has no such attribute.  Run as a method of
    a class that had it, its body raises at the initial forward pass of line
    167, where [forward_encoder] asks the list of skip features for
    [requires_grad]; no loss and no gradient are computed. *)
Theorem leo_inner_loop_zero_steps_raises (self : LEO Tensor Scalar) h x y :
  num_adaptation_steps self = 0 ->
  call_leo_inner_loop self h x y = Raise (AttributeError "LEO" "leo_inner_loop") /\
  leo_inner_loop self h x y = Raise (AttributeError "list" "requires_grad") /\
  forall attributes globals r,
    call_leo_inner_loop_in attributes globals self h x y <> Return r.
Proof.
  intros _. split; [reflexivity|]. split; [apply leo_inner_loop_in_raises|].
  intros attributes globals r. unfold call_leo_inner_loop_in.
  rewrite leo_inner_loop_in_raises.
  destruct (has_attribute attributes "leo_inner_loop"); discriminate.
Qed.

End Adapter.

Lemma leo_inner_loop_zero_steps_witness :
  call_leo_inner_loop None (demo_self 0 2) demo_heap 1 0
    = Raise (AttributeError "LEO" "leo_inner_loop") /\
  leo_inner_loop None (demo_self 0 2) demo_heap 1 0
    = Raise (AttributeError "list" "requires_grad") /\
  forall attributes globals r,
    call_leo_inner_loop_in None attributes globals (demo_self 0 2) demo_heap 1 0
      <> Return r.
Proof.
  apply (leo_inner_loop_zero_steps_raises None (demo_self 0 2) demo_heap 1 0).
  reflexivity.
Defined.

End InnerLoop.

(** ** model.py: LEO.finetuning_inner_loop *)

Module Finetuner.
Import Net.

(** Ghost events, one per execution of the source line named. *)
Inductive event : Type :=
| EvDescent     (* line 206: [weight -= finetuning_lr * seg_weight_grad] *)
| EvValidation. (* lines 209-216: the pass over the validation set *)

Definition is_descent (e : event) : bool :=
  match e with EvDescent => true | EvValidation => false end.

Definition is_validation (e : event) : bool :=
  match e with EvValidation => true | EvDescent => false end.

Definition descents (log : list event) : nat := List.length (List.filter is_descent log).
Definition validations (log : list event) : nat := List.length (List.filter is_validation log).

(** [data_dict]: an [EasyDict], read by attribute. *)
Abbreviation data_dict Tensor := (gmap string Tensor).

Definition getattr {Tensor} (d : data_dict Tensor) (name : string) : result Tensor :=
  match d !! name with
  | Some v => Return v
  | None => Raise (AttributeError "EasyDict" name)
  end.

Record state (Tensor : Type) : Type := {
  mem : heap Tensor;
  log : list event
}.
Arguments mem {Tensor} s.
Arguments log {Tensor} s.

Section Finetune.
Context {Tensor Scalar IoU : Type} `{!Lib Tensor Scalar IoU} `{!Inhabited Tensor}.
Variables Path Transformer : Type.
(** What the free names [bias], [data] and [list_to_tensor] would denote in
    a module that binds them; [tqdm] would hand its argument on. *)
Variable bias : option Tensor.
Variable data_val_imgs data_val_masks : list Path.
Variable list_to_tensor : Path -> Transformer -> Tensor.

Local Abbreviation LEO := (LEO Tensor Scalar).
Local Abbreviation data_dict := (data_dict Tensor).
Local Abbreviation state := (state Tensor).
Local Abbreviation heap := (heap Tensor).

(** The 4-tuple of the [return] statements; [None] is Python's. *)
Definition outcome : Type := Tensor * option Tensor * option Tensor * IoU.

Definition finetuning_locals : list string :=
  [ "self"; "data_dict"; "tr_features"; "seg_weight_grad"; "transformers"; "mode";
    "img_transformer"; "mask_transformer"; "finetuning_lr"; "num_steps"; "weight";
    "pred"; "tr_loss"; "encoder_outputs"; "features"; "val_loss"; "decoder_grads";
    "mean_iou"; "mean_ious"; "val_losses"; "val_img_paths"; "val_mask_paths";
    "_img_path"; "_mask_path"; "input_img"; "input_mask"; "prediction"; "_" ].

(** [self.decoder.parameters()]: a generator over the parameter tensors. *)
Definition decoder_parameters (self : LEO) (h : heap) : value Tensor :=
  VGenerator (List.map (fun l => VTensor (h !!! l)) (parameters (decoder self))).

(** Lines 209-217, the branch of meta_train. *)
Definition validation_branch (globals : list string) (self : LEO) (d : data_dict)
    (weight : loc) (s : state) : flow state (option outcome) :=
  try! encoder_outputs :=
    (let* val_imgs := getattr d "val_imgs" in forward_encoder self val_imgs) from s in
  try! features := forward_decoder self encoder_outputs from s in
  try! pred :=
    (let* val_imgs := getattr d "val_imgs" in
     forward_segnetwork_in bias globals self (mem s) features val_imgs (mem s !!! weight))
    from s in
  try! val_loss :=
    (let* val_masks := getattr d "val_masks" in Return (loss_fn pred val_masks)) from s in
  try! grads :=
    torch_autograd_grad val_loss [VTensor (mem s !!! weight); decoder_parameters self (mem s)]
    from s in
  match grads with
  | [seg_weight_grad; decoder_grads] =>
      try! mean_iou :=
        (let* val_masks := getattr d "val_masks" in
         Return (calc_iou_per_class pred val_masks)) from s in
      Returned (Some (val_loss, Some seg_weight_grad, Some decoder_grads, mean_iou))
               {| mem := mem s; log := log s ++ [EvValidation] |}
  | _ => Raised (ValueError "wrong number of values to unpack (expected 2)") s
  end.

(** Lines 224-232: one example of the evaluation loop. *)
Definition evaluate_example (globals : list string) (self : LEO)
    (transformers : Transformer * Transformer) (weight : loc) (s : state)
    (paths : Path * Path) : result (Tensor * IoU) :=
  let '(img_transformer, mask_transformer) := transformers in
  let '(_img_path, _mask_path) := paths in
  if negb (resolves globals finetuning_locals "list_to_tensor")
  then Raise (NameError "list_to_tensor")
  else
    let input_img := list_to_tensor _img_path img_transformer in
    let input_mask := list_to_tensor _mask_path mask_transformer in
    let* encoder_outputs := forward_encoder self input_img in
    let* features := forward_decoder self encoder_outputs in
    let* prediction :=
      forward_segnetwork_in bias globals self (mem s) features input_img
        (mem s !!! weight) in
    let val_loss := loss_fn input_mask prediction in
    let mean_iou := calc_iou_per_class prediction input_mask in
    Return (val_loss, mean_iou).

(** Lines 219-235, the branch of the modes other than meta_train. *)
Definition evaluation_branch (globals : list string) (self : LEO)
    (transformers : Transformer * Transformer) (weight : loc) (s : state)
    : flow state (option outcome) :=
  if negb (resolves globals finetuning_locals "data") then Raised (NameError "data") s
  else if negb (resolves globals finetuning_locals "tqdm") then Raised (NameError "tqdm") s
  else
    try! per_example :=
      PyStr.comprehension (evaluate_example globals self transformers weight s)
        (combine data_val_imgs data_val_masks) from s in
    let val_losses := List.map fst per_example in
    let mean_ious := List.map snd per_example in
    Returned (Some (np_mean_loss val_losses, None, None, np_mean_iou mean_ious)) s.

(** Lines 202-235: one iteration of the [for] loop. *)
Definition finetuning_body (globals : list string) (self : LEO) (d : data_dict)
    (tr_features : Tensor) (transformers : Transformer * Transformer) (mode : string)
    (weight : loc) (s : state) : flow state (option outcome) :=
  try! pred :=
    (let* tr_imgs := getattr d "tr_imgs" in
     forward_segnetwork_in bias globals self (mem s) tr_features tr_imgs (mem s !!! weight))
    from s in
  try! tr_loss :=
    (let* tr_masks := getattr d "tr_masks" in Return (loss_fn pred tr_masks)) from s in
  try! seg_weight_grad :=
    (let* grads := torch_autograd_grad tr_loss [VTensor (mem s !!! weight)] in
     sequence_index grads 0) from s in
  let s := {| mem := <[weight := sub (mem s !!! weight)
                                     (smul (finetuning_lr self) seg_weight_grad)]> (mem s);
              log := log s ++ [EvDescent] |} in
  if String.eqb mode "meta_train"
  then validation_branch globals self d weight s
  else evaluation_branch globals self transformers weight s.

(** Line 200: [self.seg_weight - finetuning_lr * seg_weight_grad] is a new
    tensor, bound to [weight]. *)
Definition initial_weight (self : LEO) (seg_weight_grad : Tensor) (h : heap) : loc * heap :=
  let l := fresh (dom h) in
  (l, <[l := sub (h !!! seg_weight self) (smul (finetuning_lr self) seg_weight_grad)]> h).

Definition finetuning_inner_loop_in (globals : list string) (self : LEO) (d : data_dict)
    (tr_features seg_weight_grad : Tensor) (transformers : Transformer * Transformer)
    (mode : string) (h : heap) : result (option outcome) * state :=
  let num_steps := num_finetuning_steps self in
  let '(weight, h) := initial_weight self seg_weight_grad h in
  match for_in (range (num_steps - 1))
               (fun _ => finetuning_body globals self d tr_features transformers mode weight)
               {| mem := h; log := [] |} with
  | Next s => (Return None, s)
  | Returned r s => (Return r, s)
  | Raised e s => (Raise e, s)
  end.

(** The method as model.py has it. *)
Definition finetuning_inner_loop := finetuning_inner_loop_in module_names.

(** The task-local weight that line 200 computes. *)
Definition weight0 (self : LEO) (seg_weight_grad : Tensor) (h : heap) : Tensor :=
  sub (h !!! seg_weight self) (smul (finetuning_lr self) seg_weight_grad).

(** What line 202 raises: the attribute that [data_dict] lacks, or the name
    that [forward_segnetwork] cannot resolve. *)
Definition first_error (d : data_dict) : exn :=
  match d !! "tr_imgs" with
  | Some _ => NameError "bias"
  | None => AttributeError "EasyDict" "tr_imgs"
  end.

Lemma range_succ n : 1 <= n -> range n = 0%nat :: seq 1 (Z.to_nat n - 1).
Proof.
  intros Hn. unfold range.
  destruct (Z.to_nat n) as [|k] eqn:Hk; [lia|].
  cbn [seq]. f_equal. f_equal. lia.
Qed.

Lemma range_empty n : n <= 0 -> range n = [].
Proof.
  intros Hn. unfold range. replace (Z.to_nat n) with 0%nat by lia. reflexivity.
Qed.

(** C10: with [num_finetuning_steps <= 1] the loop body never runs and the
    routine falls off its end: it returns [None] in every mode, so the
    4-tuple is only ever returned when [num_finetuning_steps >= 2]. *)
Theorem finetuning_without_steps_returns_none
    self d tr_features seg_weight_grad transformers mode h :
  (num_finetuning_steps self <= 1 ->
   fst (finetuning_inner_loop self d tr_features seg_weight_grad transformers mode h)
     = Return None) /\
  (forall t,
     fst (finetuning_inner_loop self d tr_features seg_weight_grad transformers mode h)
       = Return (Some t) ->
     2 <= num_finetuning_steps self).
Proof.
  assert (num_finetuning_steps self <= 1 ->
          fst (finetuning_inner_loop self d tr_features seg_weight_grad transformers mode h)
            = Return None) as Hnone.
  { intros Hn. unfold finetuning_inner_loop, finetuning_inner_loop_in, initial_weight.
    rewrite range_empty by lia. reflexivity. }
  split; [exact Hnone|].
  intros t Ht.
  destruct (Z_le_gt_dec (num_finetuning_steps self) 1) as [Hle|Hgt]; [|lia].
  rewrite (Hnone Hle) in Ht. discriminate.
Qed.

(** The first iteration stops at line 202, in every mode: the state is the
    one that line 200 left. *)
Lemma finetuning_first_iteration_raises
    self d tr_features seg_weight_grad transformers mode h :
  2 <= num_finetuning_steps self ->
  finetuning_inner_loop self d tr_features seg_weight_grad transformers mode h
  = (Raise (first_error d),
     {| mem := <[fresh (dom h) := weight0 self seg_weight_grad h]> h; log := [] |}).
Proof.
  intros Hn. unfold finetuning_inner_loop, finetuning_inner_loop_in, initial_weight.
  rewrite range_succ by lia. cbn [for_in].
  unfold finetuning_body, first_error, getattr.
  destruct (d !! "tr_imgs"); reflexivity.
Qed.

(** C4: line 200 binds the task-local weight to a new tensor,
    [seg_weight - finetuning_lr * seg_weight_grad], and leaves the meta head
    weight as it was; but with [num_finetuning_steps >= 2] the routine then
    performs no descent step at all, where [num_finetuning_steps - 1] are
    due: the first iteration raises at line 202, [NameError] for the name
    [bias] that [forward_segnetwork] reads (or [AttributeError] when
    [data_dict] has no [tr_imgs]), and line 206 is never reached. *)
Theorem finetuning_raises_before_descent
    self d tr_features seg_weight_grad transformers mode h :
  2 <= num_finetuning_steps self ->
  let run := finetuning_inner_loop self d tr_features seg_weight_grad transformers mode h in
  fst run = Raise (first_error d) /\
  (is_Some (d !! "tr_imgs") -> fst run = Raise (NameError "bias")) /\
  mem (snd run) = <[fresh (dom h) := weight0 self seg_weight_grad h]> h /\
  (forall w, h !! seg_weight self = Some w -> mem (snd run) !! seg_weight self = Some w) /\
  descents (log (snd run)) = 0%nat /\
  descents (log (snd run)) <> Z.to_nat (num_finetuning_steps self - 1).
Proof.
  intros Hn run. subst run. rewrite finetuning_first_iteration_raises by exact Hn.
  cbn [fst snd mem log]. split; [reflexivity|]. split.
  { intros [v Hv]. unfold first_error. rewrite Hv. reflexivity. }
  split; [reflexivity|]. split.
  { intros w Hw. rewrite lookup_insert_ne; [exact Hw|].
    intros Heq. pose proof (is_fresh (dom h)) as Hf. rewrite Heq in Hf.
    apply Hf. apply elem_of_dom. eauto. }
  split; [reflexivity|]. cbn. lia.
Qed.

(** C5: in meta_train mode and with [num_finetuning_steps >= 2] the routine
    does not return from its first iteration, nor from any: line 202 raises
    before the validation pass of lines 209-216 is entered, so no validation
    loss, gradient or mean IoU is produced and the 4-tuple is never
    returned. *)
Theorem finetuning_never_validates self d tr_features seg_weight_grad transformers h :
  2 <= num_finetuning_steps self ->
  let run :=
    finetuning_inner_loop self d tr_features seg_weight_grad transformers "meta_train" h in
  (forall r, fst run <> Return r) /\
  (exists e, fst run = Raise e /\
             (is_Some (d !! "tr_imgs") -> e = NameError "bias")) /\
  validations (log (snd run)) = 0%nat.
Proof.
  intros Hn run. subst run. rewrite finetuning_first_iteration_raises by exact Hn.
  cbn [fst snd log]. split; [discriminate|]. split; [|reflexivity].
  exists (first_error d). split; [reflexivity|].
  intros [v Hv]. unfold first_error. rewrite Hv. reflexivity.
Qed.

(** Line 200: before any step, the task-local weight is the meta head weight
    less [finetuning_lr] times the gradient handed in, in a cell of its own. *)
Lemma finetuning_initial_weight
    globals self d tr_features seg_weight_grad transformers mode h :
  num_finetuning_steps self <= 1 ->
  mem (snd (finetuning_inner_loop_in globals self d tr_features seg_weight_grad
              transformers mode h))
    = <[fresh (dom h) := weight0 self seg_weight_grad h]> h.
Proof.
  intros Hn. unfold finetuning_inner_loop_in, initial_weight.
  rewrite range_empty by lia. reflexivity.
Qed.

End Finetune.

(** A task whose images and masks are the integers below. *)
Definition demo_data : data_dict Z :=
  {[ "tr_imgs" := 1; "tr_masks" := 0; "val_imgs" := 2; "val_masks" := 1 ]}.

Definition demo_finetune (num_steps : Z) (mode : string) :=
  finetuning_inner_loop unit unit None [] [] (fun _ _ => 0)
    (demo_self 0 num_steps) demo_data 0 3 (tt, tt) mode demo_heap.

Lemma finetuning_without_steps_returns_none_witness :
  (num_finetuning_steps (demo_self 0 1) <= 1 ->
   fst (demo_finetune 1 "meta_train") = Return None) /\
  (forall t, fst (demo_finetune 1 "meta_train") = Return (Some t) ->
             2 <= num_finetuning_steps (demo_self 0 1)).
Proof.
  exact (finetuning_without_steps_returns_none unit unit None [] [] (fun _ _ => 0)
           (demo_self 0 1) demo_data 0 3 (tt, tt) "meta_train" demo_heap).
Defined.

Lemma finetuning_raises_before_descent_witness :
  fst (demo_finetune 3 "meta_train") = Raise (NameError "bias") /\
  descents (log (snd (demo_finetune 3 "meta_train"))) = 0%nat /\
  descents (log (snd (demo_finetune 3 "meta_train")))
    <> Z.to_nat (num_finetuning_steps (demo_self 0 3) - 1).
Proof.
  pose proof (finetuning_raises_before_descent unit unit None [] [] (fun _ _ => 0)
                (demo_self 0 3) demo_data 0 3 (tt, tt) "meta_train" demo_heap) as Hrun.
  cbv zeta in Hrun.
  destruct Hrun as (_ & Hbias & _ & _ & Hzero & Hne); [vm_compute; discriminate|].
  split; [apply Hbias; vm_compute; eauto|]. split; [exact Hzero|exact Hne].
Defined.

Lemma finetuning_never_validates_witness :
  (forall r, fst (demo_finetune 2 "meta_train") <> Return r) /\
  validations (log (snd (demo_finetune 2 "meta_train"))) = 0%nat.
Proof.
  pose proof (finetuning_never_validates unit unit None [] [] (fun _ _ => 0)
                (demo_self 0 2) demo_data 0 3 (tt, tt) demo_heap) as Hrun.
  cbv zeta in Hrun.
  destruct Hrun as (Hret & _ & Hzero); [vm_compute; discriminate|].
  split; [exact Hret|exact Hzero].
Defined.

End Finetuner.

(** ** model.py: LEO.compute_loss *)

Module MetaOptimizer.
Import Net Finetuner.

(** *** Lines 263-271: the accumulation of the gradients *)

Section Accumulate.
Variable Tensor : Type.
(** [a + b], [t / n] and [iter(t)] on tensors. *)
Variable tadd : Tensor -> Tensor -> Tensor.
Variable tdiv : Tensor -> Z -> Tensor.
Variable tensor_iter : Tensor -> result (list Tensor).

(** [for grad in v] *)
Definition iterate (v : value Tensor) : result (list (value Tensor)) :=
  match v with
  | VTensor t => let* rows := tensor_iter t in Return (List.map VTensor rows)
  | VList items | VTuple items | VGenerator items => Return items
  end.

(** Lines 264-271: the new [total_grads] and [seg_weight_grad], from the
    running total and the gradients of the current task. *)
Definition accumulate (num_tasks : Z) (total_grads : option (list Tensor))
    (seg_weight_grad : option Tensor) (decoder_grads : option (value Tensor))
    : result (list Tensor * Tensor) :=
  match decoder_grads with
  | None => Raise (TypeError "'NoneType' object is not iterable")
  | Some decoder_grads =>
      let* grads := iterate decoder_grads in
      let* decoder_grads :=
        PyStr.comprehension
          (fun grad => let* grad := as_tensor grad in Return (tdiv grad num_tasks))
          grads in
      match total_grads with
      | None =>
          match seg_weight_grad with
          | None => Raise (TypeError "unsupported operand type(s) for /")
          | Some seg_weight_grad => Return (decoder_grads, tdiv seg_weight_grad num_tasks)
          end
      | Some total_grads =>
          let* total_grads :=
            PyStr.comprehension
              (fun i =>
                 let* a := sequence_index total_grads (Z.of_nat i) in
                 let* b := sequence_index decoder_grads (Z.of_nat i) in
                 Return (tadd a b))
              (seq 0 (List.length decoder_grads)) in
          match seg_weight_grad with
          | None => Raise (TypeError "unsupported operand type(s) for /")
          | Some seg_weight_grad =>
              Return (total_grads, tadd seg_weight_grad (tdiv seg_weight_grad num_tasks))
          end
      end
  end.

(** The lines above, run for a batch of tasks whose gradients are given:
    [total_grads] starts as [None], and each task enters with its own
    [seg_weight_grad] and [decoder_grads]. *)
Fixpoint accumulate_tasks (num_tasks : Z) (tasks : list (Tensor * value Tensor))
    (total_grads : option (list Tensor)) (seg_weight_grad : option Tensor)
    : result (option (list Tensor) * option Tensor) :=
  match tasks with
  | [] => Return (total_grads, seg_weight_grad)
  | (head_grad, decoder_grads) :: rest =>
      let* (total_grads, seg_weight_grad) :=
        accumulate num_tasks total_grads (Some head_grad) (Some decoder_grads) in
      accumulate_tasks num_tasks rest (Some total_grads) (Some seg_weight_grad)
  end.

(** The running total after [k + 1] tasks that each contributed [scaled]. *)
Fixpoint total_after (k : nat) (scaled : list Tensor) : list Tensor :=
  match k with
  | O => scaled
  | S k' => zip_with tadd (total_after k' scaled) scaled
  end.

Lemma sequence_index_nat {A} (xs : list A) (i : nat) :
  sequence_index xs (Z.of_nat i)
  = match nth_error xs i with
    | Some x => Return x
    | None => Raise (IndexError "index out of range")
    end.
Proof.
  unfold sequence_index.
  replace (Z.of_nat i <? 0) with false by (symmetry; apply Z.ltb_ge; lia).
  rewrite Nat2Z.id.
  destruct (nth_error xs i) eqn:Hi.
  - assert (i < List.length xs)%nat as Hlt by (apply nth_error_Some; congruence).
    replace (0 <=? Z.of_nat i) with true by (symmetry; apply Z.leb_le; lia).
    replace (Z.of_nat i <? Z.of_nat (List.length xs)) with true
      by (symmetry; apply Z.ltb_lt; lia).
    reflexivity.
  - destruct ((0 <=? Z.of_nat i) && (Z.of_nat i <? Z.of_nat (List.length xs)));
      reflexivity.
Qed.

(** The list comprehension of lines 269-270 adds entry by entry. *)
Lemma comprehension_totals pre_t pre_d tg dg :
  List.length pre_t = List.length pre_d ->
  List.length tg = List.length dg ->
  PyStr.comprehension
    (fun i =>
       let* a := sequence_index (pre_t ++ tg) (Z.of_nat i) in
       let* b := sequence_index (pre_d ++ dg) (Z.of_nat i) in
       Return (tadd a b))
    (seq (List.length pre_t) (List.length dg))
  = Return (zip_with tadd tg dg).
Proof.
  intros Hpre Hlen. revert dg pre_t pre_d Hpre Hlen.
  induction tg as [|x tg IH]; intros [|y dg] pre_t pre_d Hpre Hlen;
    try discriminate; [reflexivity|].
  cbn [List.length seq PyStr.comprehension].
  rewrite !sequence_index_nat.
  rewrite nth_error_app2 by lia. rewrite Nat.sub_diag. cbn [nth_error bind].
  rewrite Hpre at 1. rewrite nth_error_app2 by lia. rewrite Nat.sub_diag.
  cbn [nth_error bind].
  specialize (IH dg (pre_t ++ [x]) (pre_d ++ [y])).
  rewrite !length_app in IH. cbn [List.length] in IH.
  rewrite <- !app_assoc in IH. cbn [app] in IH.
  replace (S (List.length pre_t)) with (List.length pre_t + 1)%nat by lia.
  rewrite IH by (cbn in Hlen; lia). reflexivity.
Qed.

Lemma comprehension_totals_all tg dg :
  List.length tg = List.length dg ->
  PyStr.comprehension
    (fun i =>
       let* a := sequence_index tg (Z.of_nat i) in
       let* b := sequence_index dg (Z.of_nat i) in
       Return (tadd a b))
    (seq 0 (List.length dg))
  = Return (zip_with tadd tg dg).
Proof. intros Hlen. exact (comprehension_totals [] [] tg dg eq_refl Hlen). Qed.

Lemma comprehension_scaled num_tasks (dgs : list Tensor) :
  PyStr.comprehension
    (fun grad => let* grad := as_tensor grad in Return (tdiv grad num_tasks))
    (List.map VTensor dgs)
  = Return (List.map (fun grad => tdiv grad num_tasks) dgs).
Proof.
  induction dgs as [|d dgs IH]; [reflexivity|].
  cbn [List.map PyStr.comprehension as_tensor bind]. rewrite IH. reflexivity.
Qed.

Lemma length_total_after k scaled : List.length (total_after k scaled) = List.length scaled.
Proof.
  induction k as [|k IH]; [reflexivity|].
  cbn [total_after]. rewrite length_zip_with. lia.
Qed.

(** The head gradient that the loop holds after [k + 1] tasks whose head
    gradient is [g]: the first task's quotient, and from the second task on
    the current task's gradient plus its own quotient. *)
Definition head_after (k : nat) (g : Tensor) (num_tasks : Z) : Tensor :=
  match k with
  | O => tdiv g num_tasks
  | S _ => tadd g (tdiv g num_tasks)
  end.

(** Tasks with one head gradient [g] and one list [dgs] of decoder
    gradients: after [k + 1] of them the fragment holds the running total of
    the decoder quotients, and [head_after] for the head. *)
Lemma accumulate_identical num_tasks g dgs : forall k j,
  accumulate_tasks num_tasks (repeat (g, VList (List.map VTensor dgs)) (S k))
    (Some (total_after j (List.map (fun grad => tdiv grad num_tasks) dgs)))
    (Some (head_after j g num_tasks))
  = Return (Some (total_after (S k + j) (List.map (fun grad => tdiv grad num_tasks) dgs)),
            Some (head_after (S k + j) g num_tasks)).
Proof.
  induction k as [|k IH]; intros j.
  - cbn [repeat accumulate_tasks accumulate iterate bind].
    rewrite comprehension_scaled. cbn [bind].
    rewrite comprehension_totals_all by (rewrite length_total_after; reflexivity).
    reflexivity.
  - change (repeat ?x (S (S k))) with (x :: repeat x (S k)).
    cbn [accumulate_tasks accumulate iterate bind].
    rewrite comprehension_scaled. cbn [bind].
    rewrite comprehension_totals_all by (rewrite length_total_after; reflexivity).
    cbn [bind].
    change (zip_with tadd (total_after j ?s) ?s) with (total_after (S j) s).
    change (tadd g (tdiv g num_tasks)) with (head_after (S j) g num_tasks).
    rewrite (IH (S j)). replace (S k + S j)%nat with (S (S k) + j)%nat by lia.
    reflexivity.
Qed.

Lemma accumulate_identical_batch num_tasks g dgs k :
  accumulate_tasks num_tasks (repeat (g, VList (List.map VTensor dgs)) (S k)) None None
  = Return (Some (total_after k (List.map (fun grad => tdiv grad num_tasks) dgs)),
            Some (head_after k g num_tasks)).
Proof.
  cbn [repeat accumulate_tasks accumulate iterate bind].
  rewrite comprehension_scaled. cbn [bind].
  destruct k as [|k]; [reflexivity|].
  change (List.map (fun grad => tdiv grad num_tasks) dgs)
    with (total_after 0 (List.map (fun grad => tdiv grad num_tasks) dgs)) at 1.
  change (tdiv g num_tasks) with (head_after 0 g num_tasks) at 1.
  rewrite accumulate_identical. replace (S k + 0)%nat with (S k) by lia. reflexivity.
Qed.

End Accumulate.
(** *** Gradients as vectors of exact rationals *)

Abbreviation tensor := (list Q).

(** [grad / num_tasks] *)
Definition qdiv (t : tensor) (n : Z) : tensor := List.map (fun q => (q / inject_Z n)%Q) t.

(** [a + b] on tensors of one shape. *)
Fixpoint zip_add (a b : tensor) : tensor :=
  match a, b with
  | x :: a', y :: b' => (x + y)%Q :: zip_add a' b'
  | _, _ => []
  end.

(** Equality of tensors up to the representation of the rationals. *)
Definition teq (a b : tensor) : Prop := Forall2 Qeq a b.

(** Entry by entry, the total after [k + 1] tasks is [k + 1] times the
    quotient. *)
Lemma zip_add_scaled (c : Q) (n : Z) a q :
  Forall2 (fun x y => (x == c * (y / inject_Z n))%Q) a q ->
  Forall2 (fun x y => (x == (c + 1) * (y / inject_Z n))%Q) (zip_add a (qdiv q n)) q.
Proof.
  induction 1 as [|x y a q Hxy _ IH]; cbn; constructor; auto.
  rewrite Hxy. ring.
Qed.

Lemma total_after_scaled k n dgs :
  Forall2 (Forall2 (fun x y => (x == inject_Z (Z.of_nat (S k)) * (y / inject_Z n))%Q))
          (total_after tensor zip_add k (List.map (fun grad => qdiv grad n) dgs)) dgs.
Proof.
  induction k as [|k IH].
  - cbn [total_after]. induction dgs as [|d dgs IHd]; cbn; constructor; auto.
    clear. induction d as [|q d IHq]; cbn; constructor; auto.
    change (inject_Z (Z.of_nat 1)) with 1%Q. ring.
  - cbn [total_after].
    replace (inject_Z (Z.of_nat (S (S k)))) with (inject_Z (Z.of_nat (S k) + 1))
      by (f_equal; lia).
    revert IH.
    generalize (total_after tensor zip_add k (List.map (fun grad => qdiv grad n) dgs)).
    intros tg Htg. induction Htg as [|t d tg dgs Htd _ IHt]; cbn; constructor; auto.
    apply zip_add_scaled in Htd.
    eapply Forall2_impl; [exact Htd|].
    intros x y Hxy. cbn beta in Hxy. rewrite Hxy, inject_Z_plus. reflexivity.
Qed.

(** After all [n >= 1] tasks the total of the decoder gradients is the common
    gradient. *)
Lemma total_after_all n dgs :
  (1 <= n)%nat ->
  Forall2 teq (total_after tensor zip_add (n - 1)
                 (List.map (fun grad => qdiv grad (Z.of_nat n)) dgs)) dgs.
Proof.
  intros Hn. pose proof (total_after_scaled (n - 1) (Z.of_nat n) dgs) as Hs.
  replace (S (n - 1)) with n in Hs by lia.
  eapply Forall2_impl; [exact Hs|]. intros t d Htd. cbn beta in Htd.
  eapply Forall2_impl; [exact Htd|]. intros x y Hxy. cbn beta in Hxy.
  rewrite Hxy. field.
  change 0%Q with (inject_Z 0). rewrite inject_Z_injective. lia.
Qed.

(** [g + g / n] is [g] only for a gradient that is zero throughout. *)
Lemma head_not_average g n :
  1 <= n ->
  Exists (fun q => ~ (q == 0)%Q) g ->
  ~ teq (zip_add g (qdiv g n)) g.
Proof.
  intros Hn Hex Heq. induction Hex as [q g Hq|q g _ IH].
  - cbn in Heq. inversion Heq as [|? ? ? ? Hhead _]; subst.
    apply Hq.
    assert (q / inject_Z n == 0)%Q as Hz.
    { apply (Qplus_inj_l _ _ q). rewrite Hhead. ring. }
    assert (~ (inject_Z n == 0)%Q) as Hnz.
    { change 0%Q with (inject_Z 0). rewrite inject_Z_injective. lia. }
    rewrite <- (Qmult_div_r q (inject_Z n)) by exact Hnz.
    rewrite Hz. ring.
  - cbn in Heq. inversion Heq; subst. auto.
Qed.

(** *** Lines 249-291: the episode *)

(** What the episode prints and the ghost events of its steps, in the order
    of execution. *)
Inductive event : Type :=
| EvDisplay             (* line 251: [display_data_shape] has printed *)
| EvPrintClasses        (* utils.py line 387: [print(classes)] *)
| EvTask (batch : nat)  (* lines 259-262 are done for this task: its gradients exist *)
| EvStepDecoder         (* line 279: [self.optimizer_decoder.step()] *)
| EvStepSeg.            (* line 280: [self.optimizer_seg_network.step()] *)

Definition is_step (e : event) : bool :=
  match e with
  | EvStepDecoder | EvStepSeg => true
  | _ => false
  end.

Definition is_task (e : event) : bool :=
  match e with
  | EvTask _ => true
  | _ => false
  end.

Definition steps (log : list event) : nat := List.length (List.filter is_step log).
Definition tasks_done (log : list event) : nat := List.length (List.filter is_task log).

(** The 5-tuple [metadata]; each tensor is given by its slices along the
    first dimension, one for each task. *)
Record metadata (Tensor : Type) : Type := {
  tr_data : list Tensor;
  tr_data_masks : list Tensor;
  val_data : list Tensor;
  val_masks : list Tensor;
  classes : list string
}.
Arguments tr_data {Tensor} m.
Arguments tr_data_masks {Tensor} m.
Arguments val_data {Tensor} m.
Arguments val_masks {Tensor} m.
Arguments classes {Tensor} m.

(** What of [self] the episode can change: the tensors, the [.grad] slots of
    the parameters (absent for [None]) and the two optimizers. *)
Record model (Tensor Opt : Type) : Type := {
  mem : heap Tensor;
  grad : gmap loc Tensor;
  optimizer_decoder : Opt;
  optimizer_seg_network : Opt
}.
Arguments mem {Tensor Opt} m.
Arguments grad {Tensor Opt} m.
Arguments optimizer_decoder {Tensor Opt} m.
Arguments optimizer_seg_network {Tensor Opt} m.

(** Python's [a % b == 1] for the display interval. *)
Definition display_due (episode interval : Z) : result bool :=
  if interval =? 0 then Raise ZeroDivisionError
  else Return (episode mod interval =? 1).

Section Episode.
Context {Tensor Scalar IoU : Type} `{!Lib Tensor Scalar IoU} `{!Inhabited Tensor}.
Variables Path Transformer Opt Stats : Type.
(** What the free names of [forward_segnetwork] and [finetuning_inner_loop]
    would denote in a module that binds them. *)
Variable bias : option Tensor.
Variable data_val_imgs data_val_masks : list Path.
Variable list_to_tensor : Path -> Transformer -> Tensor.
(** [utils.get_in_sequence]: two permutations and a view, which raise unless
    the tensor has five dimensions. *)
Variable get_in_sequence : Tensor -> result Tensor.
(** [Adam.step]: from the optimizer's state and its parameters, each with
    its [.grad] slot, the next state and the new values of the parameters. *)
Variable adam_step : Opt -> list (Tensor * option Tensor) -> Opt * list Tensor.
(** [train_stats.episode] and [train_stats.update_stats], called with the
    mode, the loss and the dict of IoUs. *)
Variable episode : Stats -> Z.
Variable update_stats : Stats -> string -> Scalar -> gmap string IoU -> Stats.

Local Abbreviation LEO := (LEO Tensor Scalar).
Local Abbreviation metadata := (metadata Tensor).
Local Abbreviation model := (model Tensor Opt).

(** The variables of [compute_loss] that outlive an iteration, with the
    model and what has been printed. *)
Record state : Type := {
  model_of : model;
  total_grads : option (list Tensor);
  total_val_loss : list Tensor;
  mean_iou_dict : gmap string IoU;
  log : list event
}.

Definition with_model (s : state) (m : model) : state :=
  {| model_of := m; total_grads := total_grads s; total_val_loss := total_val_loss s;
     mean_iou_dict := mean_iou_dict s; log := log s |}.

Definition with_total_grads (s : state) (t : option (list Tensor)) : state :=
  {| model_of := model_of s; total_grads := t; total_val_loss := total_val_loss s;
     mean_iou_dict := mean_iou_dict s; log := log s |}.

Definition with_log (s : state) (e : list event) : state :=
  {| model_of := model_of s; total_grads := total_grads s;
     total_val_loss := total_val_loss s; mean_iou_dict := mean_iou_dict s;
     log := log s ++ e |}.

Definition with_mem (m : model) (h : heap Tensor) : model :=
  {| mem := h; grad := grad m; optimizer_decoder := optimizer_decoder m;
     optimizer_seg_network := optimizer_seg_network m |}.

Definition with_grad (m : model) (g : gmap loc Tensor) : model :=
  {| mem := mem m; grad := g; optimizer_decoder := optimizer_decoder m;
     optimizer_seg_network := optimizer_seg_network m |}.

(** utils.py lines 387-394, [get_named_dict] after its [print]: the values
    of the dict are evaluated in the order written. *)
Definition get_named_dict (m : metadata) (batch : nat) : result (data_dict Tensor) :=
  let i := Z.of_nat batch in
  let* tr_data_orig := sequence_index (tr_data m) i in
  let* tr_data := (let* t := sequence_index (tr_data m) i in get_in_sequence t) in
  let* tr_data_masks := sequence_index (tr_data_masks m) i in
  let* val_data_orig := sequence_index (val_data m) i in
  let* val_data := (let* t := sequence_index (val_data m) i in get_in_sequence t) in
  let* val_data_masks := sequence_index (val_masks m) i in
  Return (<["tr_data_orig" := tr_data_orig]>
          (<["tr_data" := tr_data]>
          (<["tr_data_masks" := tr_data_masks]>
          (<["val_data_orig" := val_data_orig]>
          (<["val_data" := val_data]>
          (<["val_data_masks" := val_data_masks]> ∅)))))).

(** Line 259, on an instance with the given attributes: the attribute
    [leo_inner_loop] is looked up, then the arguments are evaluated, then
    the call is made. *)
Definition inner_loop_call (attributes globals : list string) (self : LEO)
    (data : data_dict Tensor) (h : heap Tensor) : result (Tensor * Tensor) :=
  if has_attribute attributes "leo_inner_loop" then
    let* tr_imgs := getattr data "tr_imgs" in
    let* tr_masks := getattr data "tr_masks" in
    InnerLoop.leo_inner_loop_in bias globals self h tr_imgs tr_masks
  else Raise (AttributeError "LEO" "leo_inner_loop").

(** Lines 272-273: both optimizers clear the [.grad] slots of their
    parameters. *)
Definition zero_grad (self : LEO) (m : model) : model :=
  with_grad m (delete (seg_weight self)
                 (fold_right delete (grad m) (parameters (decoder self)))).

(** Lines 274-277.  The loop unpacks each parameter tensor into [name] and
    [params]; the slot it then assigns is that of [params], a slice made for
    the iteration, so no parameter's slot changes. *)
Fixpoint assign_grads (ps : list Tensor) (i : nat) (total_grads : option (list Tensor))
    : result unit :=
  match ps with
  | [] => Return tt
  | p :: rest =>
      let* slices := tensor_iter p in
      match slices with
      | [name; params] =>
          match total_grads with
          | None => Raise (TypeError "'NoneType' object is not subscriptable")
          | Some total =>
              let* _ := sequence_index total (Z.of_nat i) in
              assign_grads rest (S i) total_grads
          end
      | _ => Raise (ValueError "wrong number of values to unpack (expected 2)")
      end
  end.

(** [optimizer.step()] on the parameters in the cells [ls]. *)
Definition step_cells (o : Opt) (ls : list loc) (m : model) : Opt * heap Tensor :=
  let '(o, values) := adam_step o (List.map (fun l => (mem m !!! l, grad m !! l)) ls) in
  (o, fold_left (fun h '(l, v) => <[l := v]> h) (combine ls values) (mem m)).

(** Lines 279-280. *)
Definition optimizer_steps (self : LEO) (m : model) : model :=
  let '(od, h) := step_cells (optimizer_decoder m) (parameters (decoder self)) m in
  let m := {| mem := h; grad := grad m; optimizer_decoder := od;
              optimizer_seg_network := optimizer_seg_network m |} in
  let '(os, h) := step_cells (optimizer_seg_network m) [seg_weight self] m in
  {| mem := h; grad := grad m; optimizer_decoder := optimizer_decoder m;
     optimizer_seg_network := os |}.

(** Lines 258-282: the body of [for batch in range(num_tasks)]; it has no
    [return]. *)
Definition task_body (attributes globals : list string) (self : LEO) (md : metadata)
    (transformers : Transformer * Transformer) (mode : string) (batch : nat) (s : state)
    : flow state Empty_set :=
  let num_tasks := Z.of_nat (List.length (tr_data md)) in
  let s := with_log s [EvPrintClasses] in
  try! data := get_named_dict md batch from s in
  try! inner := inner_loop_call attributes globals self data (mem (model_of s)) from s in
  let '(seg_weight_grad, features) := inner in
  let '(finetuned, after) :=
    Finetuner.finetuning_inner_loop_in Path Transformer bias data_val_imgs data_val_masks
      list_to_tensor globals self data features seg_weight_grad transformers mode
      (mem (model_of s)) in
  let s := with_model s (with_mem (model_of s) (Finetuner.mem after)) in
  try! finetuned := finetuned from s in
  match finetuned with
  | None => Raised (TypeError "cannot unpack non-iterable NoneType object") s
  | Some (val_loss, seg_weight_grad, decoder_grads, mean_iou) =>
      let s := with_log s [EvTask batch] in
      try! accumulated :=
        (if String.eqb mode "meta_train" then
           let* (total, seg_weight_grad) :=
             accumulate Tensor tadd tdiv tensor_iter num_tasks (total_grads s)
               seg_weight_grad (option_map VTensor decoder_grads) in
           Return (Some total, Some seg_weight_grad)
         else Return (total_grads s, seg_weight_grad)) from s in
      let '(total, seg_weight_grad) := accumulated in
      let s := with_total_grads s total in
      let s := with_model s (zero_grad self (model_of s)) in
      try! _ :=
        assign_grads (List.map (fun l => mem (model_of s) !!! l) (parameters (decoder self)))
          0 total from s in
      let slot :=
        match seg_weight_grad with
        | Some g => <[seg_weight self := g]> (grad (model_of s))
        | None => delete (seg_weight self) (grad (model_of s))
        end in
      let s := with_model s (with_grad (model_of s) slot) in
      let s := with_log (with_model s (optimizer_steps self (model_of s)))
                        [EvStepDecoder; EvStepSeg] in
      try! class := sequence_index (classes md) (Z.of_nat batch) from s in
      Next {| model_of := model_of s; total_grads := total_grads s;
              total_val_loss := total_val_loss s ++ [val_loss];
              mean_iou_dict := <[class := mean_iou]> (mean_iou_dict s);
              log := log s |}
  end.

(** [compute_loss(metadata, train_stats, transformers, mode)] on an instance
    with the given attributes, in a module that binds [globals]; [m] is the
    model at the call. *)
Definition compute_loss_in (attributes globals : list string) (self : LEO) (md : metadata)
    (train_stats : Stats) (transformers : Transformer * Transformer) (mode : string)
    (m : model) : result (Scalar * Stats) * state :=
  let s := {| model_of := m; total_grads := None; total_val_loss := [];
              mean_iou_dict := ∅; log := [] |} in
  let num_tasks := Z.of_nat (List.length (tr_data md)) in
  match display_due (episode train_stats) (display_stats_interval self) with
  | Raise e => (Raise e, s)
  | Return due =>
      let s := if due then with_log s [EvDisplay] else s in
      match for_in (range num_tasks)
                   (task_body attributes globals self md transformers mode) s with
      | Raised e s => (Raise e, s)
      | Returned r _ => match r with end
      | Next s =>
          match total_val_loss s with
          | [] => (Raise ZeroDivisionError, s)
          | loss :: losses =>
              let total :=
                to_float (tdiv (fold_left tadd losses loss)
                               (Z.of_nat (List.length (total_val_loss s)))) in
              (Return (total, update_stats train_stats mode total (mean_iou_dict s)), s)
          end
      end
  end.

(** The method as model.py has it. *)
Definition compute_loss := compute_loss_in LEO_attributes module_names.

(** The dict that [get_named_dict] builds has no key [tr_imgs]. *)
Lemma get_named_dict_keys md batch data :
  get_named_dict md batch = Return data -> data !! "tr_imgs" = None.
Proof.
  unfold get_named_dict. intros Hd.
  repeat match type of Hd with
         | bind ?r _ = _ => destruct r; cbn [bind] in Hd; [|discriminate]
         end.
  injection Hd as <-. reflexivity.
Qed.

(** Line 259 raises for every task, whatever the class and the module
    provide. *)
Lemma inner_loop_call_raises attributes globals self md batch data h :
  get_named_dict md batch = Return data ->
  exists e, inner_loop_call attributes globals self data h = Raise e /\
            (has_attribute attributes "leo_inner_loop" = false ->
             e = AttributeError "LEO" "leo_inner_loop").
Proof.
  intros Hd. unfold inner_loop_call, getattr.
  rewrite (get_named_dict_keys _ _ _ Hd).
  destruct (has_attribute attributes "leo_inner_loop"); eexists; split;
    try reflexivity; discriminate.
Qed.

(** The first task stops before line 260. *)
Lemma task_body_raises attributes globals self md transformers mode batch s :
  exists e,
    task_body attributes globals self md transformers mode batch s
    = Raised e (with_log s [EvPrintClasses]) /\
    (has_attribute attributes "leo_inner_loop" = false ->
     forall data, get_named_dict md batch = Return data ->
     e = AttributeError "LEO" "leo_inner_loop").
Proof.
  unfold task_body. destruct (get_named_dict md batch) as [data|e] eqn:Hd.
  - destruct (inner_loop_call_raises attributes globals self md batch data
                (mem (model_of (with_log s [EvPrintClasses]))) Hd) as (e & He & Hattr).
    exists e. cbn [try]. rewrite He. split; [reflexivity|].
    intros Hno data' Hd'. apply Hattr, Hno.
  - exists e. split; [reflexivity|]. intros _ data' Hd'. discriminate.
Qed.

(** The episode never returns: it raises at line 250, in the first task, or
    at line 284 when the batch is empty; the model is as it was at the call
    and nothing has been accumulated. *)
Lemma compute_loss_in_raises attributes globals self md train_stats transformers mode m :
  exists e s,
    compute_loss_in attributes globals self md train_stats transformers mode m
      = (Raise e, s) /\
    model_of s = m /\ total_grads s = None /\ total_val_loss s = [] /\
    steps (log s) = 0%nat /\ tasks_done (log s) = 0%nat /\
    (has_attribute attributes "leo_inner_loop" = false ->
     display_stats_interval self <> 0 ->
     forall data, get_named_dict md 0 = Return data ->
     e = AttributeError "LEO" "leo_inner_loop").
Proof.
  unfold compute_loss_in, display_due.
  destruct (display_stats_interval self =? 0) eqn:Hi.
  { do 2 eexists. split; [reflexivity|]. repeat split; try reflexivity.
    intros _ Hne. apply Z.eqb_eq in Hi. contradiction. }
  set (s0 := if episode train_stats mod display_stats_interval self =? 1 then _ else _).
  assert (model_of s0 = m /\ total_grads s0 = None /\ total_val_loss s0 = [] /\
          steps (log s0) = 0%nat /\ tasks_done (log s0) = 0%nat) as (Hm & Ht & Hv & Hs & Hk).
  { subst s0. destruct (_ =? 1); repeat split. }
  destruct (tr_data md) as [|t ts] eqn:Htr.
  - change (range (Z.of_nat (List.length (@nil Tensor)))) with (@nil nat).
    cbn [for_in]. rewrite Hv.
    do 2 eexists. split; [reflexivity|]. repeat split; try assumption.
    intros _ _ data Hd. unfold get_named_dict in Hd. rewrite Htr in Hd. discriminate.
  - unfold range. rewrite Nat2Z.id. cbn [List.length seq for_in].
    destruct (task_body_raises attributes globals self md transformers mode 0 s0)
      as (e & He & Hattr).
    rewrite He. do 2 eexists. split; [reflexivity|].
    cbn [with_log model_of total_grads total_val_loss log].
    unfold steps, tasks_done in *. rewrite !List.filter_app, !length_app, Hs, Hk.
    repeat split; try assumption. intros Hno _ data Hd. exact (Hattr Hno data Hd).
Qed.

(** C1: no episode applies the one update that is due after its tasks:
    [compute_loss] applies none.  Every call raises, with the model (the
    tensors, the [.grad] slots and both optimizers) as it was at the call, no
    [step()] made and no task's gradients computed.  With a display interval
    other than zero and a batch whose first task [get_named_dict] can
    build, the exception is the [AttributeError] of line 259 in task 0:
    [leo_inner_loop] is nested under [forward] and is no attribute of
    [LEO].  The calls of [step()] that the source has at lines 279-280 sit
    in the body of the loop over the tasks, and are not reached. *)
Theorem compute_loss_never_steps self md train_stats transformers mode m :
  let run := compute_loss self md train_stats transformers mode m in
  (exists e, fst run = Raise e) /\
  model_of (snd run) = m /\
  steps (log (snd run)) = 0%nat /\
  tasks_done (log (snd run)) = 0%nat /\
  (display_stats_interval self <> 0 ->
   forall data, get_named_dict md 0 = Return data ->
   fst run = Raise (AttributeError "LEO" "leo_inner_loop")).
Proof.
  cbv zeta. unfold compute_loss.
  destruct (compute_loss_in_raises LEO_attributes module_names self md train_stats
              transformers mode m) as (e & s & -> & Hm & _ & _ & Hs & Hk & He).
  cbn [fst snd]. split; [eauto|]. repeat split; try assumption.
  intros Hi data Hd. f_equal. exact (He eq_refl Hi data Hd).
Qed.

(** C2: no averaged gradient is ever formed, and the lines that would form
    one do not average the head gradient.
    In meta_train mode [compute_loss] raises before line 263 of the first
    task: [total_grads] is still [None] and no [.grad] slot has changed.
    Lines 263-271 by themselves, run for [n >= 2] tasks that all have the
    head gradient [g] and the decoder gradients [dgs], end with the decoder
    total equal to [dgs] but with the head gradient [g + g / n]: line 271
    adds the quotient to the current task's own gradient and keeps no
    running total.  That is not [g] unless [g] is zero throughout. *)
Theorem head_gradient_not_averaged self md train_stats transformers m
    (rows : tensor -> result (list tensor)) (n : nat) (g : tensor) (dgs : list tensor) :
  (2 <= n)%nat ->
  Exists (fun q => ~ (q == 0)%Q) g ->
  let run := compute_loss self md train_stats transformers "meta_train" m in
  (total_grads (snd run) = None /\ grad (model_of (snd run)) = grad m) /\
  exists total head,
    accumulate_tasks tensor zip_add qdiv rows (Z.of_nat n)
      (repeat (g, VList (List.map VTensor dgs)) n) None None
    = Return (Some total, Some head) /\
    Forall2 teq total dgs /\
    head = zip_add g (qdiv g (Z.of_nat n)) /\
    ~ teq head g.
Proof.
  intros Hn Hg. cbv zeta. split.
  - unfold compute_loss.
    destruct (compute_loss_in_raises LEO_attributes module_names self md train_stats
                transformers "meta_train" m) as (e & s & -> & Hm & Ht & _).
    cbn [snd]. rewrite Hm. split; [exact Ht|reflexivity].
  - destruct n as [|[|k]]; [lia|lia|].
    rewrite accumulate_identical_batch.
    do 2 eexists. split; [reflexivity|]. split; [|split; [reflexivity|]].
    + exact (total_after_all (S (S k)) dgs ltac:(lia)).
    + apply head_not_average; [lia|exact Hg].
Qed.

End Episode.

Arguments model_of {Tensor IoU Opt} s.
Arguments total_grads {Tensor IoU Opt} s.
Arguments total_val_loss {Tensor IoU Opt} s.
Arguments mean_iou_dict {Tensor IoU Opt} s.
Arguments log {Tensor IoU Opt} s.

(** A batch of two tasks for the instance of [Net.demo_lib]; the optimizers
    have no state and leave the parameters as they are. *)
Definition demo_metadata : metadata Z :=
  {| tr_data := [1; 2]; tr_data_masks := [0; 0]; val_data := [3; 4]; val_masks := [1; 1];
     classes := ["cat"; "dog"] |}.

Definition demo_model : model Z unit :=
  {| mem := demo_heap; grad := ∅; optimizer_decoder := tt; optimizer_seg_network := tt |}.

Definition demo_episode (mode : string) :=
  compute_loss unit unit unit Z None [] [] (fun _ _ => 0) Return
    (fun o ps => (o, List.map fst ps)) (fun episode => episode) (fun stats _ _ _ => stats)
    (demo_self 0 2) demo_metadata 1 (tt, tt) mode demo_model.

Lemma compute_loss_never_steps_witness :
  fst (demo_episode "meta_train") = Raise (AttributeError "LEO" "leo_inner_loop") /\
  model_of (snd (demo_episode "meta_train")) = demo_model /\
  steps (log (snd (demo_episode "meta_train"))) = 0%nat.
Proof.
  pose proof (compute_loss_never_steps unit unit unit Z None [] [] (fun _ _ => 0) Return
                (fun o ps => (o, List.map fst ps)) (fun episode => episode)
                (fun stats _ _ _ => stats)
                (demo_self 0 2) demo_metadata 1 (tt, tt) "meta_train" demo_model) as Hrun.
  cbv zeta in Hrun. destruct Hrun as (_ & Hm & Hs & _ & He).
  split; [|split; [exact Hm|exact Hs]].
  eapply He; [discriminate|reflexivity].
Defined.

Lemma head_gradient_not_averaged_witness :
  total_grads (snd (demo_episode "meta_train")) = None /\
  exists total head,
    accumulate_tasks tensor zip_add qdiv (fun _ => Return []) 2
      (repeat ([1%Q], VList [VTensor [1%Q]]) 2) None None
    = Return (Some total, Some head) /\
    Forall2 teq total [[1%Q]] /\
    ~ teq head [1%Q].
Proof.
  pose proof (head_gradient_not_averaged unit unit unit Z None [] [] (fun _ _ => 0) Return
                (fun o ps => (o, List.map fst ps)) (fun episode => episode)
                (fun stats _ _ _ => stats)
                (demo_self 0 2) demo_metadata 1 (tt, tt) demo_model
                (fun _ => Return []) 2 [1%Q] [[1%Q]]) as Hrun.
  cbv zeta in Hrun.
  destruct Hrun as ((Ht & _) & total & head & Hacc & Htotal & _ & Hhead).
  - lia.
  - apply Exists_cons_hd. intros Hq. discriminate Hq.
  - split; [exact Ht|]. exists total, head. split; [exact Hacc|]. split; assumption.
Defined.

End MetaOptimizer.

(** * Further properties of the code

    ** save_model and log_data *)

Module CheckpointFacts.
Import PyStr CheckpointStore.

Section Store.
Variables ModelState OptState Loss : Type.
Variable pickle : checkpoint ModelState OptState Loss -> string.

Local Abbreviation save_model := (CheckpointStore.save_model ModelState OptState Loss pickle).
Local Abbreviation overwrite_loop :=
  (CheckpointStore.overwrite_loop ModelState OptState Loss pickle).
Local Abbreviation torch_save := (CheckpointStore.torch_save ModelState OptState Loss pickle).
Local Abbreviation ck_episode := (CheckpointStore.ck_episode ModelState OptState Loss).

(** The record that line 344 appends to the log. *)
Definition deletion_record (episode : Z) : string :=
  (String "010" "*********** checkpoint " ++ str_of_int episode
   ++ " was deleted **************")%string.

Definition log_path (c : config) : string := path_join (model_dir c) "model_log.txt".

Lemma fs_input w : fs (snd (input w)) = fs w.
Proof. unfold input. destruct (stdin w); reflexivity. Qed.

Lemma log_data_fs msg path w :
  fs (log_data msg path w) = <[path := (default "" (fs w !! path) ++ msg)%string]> (fs w).
Proof. unfold log_data. destruct (fs w !! path); reflexivity. Qed.

Lemma log_data_stdin msg path w : stdin (log_data msg path w) = stdin w.
Proof. unfold log_data. destruct (fs w !! path); reflexivity. Qed.

Lemma log_data_stdout msg path w : stdout (log_data msg path w) = stdout w.
Proof. unfold log_data. destruct (fs w !! path); reflexivity. Qed.

Lemma overwrite_loop_error_keeps_files bound : forall c d trials w e w',
  overwrite_loop bound c d trials w = Some (Raise e, w') -> fs w' = fs w.
Proof.
  induction bound as [|bound IH]; intros c d trials w e w' Hl;
    cbn [CheckpointStore.overwrite_loop] in Hl;
    destruct (trials <? 3); cbn [negb] in Hl; try discriminate.
  destruct (prompt_deletion c).
  - destruct (input _) as [[user_input|e0] w0] eqn:Hin.
    + assert (fs w0 = fs w) as Hw0.
      { pose proof (fs_input (print "Type Yes or y to confirm deletion else No or n"
                      (print ("Are you sure you want to delete checkpoint: "
                              ++ str_of_int (ck_episode d))%string w))) as Hf.
        rewrite Hin in Hf. exact Hf. }
      destruct (member user_input positive_options).
      { unfold os_remove in Hl. destruct (fs w0 !! _); [discriminate|].
        injection Hl as _ <-. exact Hw0. }
      destruct (member user_input negative_options).
      { injection Hl as _ <-. exact Hw0. }
      destruct (trials + 1 =? 3).
      { injection Hl as _ <-. exact Hw0. }
      apply IH in Hl. rewrite Hl. exact Hw0.
    + pose proof (fs_input (print "Type Yes or y to confirm deletion else No or n"
                      (print ("Are you sure you want to delete checkpoint: "
                              ++ str_of_int (ck_episode d))%string w))) as Hf.
      rewrite Hin in Hf. injection Hl as _ <-. exact Hf.
  - change (member "Yes" positive_options) with true in Hl. cbv iota in Hl.
    unfold os_remove in Hl. destruct (fs w !! _); [discriminate|].
    injection Hl as _ <-. reflexivity.
Qed.

(** X1: whatever makes [save_model] raise (a refusal, three unrecognised
    answers, the end of the input), the files are exactly as before the
    call. *)
Theorem save_model_error_keeps_files c d w e w' :
  save_model c d w = Some (Raise e, w') -> fs w' = fs w.
Proof.
  unfold CheckpointStore.save_model.
  destruct (negb (exists_path w _)); [discriminate|].
  apply overwrite_loop_error_keeps_files.
Qed.

Lemma append_inj_l (a x y : string) : (a ++ x = a ++ y)%string -> x = y.
Proof.
  induction a as [|c a IH]; [auto|]. rewrite !append_cons. intros Heq.
  injection Heq as Heq. auto.
Qed.

Lemma path_join_inj a b1 b2 :
  starts_with_sep b1 = false -> starts_with_sep b2 = false ->
  path_join a b1 = path_join a b2 -> b1 = b2.
Proof.
  unfold path_join. intros -> ->.
  destruct ((String.length a =? 0)%nat || ends_with_sep a); intros Heq.
  - exact (append_inj_l _ _ _ Heq).
  - apply append_inj_l in Heq. apply (append_inj_l "/") in Heq. exact Heq.
Qed.

Lemma checkpoint_is_not_log c episode : checkpoint_path c episode <> log_path c.
Proof.
  unfold checkpoint_path, log_path. intros Heq.
  apply path_join_inj in Heq; [discriminate|reflexivity|reflexivity].
Qed.

(** The files after an existing checkpoint has been replaced: lines 341-345. *)
Definition replaced (c : config) (d : checkpoint ModelState OptState Loss)
    (f : gmap string string) : gmap string string :=
  let p := checkpoint_path c (ck_episode d) in
  let f1 := <[p := pickle d]> (delete p f) in
  <[log_path c := (default "" (f1 !! log_path c) ++ deletion_record (ck_episode d))%string]> f1.

Lemma overwrite_loop_success bound : forall c d trials w w',
  trials < 3 ->
  overwrite_loop bound c d trials w = Some (Return tt, w') ->
  fs w' = replaced c d (fs w).
Proof.
  induction bound as [|bound IH]; intros c d trials w w' Ht Hl;
    cbn [CheckpointStore.overwrite_loop] in Hl;
    replace (trials <? 3) with true in Hl by (symmetry; apply Z.ltb_lt; exact Ht);
    cbn [negb] in Hl; [discriminate|].
  assert (forall w0 : world, fs w0 = fs w ->
            (match os_remove (checkpoint_path c (ck_episode d)) w0 with
             | (Raise e, w1) => Some (Raise e, w1)
             | (Return _, w1) =>
                 Some (Return tt,
                       log_data (deletion_record (ck_episode d)) (log_path c)
                         (torch_save d (checkpoint_path c (ck_episode d)) w1))
             end) = Some (Return tt, w') ->
            fs w' = replaced c d (fs w)) as Hpos.
  { intros w0 Hw0 Hr. unfold os_remove in Hr.
    destruct (fs w0 !! _); [|discriminate]. injection Hr as <-.
    rewrite log_data_fs. unfold replaced. cbn [fs CheckpointStore.torch_save set_fs].
    rewrite Hw0. reflexivity. }
  destruct (prompt_deletion c).
  - destruct (input _) as [[user_input|e0] w0] eqn:Hin; [|discriminate].
    assert (fs w0 = fs w) as Hw0.
    { pose proof (fs_input (print "Type Yes or y to confirm deletion else No or n"
                    (print ("Are you sure you want to delete checkpoint: "
                            ++ str_of_int (ck_episode d))%string w))) as Hf.
      rewrite Hin in Hf. exact Hf. }
    destruct (member user_input positive_options); [exact (Hpos w0 Hw0 Hl)|].
    destruct (member user_input negative_options); [discriminate|].
    destruct (trials + 1 =? 3) eqn:H3; [discriminate|].
    apply Z.eqb_neq in H3. apply IH in Hl; [|lia]. rewrite Hl. f_equal. exact Hw0.
  - change (member "Yes" positive_options) with true in Hl. cbv iota in Hl.
    exact (Hpos w eq_refl Hl).
Qed.

(** X2: when [save_model] returns, the file of the episode holds the new
    record and every file other than that one and the log is as before; the
    log gains the deletion record exactly when a checkpoint was replaced. *)
Theorem save_model_success_writes c d w w' :
  save_model c d w = Some (Return tt, w') ->
  fs w' !! checkpoint_path c (ck_episode d) = Some (pickle d) /\
  (forall q, q <> checkpoint_path c (ck_episode d) -> q <> log_path c ->
             fs w' !! q = fs w !! q) /\
  fs w' !! log_path c =
    if exists_path w (checkpoint_path c (ck_episode d))
    then Some (default "" (fs w !! log_path c) ++ deletion_record (ck_episode d))%string
    else fs w !! log_path c.
Proof.
  unfold CheckpointStore.save_model. intros Hs.
  pose proof (checkpoint_is_not_log c (ck_episode d)) as Hne.
  destruct (exists_path w _); cbn [negb] in Hs.
  - apply overwrite_loop_success in Hs; [|lia]. rewrite Hs. unfold replaced. cbn zeta.
    split; [|split].
    + rewrite lookup_insert_ne by congruence. apply lookup_insert_eq.
    + intros q Hq Hl. rewrite !lookup_insert_ne by congruence.
      apply lookup_delete_ne. congruence.
    + rewrite lookup_insert_eq. rewrite lookup_insert_ne by exact Hne.
      rewrite lookup_delete_ne by exact Hne. reflexivity.
  - injection Hs as <-. cbn [fs CheckpointStore.torch_save set_fs].
    split; [apply lookup_insert_eq|]. split.
    + intros q Hq _. apply lookup_insert_ne. congruence.
    + apply lookup_insert_ne. exact Hne.
Qed.

(** The experiment directory is in place: it holds the log or a checkpoint.
    ([torch.save] does not create it.) *)
Definition directory_exists (c : config) (w : world) : Prop :=
  is_Some (fs w !! log_path c) \/
  exists episode, is_Some (fs w !! checkpoint_path c episode).

(** X3: with [prompt_deletion] off and the experiment directory in place,
    [save_model] succeeds whether or not a checkpoint of the episode exists,
    reads nothing from the input and prints nothing. *)
Theorem save_model_without_prompt c d w :
  prompt_deletion c = false ->
  directory_exists c w ->
  exists w', save_model c d w = Some (Return tt, w') /\
             stdin w' = stdin w /\ stdout w' = stdout w.
Proof.
  intros Hp _. unfold CheckpointStore.save_model, exists_path.
  destruct (bool_decide (is_Some (fs w !! _))) eqn:Hex; cbn [negb].
  - apply bool_decide_eq_true_1 in Hex. destruct Hex as [old Hold].
    cbn [CheckpointStore.overwrite_loop]. change (0 <? 3) with true. cbn [negb].
    rewrite Hp. change (member "Yes" positive_options) with true. cbv iota.
    unfold os_remove. rewrite Hold. eexists. split; [reflexivity|].
    rewrite log_data_stdin, log_data_stdout. split; reflexivity.
  - eexists. split; [reflexivity|]. split; reflexivity.
Qed.

Lemma positive_step bound c d trials w a rest old :
  trials < 3 ->
  prompt_deletion c = true ->
  stdin w = a :: rest ->
  member a positive_options = true ->
  fs w !! checkpoint_path c (ck_episode d) = Some old ->
  exists w', overwrite_loop (S bound) c d trials w = Some (Return tt, w') /\
             stdin w' = rest.
Proof.
  intros Ht Hp Hin Ha Hold. cbn [CheckpointStore.overwrite_loop].
  replace (trials <? 3) with true by (symmetry; apply Z.ltb_lt; exact Ht).
  cbn [negb]. rewrite Hp. unfold input, print. cbn [stdin fs stdout].
  rewrite Hin, Ha. unfold os_remove. cbn [fs]. rewrite Hold.
  eexists. split; [reflexivity|]. rewrite log_data_stdin. reflexivity.
Qed.

(** X4: the retry budget: after at most two answers that the prompt does not
    recognise, an affirmative one still replaces the checkpoint, and only the
    answers up to it are read. *)
Theorem save_model_accepts_after_retries c d w old unknown a rest :
  fs w !! checkpoint_path c (ck_episode d) = Some old ->
  prompt_deletion c = true ->
  stdin w = unknown ++ a :: rest ->
  (List.length unknown <= 2)%nat ->
  Forall unrecognized unknown ->
  member a positive_options = true ->
  exists w', save_model c d w = Some (Return tt, w') /\ stdin w' = rest /\
             fs w' !! checkpoint_path c (ck_episode d) = Some (pickle d).
Proof.
  intros Hold Hp Hin Hlen Hun Ha.
  assert (exists w', save_model c d w = Some (Return tt, w') /\ stdin w' = rest)
    as (w' & Hs & Hrest).
  { unfold CheckpointStore.save_model, exists_path.
    rewrite bool_decide_eq_true_2 by (rewrite Hold; eauto). cbn [negb].
    destruct unknown as [|u1 [|u2 [|u3 unknown]]]; cbn [List.length] in Hlen; [| | |lia].
    - exact (positive_step 2 c d 0 w a rest old ltac:(lia) Hp Hin Ha Hold).
    - inversion Hun as [|? ? Hu1 _]; subst.
      destruct (unrecognized_step ModelState OptState Loss pickle 2 c d 0 w u1 _
                  ltac:(lia) Hp Hin Hu1) as (w1 & Hf1 & Hs1 & ->).
      change (0 + 1) with 1; change (1 =? 3) with false; cbv iota.
      rewrite <- Hf1 in Hold.
      exact (positive_step 1 c d 1 w1 a rest old ltac:(lia) Hp Hs1 Ha Hold).
    - inversion Hun as [|? ? Hu1 Hun']; subst. inversion Hun' as [|? ? Hu2 _]; subst.
      destruct (unrecognized_step ModelState OptState Loss pickle 2 c d 0 w u1 _
                  ltac:(lia) Hp Hin Hu1) as (w1 & Hf1 & Hs1 & ->).
      change (0 + 1) with 1; change (1 =? 3) with false; cbv iota.
      destruct (unrecognized_step ModelState OptState Loss pickle 1 c d 1 w1 u2 _
                  ltac:(lia) Hp Hs1 Hu2) as (w2 & Hf2 & Hs2 & ->).
      change (1 + 1) with 2; change (2 =? 3) with false; cbv iota.
      rewrite <- Hf1, <- Hf2 in Hold.
      exact (positive_step 0 c d 2 w2 a rest old ltac:(lia) Hp Hs2 Ha Hold). }
  exists w'. split; [exact Hs|]. split; [exact Hrest|].
  exact (proj1 (save_model_success_writes c d w w' Hs)).
Qed.

(** X5: [log_data] only ever appends: after two calls the file is its old
    content (nothing, if it did not exist) followed by the two messages in
    order, and no other file has changed. *)
Theorem log_data_appends m1 m2 path w :
  fs (log_data m2 path (log_data m1 path w)) !! path
    = Some (default "" (fs w !! path) ++ m1 ++ m2)%string /\
  (forall q, q <> path -> fs (log_data m2 path (log_data m1 path w)) !! q = fs w !! q).
Proof.
  rewrite !log_data_fs. split.
  - rewrite !lookup_insert_eq. cbn [default from_option id]. f_equal.
    apply append_assoc.
  - intros q Hq. rewrite !lookup_insert_ne by congruence. reflexivity.
Qed.

End Store.

(** Worlds for the witnesses: the checkpoint of episode 5 exists. *)
Definition world_answering (answers : list string) : world :=
  {| fs := {[ "data/models/experiment_1/checkpoint_5.pth.tar" := "old" ]};
     stdin := answers;
     stdout := [] |}.

Definition quiet_config : config :=
  {| data_path := "data"; experiment_number := 1; experiment_episode := 5;
     prompt_deletion := false |}.

Definition demo_pickle (d : checkpoint unit unit unit) : string := "new".

Definition world_after (o : option (result unit * world)) : world :=
  match o with
  | Some (_, w) => w
  | None => world_answering []
  end.

Lemma save_model_error_keeps_files_witness :
  fs (world_after (save_model unit unit unit demo_pickle demo_config demo_checkpoint
                     (world_answering ["no"])))
    = fs (world_answering ["no"]).
Proof.
  apply (save_model_error_keeps_files unit unit unit demo_pickle demo_config demo_checkpoint
           (world_answering ["no"])
           (ValueError "Supply the correct episode number to start experiment")).
  vm_compute. reflexivity.
Defined.

Lemma save_model_success_writes_witness :
  fs (world_after (save_model unit unit unit demo_pickle demo_config demo_checkpoint
                     (world_answering ["what"; "y"])))
    !! checkpoint_path demo_config (ck_episode unit unit unit demo_checkpoint)
    = Some (demo_pickle demo_checkpoint) /\
  (forall q, q <> checkpoint_path demo_config (ck_episode unit unit unit demo_checkpoint) ->
             q <> log_path demo_config ->
             fs (world_after (save_model unit unit unit demo_pickle demo_config
                                demo_checkpoint (world_answering ["what"; "y"]))) !! q
             = fs (world_answering ["what"; "y"]) !! q) /\
  fs (world_after (save_model unit unit unit demo_pickle demo_config demo_checkpoint
                     (world_answering ["what"; "y"]))) !! log_path demo_config =
    if exists_path (world_answering ["what"; "y"])
         (checkpoint_path demo_config (ck_episode unit unit unit demo_checkpoint))
    then Some (default "" (fs (world_answering ["what"; "y"]) !! log_path demo_config)
               ++ deletion_record (ck_episode unit unit unit demo_checkpoint))%string
    else fs (world_answering ["what"; "y"]) !! log_path demo_config.
Proof.
  apply (save_model_success_writes unit unit unit demo_pickle demo_config demo_checkpoint
           (world_answering ["what"; "y"])).
  vm_compute. reflexivity.
Defined.

Lemma save_model_without_prompt_witness :
  exists w',
    save_model unit unit unit demo_pickle quiet_config demo_checkpoint
      (world_answering ["no"]) = Some (Return tt, w') /\
    stdin w' = stdin (world_answering ["no"]) /\
    stdout w' = stdout (world_answering ["no"]).
Proof.
  apply (save_model_without_prompt unit unit unit demo_pickle quiet_config demo_checkpoint
           (world_answering ["no"])).
  - reflexivity.
  - right. exists 5. vm_compute. eauto.
Defined.

Lemma save_model_accepts_after_retries_witness :
  exists w',
    save_model unit unit unit demo_pickle demo_config demo_checkpoint
      (world_answering ["what"; "YES"; "y"; "no"]) = Some (Return tt, w') /\
    stdin w' = ["no"] /\
    fs w' !! checkpoint_path demo_config (ck_episode unit unit unit demo_checkpoint)
      = Some (demo_pickle demo_checkpoint).
Proof.
  apply (save_model_accepts_after_retries unit unit unit demo_pickle demo_config
           demo_checkpoint (world_answering ["what"; "YES"; "y"; "no"]) "old"
           ["what"; "YES"] "y" ["no"]).
  - apply lookup_singleton_eq.
  - reflexivity.
  - reflexivity.
  - simpl. lia.
  - repeat constructor.
  - reflexivity.
Defined.

End CheckpointFacts.

(** ** load_model *)

Module Loader.
Import PyStr CheckpointStore CheckpointFacts.

(** model.py, line 381, for one name of the directory. *)
Definition episode_of_name (cp : string) : result Z :=
  let* stem := index (split_on "." cp) 0 in
  let* field := index (split_on "_" stem) 1 in
  py_int field.

(** utils.py, line 282, for one name of the directory. *)
Definition first_digit_of_name (cp : string) : result Z :=
  let* ch := char_at cp 11 in py_int ch.

Definition is_tar (i : string) : bool := String.eqb (splitext_ext i) ".tar".

Lemma model_load_episode_eq listing ep :
  model_load_episode listing ep =
    (let* episodes := comprehension episode_of_name (List.filter is_tar listing) in
     let* max_cp := py_max episodes in
     Return (if ep =? -1 then max_cp else ep)).
Proof. reflexivity. Qed.

Lemma utils_load_episode_eq listing ep :
  utils_load_episode listing ep =
    (let* checkpoints := pop listing in
     let* episodes := comprehension first_digit_of_name checkpoints in
     let* max_cp := py_max episodes in
     Return (if ep =? -1 then max_cp else ep)).
Proof. reflexivity. Qed.


Lemma comprehension_raises {A B} (f : A -> result B) xs x e0 :
  In x xs -> f x = Raise e0 -> exists e, comprehension f xs = Raise e.
Proof.
  induction xs as [|y xs IH]; intros Hin Hx; [contradiction|].
  cbn [comprehension]. destruct (f y) as [v|e] eqn:Hy; cbn [bind]; [|eauto].
  destruct Hin as [->|Hin]; [congruence|].
  destruct (IH Hin Hx) as [e ->]. cbn [bind]. eauto.
Qed.





(** X7: a single file of extension [.tar] that is not named like a
    checkpoint makes [load_model] of model.py raise, even when an explicit
    episode is requested. *)
Theorem model_load_episode_stray_file listing ep i e0 :
  In i listing -> is_tar i = true -> episode_of_name i = Raise e0 ->
  exists e, model_load_episode listing ep = Raise e.
Proof.
  intros Hi Htar Hparse. rewrite model_load_episode_eq.
  destruct (comprehension_raises episode_of_name (List.filter is_tar listing) i e0)
    as [e ->]; [apply filter_In; auto|exact Hparse|].
  cbn [bind]. eauto.
Qed.

Lemma pop_snoc {A} (l : list A) (x : A) : pop (l ++ [x]) = Return l.
Proof.
  unfold pop. destruct (l ++ [x]) eqn:Hl.
  - destruct l; discriminate.
  - rewrite <- Hl, removelast_last. reflexivity.
Qed.

(** X8: [load_model] of utils.py never looks at the last entry of the
    directory listing: whatever file is listed last, a log file or the newest
    checkpoint, the result is the same. *)
Theorem utils_load_ignores_last_entry l x y ep :
  utils_load_episode (l ++ [x]) ep = utils_load_episode (l ++ [y]) ep.
Proof. rewrite !utils_load_episode_eq, !pop_snoc. reflexivity. Qed.

(** X9: [load_model] of utils.py raises as soon as an entry other than the
    last one has no decimal digit at index 11: so it does whenever the log
    file is not the last entry listed. *)
Theorem utils_load_rejects_unlisted_last l x ep i e0 :
  In i l -> first_digit_of_name i = Raise e0 ->
  exists e, utils_load_episode (l ++ [x]) ep = Raise e.
Proof.
  intros Hi Hparse. rewrite utils_load_episode_eq, pop_snoc. cbn [bind].
  destruct (comprehension_raises first_digit_of_name l i e0 Hi Hparse) as [e ->].
  cbn [bind]. eauto.
Qed.

Lemma single_digit_name n :
  0 <= n <= 9 -> first_digit_of_name (checkpoint_name n) = Return n.
Proof.
  intros Hn. rewrite <- (Z2Nat.id n) by lia.
  destruct (Z.to_nat n) as [|[|[|[|[|[|[|[|[|[|k]]]]]]]]]] eqn:Hk; try reflexivity.
  lia.
Qed.

Lemma comprehension_single_digits episodes :
  Forall (fun n => 0 <= n <= 9) episodes ->
  comprehension first_digit_of_name (List.map checkpoint_name episodes) = Return episodes.
Proof.
  induction 1 as [|n episodes Hn _ IH]; [reflexivity|].
  cbn [List.map comprehension]. rewrite (single_digit_name n Hn). cbn [bind].
  rewrite IH. reflexivity.
Qed.

(** X10: [load_model] of utils.py does select the latest episode when every
    episode is below 10 and the checkpoints are listed before exactly one
    other entry. *)
Theorem utils_load_latest_single_digits episodes last :
  episodes <> [] ->
  Forall (fun n => 0 <= n <= 9) episodes ->
  exists m, utils_load_episode (List.map checkpoint_name episodes ++ [last]) (-1) = Return m /\
            In m episodes /\ Forall (fun n => n <= m) episodes.
Proof.
  intros Hne Hd. rewrite utils_load_episode_eq, pop_snoc. cbn [bind].
  rewrite (comprehension_single_digits episodes Hd). cbn [bind].
  destruct episodes as [|x xs]; [contradiction|].
  cbn [py_max bind]. eexists. split; [reflexivity|].
  exact (fold_max_bounds xs x).
Qed.

Section Load.
Variables ModelState OptState Loss Model Optimizer : Type.
Variable pickle : checkpoint ModelState OptState Loss -> string.
(** [torch.load] on the bytes of a file. *)
Variable torch_load : string -> result (checkpoint ModelState OptState Loss).
(** [LEO(config)], [torch.optim.Adam(leo.parameters(), lr=...)] and the two
    [load_state_dict] methods. *)
Variable new_leo : config -> result Model.
Variable adam : config -> Model -> Optimizer.
Variable load_state_dict : Model -> ModelState -> result Model.
Variable optimizer_load_state_dict : Optimizer -> OptState -> result Optimizer.

Local Abbreviation save_model := (CheckpointStore.save_model ModelState OptState Loss pickle).
Local Abbreviation ck_mode := (CheckpointStore.ck_mode ModelState OptState Loss).
Local Abbreviation ck_episode := (CheckpointStore.ck_episode ModelState OptState Loss).
Local Abbreviation ck_model_state_dict :=
  (CheckpointStore.ck_model_state_dict ModelState OptState Loss).
Local Abbreviation ck_optimizer_state_dict :=
  (CheckpointStore.ck_optimizer_state_dict ModelState OptState Loss).
Local Abbreviation ck_kl_loss := (CheckpointStore.ck_kl_loss ModelState OptState Loss).
Local Abbreviation ck_total_val_loss :=
  (CheckpointStore.ck_total_val_loss ModelState OptState Loss).

(** The [stats] dictionary that [load_model] returns. *)
Record stats : Type := {
  stats_mode : string;
  stats_episode : Z;
  stats_kl_loss : Loss;
  stats_total_val_loss : Loss
}.

(** The record that line 388 appends to the log. *)
Definition load_record (episode : Z) : string :=
  (String "010" "*********** checkpoint " ++ str_of_int episode
   ++ " was loaded **************")%string.

(** Lines 391-394 of model.py. *)
Definition restore (c : config) (ck : checkpoint ModelState OptState Loss)
    : result (Model * Optimizer) :=
  let* leo := new_leo c in
  let optimizer := adam c leo in
  let* leo := load_state_dict leo (ck_model_state_dict ck) in
  let* optimizer := optimizer_load_state_dict optimizer (ck_optimizer_state_dict ck) in
  Return (leo, optimizer).

(** [load_model(config)] of model.py, given what [os.listdir(model_dir)]
    returned. *)
Definition load_model (c : config) (listing : list string) (w : world)
    : result (Model * Optimizer * stats) * world :=
  match model_load_episode listing (experiment_episode c) with
  | Raise e => (Raise e, w)
  | Return episode =>
      let checkpoint_path := checkpoint_path c episode in
      match fs w !! checkpoint_path with
      | None => (Raise (FileNotFoundError checkpoint_path), w)
      | Some bytes =>
          match torch_load bytes with
          | Raise e => (Raise e, w)
          | Return ck =>
              let w := log_data (load_record episode) (log_path c) w in
              match restore c ck with
              | Raise e => (Raise e, w)
              | Return (leo, optimizer) =>
                  (Return (leo, optimizer,
                           {| stats_mode := ck_mode ck;
                              stats_episode := episode;
                              stats_kl_loss := ck_kl_loss ck;
                              stats_total_val_loss := ck_total_val_loss ck |}), w)
              end
          end
      end
  end.

Lemma model_load_episode_of_names listing episodes ep :
  List.filter is_tar listing = List.map checkpoint_name episodes ->
  Forall (fun n => 0 <= n) episodes ->
  model_load_episode listing ep =
    (let* max_cp := py_max episodes in Return (if ep =? -1 then max_cp else ep)).
Proof.
  intros Hf Hpos. rewrite model_load_episode_eq, Hf.
  change episode_of_name with
    (fun cp => let* stem := index (split_on "." cp) 0 in
               let* field := index (split_on "_" stem) 1 in
               py_int field).
  rewrite (comprehension_episodes episodes Hpos). reflexivity.
Qed.

(** X12: [load_model] changes no file when it fails to select or to read
    the checkpoint, and otherwise changes the log only, whether or not the
    model can then be rebuilt. *)
Theorem load_model_touches_only_the_log c listing w r w' q :
  load_model c listing w = (r, w') ->
  q <> log_path c ->
  fs w' !! q = fs w !! q.
Proof.
  unfold load_model. intros Hl Hq.
  destruct (model_load_episode listing _) as [episode|e]; [|injection Hl as _ <-; reflexivity].
  destruct (fs w !! _) as [bytes|]; [|injection Hl as _ <-; reflexivity].
  destruct (torch_load bytes) as [ck|e]; [|injection Hl as _ <-; reflexivity].
  assert (w' = log_data (load_record episode) (log_path c) w) as ->.
  { destruct (restore c ck) as [[leo optimizer]|e]; congruence. }
  rewrite log_data_fs. apply lookup_insert_ne. congruence.
Qed.

(** The names bound at module level of [utils.py]: its imports and
    functions. *)
Definition utils_module_names : list string :=
  [ "torch"; "optim"; "os"; "pickle"; "json"; "random"; "np"; "torchvision"; "plt";
    "edict"; "load_config"; "meta_classes_selector"; "save_npy"; "load_npy";
    "save_pickled_data"; "load_pickled_data"; "numpy_to_tensor"; "tensor_to_numpy";
    "check_experiment"; "prepare_inputs"; "get_named_dict"; "display_data_shape";
    "log_data"; "calc_iou_per_class"; "one_hot_target"; "softmax"; "sparse_crossentropy";
    "plot_masks"; "summary_write_masks"; "load_model"; "save_model"; "get_in_sequence" ].

Definition load_model_locals : list string :=
  [ "config"; "experiment"; "model_dir"; "checkpoints"; "max_cp"; "episode";
    "checkpoint_path"; "checkpoint"; "log_filename"; "msg"; "leo"; "optimizer"; "mode";
    "total_val_loss"; "kl_loss"; "stats" ].

(** [load_model(config)] of utils.py, in a module whose top level binds
    [globals]. *)
Definition utils_load_model_in (globals : list string) (c : config) (listing : list string)
    (w : world) : result (Model * Optimizer * stats) * world :=
  match utils_load_episode listing (experiment_episode c) with
  | Raise e => (Raise e, w)
  | Return episode =>
      let checkpoint_path := checkpoint_path c episode in
      match fs w !! checkpoint_path with
      | None => (Raise (FileNotFoundError checkpoint_path), w)
      | Some bytes =>
          match torch_load bytes with
          | Raise e => (Raise e, w)
          | Return ck =>
              let w := log_data (load_record episode) (log_path c) w in
              if negb (resolves globals load_model_locals "LEO") then (Raise (NameError "LEO"), w)
              else
                match restore c ck with
                | Raise e => (Raise e, w)
                | Return (leo, optimizer) =>
                    (Return (leo, optimizer,
                             {| stats_mode := ck_mode ck;
                                stats_episode := episode;
                                stats_kl_loss := ck_kl_loss ck;
                                stats_total_val_loss := ck_total_val_loss ck |}), w)
                end
          end
      end
  end.

Definition utils_load_model := utils_load_model_in utils_module_names.

(** X13: [load_model] of utils.py never returns: when the checkpoint has
    been selected and read, and the load record appended to the log, the
    construction of the model raises [NameError], for utils.py neither defines
    nor imports [LEO]. *)
Theorem utils_load_model_never_returns c listing w :
  (exists e, fst (utils_load_model c listing w) = Raise e) /\
  (forall episode bytes ck,
     utils_load_episode listing (experiment_episode c) = Return episode ->
     fs w !! checkpoint_path c episode = Some bytes ->
     torch_load bytes = Return ck ->
     utils_load_model c listing w =
       (Raise (NameError "LEO"), log_data (load_record episode) (log_path c) w)).
Proof.
  unfold utils_load_model, utils_load_model_in.
  change (resolves utils_module_names load_model_locals "LEO") with false. cbn [negb].
  split.
  - destruct (utils_load_episode listing _) as [episode|e]; [|cbn; eauto].
    destruct (fs w !! _) as [bytes|]; [|cbn; eauto].
    destruct (torch_load bytes) as [ck|e]; cbn; eauto.
  - intros episode bytes ck -> -> ->. reflexivity.
Qed.

End Load.

(** *** model.py: the constructor that load_model calls *)

Section Constructor.
Variables ModelState OptState Loss Model Optimizer : Type.
Variable pickle : checkpoint ModelState OptState Loss -> string.
Variable torch_load : string -> result (checkpoint ModelState OptState Loss).
(** What lines 84-95 of [LEO.__init__] would build, were line 83 passed. *)
Variable rest_of_init : config -> result Model.
Variable adam : config -> Model -> Optimizer.
Variable load_state_dict : Model -> ModelState -> result Model.
Variable optimizer_load_state_dict : Optimizer -> OptState -> result Optimizer.

Local Abbreviation save_model := (CheckpointStore.save_model ModelState OptState Loss pickle).
Local Abbreviation ck_episode := (CheckpointStore.ck_episode ModelState OptState Loss).

Definition init_locals : list string := ["self"; "config"; "mode"; "seg_network"].

(** Lines 80-95, [LEO(config)], in a module whose top level binds
    [globals]: line 83 reads the name [img_dims]. *)
Definition LEO_init_in (globals : list string) (c : config) : result Model :=
  if resolves globals init_locals "img_dims" then rest_of_init c
  else Raise (NameError "img_dims").

(** The constructor as model.py has it. *)
Definition LEO_init := LEO_init_in module_names.

(** [load_model(config)] of model.py with that constructor. *)
Definition model_load_model :=
  load_model ModelState OptState Loss Model Optimizer torch_load LEO_init adam
    load_state_dict optimizer_load_state_dict.

(** X11: [load_model] of model.py never returns a model.  Whatever the
    directory holds, it raises; and where [save_model] has just written the
    checkpoint that is asked for, and [torch.load] reads it back, the call
    appends its load record to the log and then raises [NameError] on
    [img_dims], which line 83 of [LEO.__init__] reads and nothing binds. *)
Theorem load_model_never_returns c listing w :
  (exists e, fst (model_load_model c listing w) = Raise e) /\
  (forall d w0,
     save_model c d w0 = Some (Return tt, w) ->
     torch_load (pickle d) = Return d ->
     model_load_episode listing (experiment_episode c) = Return (ck_episode d) ->
     model_load_model c listing w =
       (Raise (NameError "img_dims"),
        log_data (load_record (ck_episode d)) (log_path c) w)).
Proof.
  unfold model_load_model, load_model. split.
  - destruct (model_load_episode listing _) as [episode|e]; [|eexists; reflexivity].
    destruct (fs w !! _) as [bytes|]; [|eexists; reflexivity].
    destruct (torch_load bytes) as [ck|e]; eexists; reflexivity.
  - intros d w0 Hsave Hload Hsel. rewrite Hsel.
    destruct (save_model_success_writes ModelState OptState Loss pickle c d w0 w Hsave)
      as (-> & _ & _).
    rewrite Hload. reflexivity.
Qed.

End Constructor.

(** An instance: state dictionaries are integers, a model is the state it
    holds. *)
Definition saved : checkpoint Z Z Q :=
  {| ck_mode := "meta_train"; ck_episode := 5; ck_model_state_dict := 42;
     ck_optimizer_state_dict := 7; ck_kl_loss := 0%Q; ck_total_val_loss := (1 # 2)%Q |}.

Definition empty_world : world := {| fs := ∅; stdin := []; stdout := [] |}.

Definition demo_load :=
  load_model Z Z Q Z Z (fun _ => Return saved) (fun _ => Return 0) (fun _ m => m)
    (fun _ s => Return s) (fun _ s => Return s).

Lemma load_model_never_returns_witness :
  (exists e, fst (model_load_model Z Z Q Z Z (fun _ => Return saved) (fun _ => Return 0)
                    (fun _ m => m) (fun _ s => Return s) (fun _ s => Return s)
                    quiet_config ["model_log.txt"; "checkpoint_5.pth.tar"]
                    (world_after (save_model Z Z Q (fun _ => "bytes") quiet_config saved
                                    (world_answering [])))) = Raise e) /\
  model_load_model Z Z Q Z Z (fun _ => Return saved) (fun _ => Return 0)
    (fun _ m => m) (fun _ s => Return s) (fun _ s => Return s)
    quiet_config ["model_log.txt"; "checkpoint_5.pth.tar"]
    (world_after (save_model Z Z Q (fun _ => "bytes") quiet_config saved
                    (world_answering [])))
  = (Raise (NameError "img_dims"),
     log_data (load_record 5) (log_path quiet_config)
       (world_after (save_model Z Z Q (fun _ => "bytes") quiet_config saved
                       (world_answering [])))).
Proof.
  destruct (load_model_never_returns Z Z Q Z Z (fun _ => "bytes") (fun _ => Return saved)
              (fun _ => Return 0) (fun _ m => m) (fun _ s => Return s)
              (fun _ s => Return s) quiet_config
              ["model_log.txt"; "checkpoint_5.pth.tar"]
              (world_after (save_model Z Z Q (fun _ => "bytes") quiet_config saved
                              (world_answering [])))) as [Hraise Hsaved].
  split; [exact Hraise|].
  apply (Hsaved saved (world_answering [])); reflexivity.
Defined.

Lemma load_model_touches_only_the_log_witness :
  fs (snd (demo_load quiet_config ["model_log.txt"] empty_world)) !! "data/notes.txt"
  = fs empty_world !! "data/notes.txt".
Proof.
  apply (load_model_touches_only_the_log Z Z Q Z Z (fun _ => Return saved)
           (fun _ => Return 0) (fun _ m => m) (fun _ s => Return s) (fun _ s => Return s)
           quiet_config ["model_log.txt"] empty_world
           (fst (demo_load quiet_config ["model_log.txt"] empty_world))).
  - reflexivity.
  - discriminate.
Defined.

Lemma utils_load_model_never_returns_witness :
  (exists e, fst (utils_load_model Z Z Q Z Z (fun _ => Return saved) (fun _ => Return 0)
                    (fun _ m => m) (fun _ s => Return s) (fun _ s => Return s)
                    quiet_config ["checkpoint_5.pth.tar"; "model_log.txt"]
                    (world_answering [])) = Raise e) /\
  (forall episode bytes ck,
     utils_load_episode ["checkpoint_5.pth.tar"; "model_log.txt"]
       (experiment_episode quiet_config) = Return episode ->
     fs (world_answering []) !! checkpoint_path quiet_config episode = Some bytes ->
     (fun _ : string => Return saved) bytes = Return ck ->
     utils_load_model Z Z Q Z Z (fun _ => Return saved) (fun _ => Return 0)
       (fun _ m => m) (fun _ s => Return s) (fun _ s => Return s)
       quiet_config ["checkpoint_5.pth.tar"; "model_log.txt"] (world_answering []) =
       (Raise (NameError "LEO"),
        log_data (load_record episode) (log_path quiet_config) (world_answering []))).
Proof.
  exact (utils_load_model_never_returns Z Z Q Z Z (fun _ => Return saved)
           (fun _ => Return 0) (fun _ m => m) (fun _ s => Return s) (fun _ s => Return s)
           quiet_config ["checkpoint_5.pth.tar"; "model_log.txt"] (world_answering [])).
Defined.


Lemma model_load_episode_stray_file_witness :
  exists e, model_load_episode ["checkpoint_7.pth.tar"; "backup.tar"] 7 = Raise e.
Proof.
  apply (model_load_episode_stray_file ["checkpoint_7.pth.tar"; "backup.tar"] 7
           "backup.tar" (IndexError "list index out of range")).
  - right. left. reflexivity.
  - reflexivity.
  - reflexivity.
Defined.

Lemma utils_load_rejects_unlisted_last_witness :
  exists e, utils_load_episode (["model_log.txt"] ++ ["checkpoint_7.pth.tar"]) (-1) = Raise e.
Proof.
  apply (utils_load_rejects_unlisted_last ["model_log.txt"] "checkpoint_7.pth.tar" (-1)
           "model_log.txt" (ValueError "invalid literal for int() with base 10")).
  - left. reflexivity.
  - reflexivity.
Defined.

Lemma utils_load_latest_single_digits_witness :
  exists m,
    utils_load_episode (List.map checkpoint_name [3; 8; 5] ++ ["model_log.txt"]) (-1)
      = Return m /\
    In m [3; 8; 5] /\ Forall (fun n => n <= m) [3; 8; 5].
Proof.
  apply (utils_load_latest_single_digits [3; 8; 5] "model_log.txt").
  - discriminate.
  - repeat constructor; lia.
Defined.

End Loader.

(** ** calc_iou_per_class on a batch *)

Module IouFacts.
Import Iou.

(** The loop of [calc_iou_per_class] leaves the mean of all the IoUs computed
    so far. *)
Lemma iou_loop_mean pred_x : forall targets ious acc m,
  Forall3 (fun p t v => iou_example p t = Return v) pred_x targets ious ->
  iou_loop pred_x targets acc m =
    Return (match ious with [] => m | _ => Some (np_mean (acc ++ ious)) end).
Proof.
  induction pred_x as [|p pred_x IH]; intros targets ious acc m Hall;
    inversion Hall as [|? t v ? targets' ious' Hv Hrest]; subst; [reflexivity|].
  cbn [iou_loop]. rewrite Hv. cbn [bind].
  rewrite (IH targets' ious' (acc ++ [v]) (Some (np_mean (acc ++ [v]))) Hrest).
  destruct ious' as [|v' ious']; [reflexivity|].
  rewrite <- app_assoc. reflexivity.
Qed.

Lemma fold_np_add_nan xs : fold_left np_add xs NaN = NaN.
Proof. induction xs as [|x xs IH]; [reflexivity|]. cbn [fold_left np_add]. exact IH. Qed.

Lemma fold_np_add_hits_nan xs : forall a,
  In NaN xs -> fold_left np_add xs a = NaN.
Proof.
  induction xs as [|x xs IH]; intros a Hin; [contradiction|]. cbn [fold_left].
  destruct Hin as [->|Hin]; [|apply IH; exact Hin].
  replace (np_add a NaN) with NaN by (destruct a; reflexivity).
  apply fold_np_add_nan.
Qed.

Lemma np_mean_nan xs : In NaN xs -> np_mean xs = NaN.
Proof. intros Hin. unfold np_mean. rewrite (fold_np_add_hits_nan xs _ Hin). reflexivity. Qed.

(** A prediction and a ground truth of one shape. *)
Definition same_pixels (p : logits) (t : list Z) : Prop :=
  exists pred, argmax_axis0 p = Return pred /\ List.length t = List.length pred.

(** Neither the arg-max prediction nor the ground truth has a positive pixel. *)
Definition both_empty (p : logits) (t : list Z) : Prop :=
  exists pred, argmax_axis0 p = Return pred /\ List.length t = List.length pred /\
               np_sum (logical_or t pred) = 0%nat.

Lemma iou_example_defined p t :
  same_pixels p t -> exists v, iou_example p t = Return v.
Proof.
  intros (pred & Hp & Hl). unfold iou_example. rewrite Hp. cbn [bind].
  rewrite Hl, Nat.eqb_refl. eauto.
Qed.

Lemma iou_example_both_empty p t : both_empty p t -> iou_example p t = Return NaN.
Proof.
  intros (pred & Hp & Hl & Hu). unfold iou_example. rewrite Hp. cbn [bind].
  rewrite Hl, Nat.eqb_refl, Hu.
  pose proof (and_le_or t pred) as Hle. rewrite Hu in Hle.
  replace (np_sum (logical_and t pred)) with 0%nat by lia. reflexivity.
Qed.

Lemma examples_defined pred_x targets :
  Forall2 same_pixels pred_x targets ->
  exists ious, Forall3 (fun p t v => iou_example p t = Return v) pred_x targets ious.
Proof.
  induction 1 as [|p t pred_x targets Hpt _ [ious IH]].
  - exists []. constructor.
  - destruct (iou_example_defined p t Hpt) as [v Hv]. exists (v :: ious).
    constructor; assumption.
Qed.

Lemma nan_among pred_x targets ious :
  Forall3 (fun p t v => iou_example p t = Return v) pred_x targets ious ->
  Exists (fun pt => both_empty (fst pt) (snd pt)) (combine pred_x targets) ->
  In NaN ious.
Proof.
  induction 1 as [|p t v pred_x targets ious Hv _ IH]; cbn [combine]; intros Hex;
    inversion Hex as [? ? Hhere|? ? Hlater]; subst.
  - cbn [fst snd] in Hhere. rewrite (iou_example_both_empty p t Hhere) in Hv.
    injection Hv as <-. left. reflexivity.
  - right. apply IH. exact Hlater.
Qed.

(** X14: one example in which the prediction and the ground truth are both
    empty makes the mean IoU of the whole batch NaN. *)
Theorem calc_iou_per_class_nan pred_x targets :
  Forall2 same_pixels pred_x targets ->
  Exists (fun pt => both_empty (fst pt) (snd pt)) (combine pred_x targets) ->
  calc_iou_per_class pred_x targets = Return NaN.
Proof.
  intros Hall Hex. destruct (examples_defined pred_x targets Hall) as [ious Hious].
  pose proof (nan_among pred_x targets ious Hious Hex) as Hnan.
  unfold calc_iou_per_class. rewrite (iou_loop_mean pred_x targets ious [] None Hious).
  cbn [bind]. destruct ious as [|v ious]; [contradiction|].
  cbn [app]. rewrite (np_mean_nan (v :: ious) Hnan). reflexivity.
Qed.

(** The arg-max prediction and the ground truth have a positive pixel between
    them. *)
Definition nonempty_union (p : logits) (t : list Z) : Prop :=
  exists pred, argmax_axis0 p = Return pred /\ List.length t = List.length pred /\
               (0 < np_sum (logical_or t pred))%nat.

Lemma iou_example_unit p t :
  nonempty_union p t -> exists v, iou_example p t = Return v /\ in_unit v.
Proof.
  intros (pred & Hp & Hl & Hu). unfold iou_example. rewrite Hp. cbn [bind].
  rewrite Hl, Nat.eqb_refl, (true_divide_fin _ _ Hu).
  eexists. split; [reflexivity|].
  destruct (ratio_bounds _ _ Hu (and_le_or t pred)) as [H0 H1].
  eexists. split; [reflexivity|]. split; assumption.
Qed.

(** X15: on a non-empty batch in which every example has a positive pixel in
    the prediction or in the ground truth, [calc_iou_per_class] returns a
    finite mean between 0 and 1. *)
Theorem calc_iou_per_class_range pred_x targets :
  pred_x <> [] ->
  Forall2 nonempty_union pred_x targets ->
  exists q, calc_iou_per_class pred_x targets = Return (Fin q) /\ (0 <= q)%Q /\ (q <= 1)%Q.
Proof.
  intros Hne Hall.
  destruct (calc_iou_per_class_unit pred_x targets) as (v & Hv & q & -> & Hq); [|exact Hne|].
  - eapply Forall2_impl; [exact Hall|]. intros p t Hpt. apply iou_example_unit. exact Hpt.
  - exists q. split; [exact Hv|exact Hq].
Qed.

Lemma iou_loop_firstn pred_x : forall targets acc m,
  (List.length pred_x <= List.length targets)%nat ->
  iou_loop pred_x targets acc m
  = iou_loop pred_x (firstn (List.length pred_x) targets) acc m.
Proof.
  induction pred_x as [|p pred_x IH]; intros targets acc m Hl; [reflexivity|].
  destruct targets as [|t targets]; cbn [List.length] in Hl; [lia|].
  cbn [List.length firstn iou_loop].
  destruct (iou_example p t) as [v|e]; cbn [bind]; [|reflexivity].
  apply IH. lia.
Qed.

(** X16: [calc_iou_per_class] reads one target per prediction, in order:
    targets beyond the number of predictions are ignored, and a batch with
    fewer targets than predictions raises, whatever the examples are, unless
    an earlier example raises first. *)
Theorem calc_iou_per_class_targets pred_x targets :
  ((List.length pred_x <= List.length targets)%nat ->
   calc_iou_per_class pred_x targets
   = calc_iou_per_class pred_x (firstn (List.length pred_x) targets)) /\
  ((List.length targets < List.length pred_x)%nat ->
   exists e, calc_iou_per_class pred_x targets = Raise e).
Proof.
  split.
  - intros Hl. unfold calc_iou_per_class. rewrite (iou_loop_firstn pred_x targets [] None Hl).
    reflexivity.
  - intros Hl. unfold calc_iou_per_class.
    assert (forall acc m, exists e, iou_loop pred_x targets acc m = Raise e) as Hraise.
    { revert targets Hl. induction pred_x as [|p pred_x IH]; intros targets Hl acc m;
        cbn [List.length] in Hl; [lia|].
      destruct targets as [|t targets]; cbn [iou_loop]; [eauto|].
      destruct (iou_example p t) as [v|e]; cbn [bind]; [|eauto].
      apply IH. cbn [List.length] in Hl. lia. }
    destruct (Hraise [] None) as [e ->]. cbn [bind]. eauto.
Qed.

Lemma calc_iou_per_class_nan_witness :
  calc_iou_per_class [[[0; 1]; [1; 0]]; [[1; 0]; [1; 0]]]%Q [[1; 0]; [0; 0]] = Return NaN.
Proof.
  apply calc_iou_per_class_nan.
  - constructor; [exists [1; 0]; split; reflexivity|].
    constructor; [exists [0; 0]; split; reflexivity|constructor].
  - right. left. exists [0; 0]. repeat split.
Defined.

Lemma calc_iou_per_class_range_witness :
  exists q,
    calc_iou_per_class [[[0; 1]; [1; 0]]; [[1; 0]; [0; 1]]]%Q [[1; 0]; [1; 1]]
      = Return (Fin q) /\ (0 <= q)%Q /\ (q <= 1)%Q.
Proof.
  apply calc_iou_per_class_range.
  - discriminate.
  - constructor; [exists [1; 0]; repeat split; vm_compute; lia|].
    constructor; [exists [0; 1]; repeat split; vm_compute; lia|constructor].
Defined.

Lemma calc_iou_per_class_targets_witness :
  ((List.length [[[0; 1]]]%Q <= List.length [[1]; [0]])%nat ->
   calc_iou_per_class [[[0; 1]]]%Q [[1]; [0]]
   = calc_iou_per_class [[[0; 1]]]%Q (firstn (List.length [[[0; 1]]]%Q) [[1]; [0]])) /\
  ((List.length [[1]; [0]] < List.length [[[0; 1]]]%Q)%nat ->
   exists e, calc_iou_per_class [[[0; 1]]]%Q [[1]; [0]] = Raise e).
Proof. exact (calc_iou_per_class_targets [[[0; 1]]]%Q [[1]; [0]]). Defined.

End IouFacts.

(** ** finetuning_inner_loop: memory *)

Module FinetunerFacts.
Import Net Finetuner.

(** The state with which an iteration ends. *)
Definition state_of {S R} (f : flow S R) : S :=
  match f with
  | Next s | Returned _ s | Raised _ s => s
  end.

Definition is_next {S R} (f : flow S R) : bool :=
  match f with
  | Next _ => true
  | _ => false
  end.

Section Finetune.
Context {Tensor Scalar IoU : Type} `{!Lib Tensor Scalar IoU} `{!Inhabited Tensor}.
Variables Path Transformer : Type.
Variable bias : option Tensor.
Variable data_val_imgs data_val_masks : list Path.
Variable list_to_tensor : Path -> Transformer -> Tensor.

Local Abbreviation finetuning_inner_loop_in :=
  (Finetuner.finetuning_inner_loop_in Path Transformer bias data_val_imgs data_val_masks
     list_to_tensor).
Local Abbreviation finetuning_body :=
  (Finetuner.finetuning_body Path Transformer bias data_val_imgs data_val_masks
     list_to_tensor).
Local Abbreviation evaluation_branch :=
  (Finetuner.evaluation_branch Path Transformer bias data_val_imgs data_val_masks
     list_to_tensor).
Local Abbreviation evaluate_example :=
  (Finetuner.evaluate_example Path Transformer bias list_to_tensor).

Lemma try_ends {A S R} (r : result A) (s : S) (k : A -> flow S R) (P : flow S R -> Prop) :
  (forall e, r = Raise e -> P (Raised e s)) ->
  (forall a, r = Return a -> P (k a)) ->
  P (try r s k).
Proof. destruct r as [a|e]; cbn; auto. Qed.

(** The validation pass writes nothing and does not go on to another
    iteration. *)
Lemma validation_branch_ends globals self d weight (s : state Tensor) :
  state_of (validation_branch bias globals self d weight s) = s /\
  is_next (validation_branch bias globals self d weight s) = false.
Proof.
  unfold validation_branch.
  destruct (getattr d "val_imgs") as [val_imgs|e]; cbn [bind try];
    [rewrite forward_encoder_raises|]; split; reflexivity.
Qed.

Lemma evaluate_examples_raise globals self transformers weight (s : state Tensor) pairs :
  pairs = [] \/
  exists e, PyStr.comprehension (evaluate_example globals self transformers weight s) pairs
            = Raise e.
Proof.
  destruct pairs as [|[img mask] rest]; [left; reflexivity|right].
  cbn [PyStr.comprehension]. unfold Finetuner.evaluate_example.
  destruct transformers as [it mt].
  destruct (negb (resolves globals finetuning_locals "list_to_tensor")).
  - eexists. reflexivity.
  - rewrite forward_encoder_raises. eexists. reflexivity.
Qed.

Lemma evaluation_branch_ends globals self transformers weight (s : state Tensor) :
  state_of (evaluation_branch globals self transformers weight s) = s /\
  is_next (evaluation_branch globals self transformers weight s) = false.
Proof.
  unfold Finetuner.evaluation_branch.
  destruct (negb (resolves globals finetuning_locals "data")); [split; reflexivity|].
  destruct (negb (resolves globals finetuning_locals "tqdm")); [split; reflexivity|].
  destruct (evaluate_examples_raise globals self transformers weight s
              (combine data_val_imgs data_val_masks)) as [-> | [e ->]];
    split; reflexivity.
Qed.

(** An iteration ends the loop, having written to the task-local weight at
    most. *)
Lemma finetuning_body_ends globals self d tr_features transformers mode weight
    (s : state Tensor) :
  let f := finetuning_body globals self d tr_features transformers mode weight s in
  is_next f = false /\
  (mem (state_of f) = mem s \/ exists v, mem (state_of f) = <[weight := v]> (mem s)).
Proof.
  cbv zeta. unfold Finetuner.finetuning_body.
  apply try_ends; [intros e _; split; [reflexivity|left; reflexivity]|intros pred _].
  apply try_ends; [intros e _; split; [reflexivity|left; reflexivity]|intros tr_loss _].
  apply try_ends; [intros e _; split; [reflexivity|left; reflexivity]|intros g _].
  destruct (String.eqb mode "meta_train").
  - match goal with
    | |- context [validation_branch ?b ?gl ?sf ?dd ?w ?st] =>
        destruct (validation_branch_ends gl sf dd w st) as [-> ->]
    end.
    split; [reflexivity|right; eexists; reflexivity].
  - match goal with
    | |- context [Finetuner.evaluation_branch _ _ _ _ _ _ ?gl ?sf ?tr ?w ?st] =>
        destruct (evaluation_branch_ends gl sf tr w st) as [-> ->]
    end.
    split; [reflexivity|right; eexists; reflexivity].
Qed.

(** X20: whatever the mode and the number of steps, and whether it returns or
    raises, the routine allocates one tensor (the task-local [weight]) and
    writes to nothing else: every tensor that existed at the call, the meta
    head weight among them, keeps its value. *)
Theorem finetuning_allocates_one_tensor
    globals self d tr_features seg_weight_grad transformers mode h :
  exists v,
    mem (snd (finetuning_inner_loop_in globals self d tr_features seg_weight_grad
                transformers mode h))
    = <[fresh (dom h) := v]> h /\
    forall l w, h !! l = Some w ->
      mem (snd (finetuning_inner_loop_in globals self d tr_features seg_weight_grad
                  transformers mode h)) !! l = Some w.
Proof.
  assert (exists v,
    mem (snd (finetuning_inner_loop_in globals self d tr_features seg_weight_grad
                transformers mode h))
    = <[fresh (dom h) := v]> h) as [v Hv].
  { unfold Finetuner.finetuning_inner_loop_in, initial_weight.
    destruct (Z_le_gt_dec (num_finetuning_steps self) 1) as [Hle|Hgt].
    - rewrite range_empty by lia. cbn. eauto.
    - rewrite range_succ by lia. cbn [for_in].
      match goal with
      | |- context [Finetuner.finetuning_body _ _ _ _ _ _ ?gl ?sf ?dd ?tf ?tr ?md ?w ?st] =>
          pose proof (finetuning_body_ends gl sf dd tf tr md w st) as Hb;
          cbv zeta in Hb;
          destruct (Finetuner.finetuning_body _ _ _ _ _ _ gl sf dd tf tr md w st)
            as [s'|r s'|e s']
      end; destruct Hb as [Hnext Hmem]; [discriminate| |];
        cbn [state_of mem snd] in *;
        (destruct Hmem as [-> | [v ->]];
         [eauto | rewrite insert_insert_eq; eauto]). }
  exists v. split; [exact Hv|].
  intros l w Hl. rewrite Hv.
  assert (fresh (dom h) <> l) as Hfresh.
  { intros Heq. pose proof (is_fresh (dom h)) as Hf. rewrite Heq in Hf.
    apply Hf. apply elem_of_dom. eauto. }
  rewrite lookup_insert_ne by exact Hfresh. exact Hl.
Qed.

End Finetune.

End FinetunerFacts.

(** ** utils.py: one_hot_target *)

Module Masks.
Import Iou IouFacts.

(** [mask.type(torch.bool)]: non-zero. *)
Definition to_bool (v : Q) : bool := negb (Qeq_bool v 0).

(** [(~mask.type(torch.bool)).type(torch.float32)] at one pixel. *)
Definition mask_inv (v : Q) : Q := if to_bool v then 0%Q else 1%Q.

(** One example of [one_hot_target(mask)]: [torch.cat] along the channel axis
    puts the inverted mask in channel 0 and the mask itself in channel 1. *)
Definition one_hot_example (mask : list Q) : logits :=
  List.map (fun v => [mask_inv v; v]) mask.

Definition one_hot_target (mask : list (list Q)) : list logits :=
  List.map one_hot_example mask.

(** A mask of integer labels as the float tensor handed to [one_hot_target]. *)
Definition to_float (t : list Z) : list Q := List.map inject_Z t.

(** Arg-max decodes a one-hot pixel as class 1 exactly when the label is
    positive. *)
Lemma argmax_one_hot mask :
  argmax_axis0 (one_hot_example mask)
  = Return (List.map (fun v => if Qle_bool v 0 then 0 else 1) mask).
Proof.
  induction mask as [|v mask IH]; [reflexivity|].
  unfold one_hot_example in *. cbn [List.map argmax_axis0]. rewrite IH.
  cbn [argmax argmax_from bind]. do 2 f_equal.
  unfold mask_inv, to_bool. destruct (Qeq_bool v 0) eqn:Hv; cbn [negb]; [|reflexivity].
  apply Qeq_bool_iff in Hv.
  replace (Qle_bool v 1) with true by (symmetry; apply Qle_bool_iff; lra).
  replace (Qle_bool v 0) with true by (symmetry; apply Qle_bool_iff; lra).
  reflexivity.
Qed.

Lemma decode_binary t :
  Forall (fun z => z = 0 \/ z = 1) t ->
  List.map (fun v => if Qle_bool v 0 then 0 else 1) (to_float t) = t.
Proof.
  induction 1 as [|z t Hz _ IH]; [reflexivity|].
  unfold to_float in *. cbn [List.map]. rewrite IH.
  destruct Hz as [->| ->]; reflexivity.
Qed.

(** X23: for a mask of zeros and ones, taking the arg-max over the channels
    of [one_hot_target(mask)] gives the mask back. *)
Theorem one_hot_target_round_trip masks :
  Forall (Forall (fun z => z = 0 \/ z = 1)) masks ->
  PyStr.comprehension argmax_axis0 (one_hot_target (List.map to_float masks)) = Return masks.
Proof.
  induction 1 as [|t masks Ht _ IH]; [reflexivity|].
  unfold one_hot_target in *. cbn [List.map PyStr.comprehension].
  rewrite argmax_one_hot, (decode_binary t Ht). cbn [bind]. rewrite IH. reflexivity.
Qed.

Lemma decode_binarize t :
  Forall (fun z => 0 <= z) t ->
  binarize (List.map (fun v => if Qle_bool v 0 then 0 else 1) (to_float t)) = binarize t.
Proof.
  induction 1 as [|z t Hz _ IH]; [reflexivity|].
  unfold to_float, binarize in *. cbn [List.map]. rewrite IH. f_equal.
  destruct (Qle_bool (inject_Z z) 0) eqn:Hle.
  - apply Qle_bool_iff in Hle. change 0%Q with (inject_Z 0) in Hle.
    rewrite <- Zle_Qle in Hle. replace z with 0 by lia. reflexivity.
  - assert (z <> 0) as Hnz by (intros ->; discriminate Hle).
    unfold truthy. replace (z =? 0) with false by (symmetry; apply Z.eqb_neq; exact Hnz).
    reflexivity.
Qed.

Lemma positive_pixel_counts t b :
  Exists (fun z => 0 < z) t -> List.length b = List.length t ->
  (0 < np_sum (logical_or t b))%nat.
Proof.
  intros Hex. revert b. induction Hex as [z t Hz|z t _ IH]; intros [|y b] Hl;
    cbn [List.length] in Hl; try discriminate; unfold np_sum in *; cbn [logical_or].
  - replace (truthy z) with true
      by (unfold truthy; symmetry; apply negb_true_iff, Z.eqb_neq; lia).
    cbn. lia.
  - specialize (IH b ltac:(lia)). destruct (truthy z || truthy y); cbn; lia.
Qed.

(** The IoU of the decoded one-hot encoding of a mask against the mask. *)
Lemma iou_example_one_hot t :
  Forall (fun z => 0 <= z) t -> Exists (fun z => 0 < z) t ->
  exists q, iou_example (one_hot_example (to_float t)) t = Return (Fin q) /\ (q == 1)%Q.
Proof.
  intros Hnn Hex. unfold iou_example. rewrite argmax_one_hot. cbn [bind].
  set (pred := List.map (fun v => if Qle_bool v 0 then 0 else 1) (to_float t)).
  assert (List.length pred = List.length t) as Hl
    by (unfold pred, to_float; rewrite !length_map; reflexivity).
  rewrite Hl, Nat.eqb_refl.
  rewrite (and_eq_or_same t pred) by (symmetry; apply decode_binarize; exact Hnn).
  pose proof (positive_pixel_counts t pred Hex Hl) as Hpos.
  rewrite (true_divide_fin _ _ Hpos). eexists. split; [reflexivity|].
  unfold Qeq. cbn [Qnum Qden]. rewrite pos_of_nat_Z by exact Hpos. lia.
Qed.

Lemma fold_np_add_ones xs : forall a,
  Forall (fun v => exists q, v = Fin q /\ (q == 1)%Q) xs ->
  exists s, fold_left np_add xs (Fin a) = Fin s /\
            (s == a + inject_Z (Z.of_nat (List.length xs)))%Q.
Proof.
  induction xs as [|x xs IH]; intros a Hall.
  - exists a. split; [reflexivity|].
    change (inject_Z (Z.of_nat (List.length (@nil npfloat)))) with 0%Q. ring.
  - inversion Hall as [|? ? (q & -> & Hq) Hrest]; subst.
    cbn [fold_left np_add]. destruct (IH (a + q)%Q Hrest) as (s & -> & Hs).
    exists s. split; [reflexivity|].
    assert (inject_Z (Z.of_nat (List.length (Fin q :: xs)))
            == inject_Z (Z.of_nat (List.length xs)) + 1)%Q as Hlen.
    { cbn [List.length]. rewrite Nat2Z.inj_succ, <- Z.add_1_r, inject_Z_plus. reflexivity. }
    lra.
Qed.

Lemma np_mean_ones xs :
  xs <> [] ->
  Forall (fun v => exists q, v = Fin q /\ (q == 1)%Q) xs ->
  exists q, np_mean xs = Fin q /\ (q == 1)%Q.
Proof.
  intros Hne Hall. unfold np_mean.
  destruct (fold_np_add_ones xs 0%Q Hall) as (s & -> & Hs).
  eexists. split; [reflexivity|]. rewrite Hs.
  assert (~ (inject_Z (Z.of_nat (List.length xs)) == 0)%Q) as Hnz.
  { change 0%Q with (inject_Z 0). rewrite inject_Z_injective.
    destruct xs; [contradiction|]. cbn [List.length]. lia. }
  field. exact Hnz.
Qed.

Lemma examples_one_hot masks :
  Forall (fun t => Forall (fun z => 0 <= z) t /\ Exists (fun z => 0 < z) t) masks ->
  exists ious,
    Forall3 (fun p t v => iou_example p t = Return v)
            (one_hot_target (List.map to_float masks)) masks ious /\
    Forall (fun v => exists q, v = Fin q /\ (q == 1)%Q) ious.
Proof.
  induction 1 as [|t masks [Hnn Hex] _ (ious & Hious & Hones)].
  - exists []. split; constructor.
  - destruct (iou_example_one_hot t Hnn Hex) as (q & Hq & Hq1).
    exists (Fin q :: ious). split; constructor; eauto.
Qed.

(** X24: against its own one-hot encoding a batch of ground-truth masks
    scores a mean IoU of one, provided that no label is negative and that
    every mask has a positive pixel. *)
Theorem one_hot_target_scores_one masks :
  masks <> [] ->
  Forall (fun t => Forall (fun z => 0 <= z) t /\ Exists (fun z => 0 < z) t) masks ->
  exists q,
    calc_iou_per_class (one_hot_target (List.map to_float masks)) masks = Return (Fin q) /\
    (q == 1)%Q.
Proof.
  intros Hne Hall. destruct (examples_one_hot masks Hall) as (ious & Hious & Hones).
  unfold calc_iou_per_class. rewrite (iou_loop_mean _ _ ious [] None Hious). cbn [bind].
  destruct ious as [|v ious].
  - inversion Hious; subst. contradiction.
  - cbn [app]. destruct (np_mean_ones (v :: ious) ltac:(discriminate) Hones) as (q & -> & Hq).
    exists q. split; [reflexivity|exact Hq].
Qed.

Lemma one_hot_target_round_trip_witness :
  PyStr.comprehension argmax_axis0 (one_hot_target (List.map to_float [[0; 1; 1]; [1; 0; 0]]))
  = Return [[0; 1; 1]; [1; 0; 0]].
Proof.
  apply one_hot_target_round_trip.
  repeat first [apply List.Forall_nil | apply List.Forall_cons]; lia.
Defined.

Lemma one_hot_target_scores_one_witness :
  exists q,
    calc_iou_per_class (one_hot_target (List.map to_float [[0; 2; 1]; [1; 0; 0]]))
                       [[0; 2; 1]; [1; 0; 0]] = Return (Fin q) /\
    (q == 1)%Q.
Proof.
  apply one_hot_target_scores_one.
  - discriminate.
  - constructor; [split|constructor; [split|constructor]].
    + repeat constructor; lia.
    + right. left. lia.
    + repeat constructor; lia.
    + left. lia.
Defined.

End Masks.

(** ** utils.py: meta_classes_selector *)

Module ClassSplits.
Import PyStr.

(** What a call of this part of utils.py can raise: an exception of the
    runtime, the [assert] of line 43, or whatever [pickle.load] raises on a
    file that is no pickle. *)
Inductive raised : Type :=
| Builtin (e : exn)
| AssertionError (msg : string)
| UnpicklingError.

Inductive outcome (A : Type) : Type :=
| Done (a : A)
| Failed (r : raised).
Arguments Done {A} a.
Arguments Failed {A} r.

(** Python's [xs[lo:hi]]: a negative bound counts from the end, and both
    bounds are clamped to the list. *)
Definition slice_bound (n i : Z) : Z :=
  if i <? 0 then Z.max (i + n) 0 else Z.min i n.

Definition slice {A} (xs : list A) (lo hi : Z) : list A :=
  let n := Z.of_nat (List.length xs) in
  let lo := slice_bound n lo in
  let hi := slice_bound n hi in
  firstn (Z.to_nat (hi - lo)) (skipn (Z.to_nat lo) xs).

(** The dictionary of lines 40-42. *)
Record splits : Type := {
  meta_train : list string;
  meta_val : list string;
  meta_test : list string
}.

Record config : Type := {
  datasets : list string;
  data_path : string;
  meta_train_val_test_ratio : list Z
}.

(** Files by path, and the entries of the directories; the paths of [files]
    are regular files. *)
Record disk : Type := {
  files : gmap string string;
  listing : gmap string (list string)
}.

Definition exists_path (d : disk) (p : string) : bool := bool_decide (is_Some (files d !! p)).

Definition listdir (d : disk) (p : string) : result (list string) :=
  match listing d !! p with
  | Some names => Return names
  | None => Raise (FileNotFoundError p)
  end.

Definition member (s : string) (options : list string) : bool :=
  existsb (String.eqb s) options.

Section Selector.
(** The object that a call returns: an [edict]. *)
Variable PyObj : Type.
(** [edict] of the dictionary of lines 40-42. *)
Variable edict_of : splits -> PyObj.
(** [pickle.dump] of that dictionary, and [edict(pickle.load(f))]. *)
Variable pickle_dump : splits -> string.
Variable pickle_load : string -> outcome PyObj.
(** The order that [random.shuffle] leaves. *)
Variable shuffle : list string -> list string.
(** [os.path.dirname(__file__)] *)
Variable module_dir : string.

(** [save_pickled_data] into an existing directory. *)
Definition save_pickled_data (data : splits) (p : string) (d : disk) : disk :=
  {| files := <[p := pickle_dump data]> (files d); listing := listing d |}.

Definition load_pickled_data (p : string) (d : disk) : outcome PyObj :=
  match files d !! p with
  | Some bytes => pickle_load bytes
  | None => Failed (Builtin (FileNotFoundError p))
  end.

Definition os_remove (p : string) (d : disk) : result unit * disk :=
  match files d !! p with
  | Some _ => (Return tt, {| files := delete p (files d); listing := listing d |})
  | None => (Raise (FileNotFoundError p), d)
  end.

Definition pickle_path (c : config) (dataset : string) : string :=
  path_join (path_join (path_join module_dir (data_path c)) dataset) "meta_classes.pkl".

Definition images_dir (path dataset : string) : string :=
  path_join (path_join (path_join (path_join path "data") dataset) "train") "images".

(** The classes as line 40 finds them. *)
Definition ordered (shuffle_classes : bool) (listed : list string) : list string :=
  if shuffle_classes then shuffle listed else listed.

Definition meta_classes_selector (c : config) (dataset path : string)
    (generate_new shuffle_classes : bool) (d : disk) : outcome PyObj * disk :=
  let ratio := meta_train_val_test_ratio c in
  if member dataset (datasets c) then
    let data_path := pickle_path c dataset in
    if exists_path d data_path && negb generate_new then
      (load_pickled_data data_path d, d)
    else
      match listdir d (images_dir path dataset) with
      | Raise e => (Failed (Builtin e), d)
      | Return classes =>
          let classes := ordered shuffle_classes classes in
          match (let* r0 := index ratio 0 in
                 let* r1 := index ratio 1 in
                 let* r2 := index ratio 2 in
                 Return (r0, r1, r2)) with
          | Raise e => (Failed (Builtin e), d)
          | Return (r0, r1, r2) =>
              let meta_classes_splits :=
                {| meta_train := slice classes 0 r0;
                   meta_val := slice classes r0 (r0 + r1);
                   meta_test := slice classes (r0 + r1) (r0 + r1 + r2) |} in
              if (List.length (meta_train meta_classes_splits)
                  + List.length (meta_val meta_classes_splits)
                  + List.length (meta_test meta_classes_splits)
                  =? List.length classes)%nat
              then
                if exists_path d data_path then
                  match os_remove data_path d with
                  | (Raise e, d) => (Failed (Builtin e), d)
                  | (Return _, d) =>
                      (Done (edict_of meta_classes_splits),
                       save_pickled_data meta_classes_splits data_path d)
                  end
                else
                  (Done (edict_of meta_classes_splits),
                   save_pickled_data meta_classes_splits data_path d)
              else (Failed (AssertionError "error exists in the ratios supplied"), d)
          end
      end
  else (Failed (Builtin (UnboundLocalError "meta_classes_splits")), d).

(** A slice between two bounds that are not negative. *)
Lemma slice_from {A} (xs : list A) lo len :
  0 <= lo -> 0 <= len ->
  slice xs lo (lo + len) = firstn (Z.to_nat len) (skipn (Z.to_nat lo) xs).
Proof.
  intros Hlo Hlen. unfold slice, slice_bound.
  replace (lo <? 0) with false by (symmetry; apply Z.ltb_ge; lia).
  replace (lo + len <? 0) with false by (symmetry; apply Z.ltb_ge; lia).
  set (n := List.length xs).
  destruct (Z_le_gt_dec (Z.of_nat n) lo) as [Hout|Hin].
  - rewrite !(drop_ge xs) by (fold n; lia). destruct (Z.to_nat _), (Z.to_nat len); reflexivity.
  - replace (Z.to_nat (Z.min lo (Z.of_nat n))) with (Z.to_nat lo) by lia.
    destruct (Z_le_gt_dec (lo + len) (Z.of_nat n)) as [Hfit|Hover].
    + f_equal. lia.
    + rewrite !take_ge; [reflexivity| |]; rewrite length_drop; fold n; lia.
Qed.

Lemma split_lengths {A} (xs : list A) r0 r1 r2 :
  0 <= r0 -> 0 <= r1 -> 0 <= r2 ->
  (List.length (firstn (Z.to_nat r0) xs)
   + List.length (firstn (Z.to_nat r1) (skipn (Z.to_nat r0) xs))
   + List.length (firstn (Z.to_nat r2) (skipn (Z.to_nat (r0 + r1)) xs))
   =? List.length xs)%nat
  = (Z.of_nat (List.length xs) <=? r0 + r1 + r2).
Proof.
  intros H0 H1 H2. rewrite !length_take, !length_drop.
  destruct (Z.of_nat (List.length xs) <=? r0 + r1 + r2) eqn:Hle.
  - apply Z.leb_le in Hle. apply Nat.eqb_eq. lia.
  - apply Z.leb_gt in Hle. apply Nat.eqb_neq. lia.
Qed.

Lemma slices_of {A} (classes : list A) r0 r1 r2 :
  0 <= r0 -> 0 <= r1 -> 0 <= r2 ->
  slice classes 0 r0 = firstn (Z.to_nat r0) classes /\
  slice classes r0 (r0 + r1) = firstn (Z.to_nat r1) (skipn (Z.to_nat r0) classes) /\
  slice classes (r0 + r1) (r0 + r1 + r2)
  = firstn (Z.to_nat r2) (skipn (Z.to_nat (r0 + r1)) classes).
Proof.
  intros H0 H1 H2. repeat split.
  - exact (slice_from classes 0 r0 ltac:(lia) H0).
  - exact (slice_from classes r0 r1 H0 H1).
  - exact (slice_from classes (r0 + r1) r2 ltac:(lia) H2).
Qed.

(** Writing the pickle, over an older one or not. *)
Lemma pickle_written s p d :
  (if exists_path d p then
     match os_remove p d with
     | (Raise e, d) => (Failed (Builtin e), d)
     | (Return _, d) => (Done (edict_of s), save_pickled_data s p d)
     end
   else (Done (edict_of s), save_pickled_data s p d))
  = (Done (edict_of s),
     {| files := <[p := pickle_dump s]> (files d); listing := listing d |}).
Proof.
  unfold exists_path, os_remove, save_pickled_data.
  destruct (files d !! p) as [old|] eqn:Hp.
  - rewrite bool_decide_eq_true_2 by eauto. cbn [files listing].
    rewrite insert_delete_eq. reflexivity.
  - rewrite bool_decide_eq_false_2 by (intros [? ?]; discriminate). reflexivity.
Qed.

(** X27: with a ratio of three non-negative counts, generating the splits
    succeeds exactly when the counts add up to at least the number of
    classes; the three splits are then consecutive runs of the class list
    that together make up the whole list, the later ones being cut short when
    the counts exceed it, and they are pickled at the dataset's path.  With
    counts that leave a class out the [assert] fails and nothing is written. *)
Theorem meta_classes_selector_generates
    c dataset path generate_new shuffle_classes d listed r0 r1 r2 rest :
  member dataset (datasets c) = true ->
  meta_train_val_test_ratio c = r0 :: r1 :: r2 :: rest ->
  0 <= r0 -> 0 <= r1 -> 0 <= r2 ->
  generate_new = true \/ files d !! pickle_path c dataset = None ->
  listing d !! images_dir path dataset = Some listed ->
  (Z.of_nat (List.length (ordered shuffle_classes listed)) <= r0 + r1 + r2 ->
   exists s,
     meta_classes_selector c dataset path generate_new shuffle_classes d
     = (Done (edict_of s),
        {| files := <[pickle_path c dataset := pickle_dump s]> (files d);
           listing := listing d |}) /\
     meta_train s = firstn (Z.to_nat r0) (ordered shuffle_classes listed) /\
     meta_val s = firstn (Z.to_nat r1) (skipn (Z.to_nat r0) (ordered shuffle_classes listed)) /\
     meta_test s = skipn (Z.to_nat (r0 + r1)) (ordered shuffle_classes listed) /\
     meta_train s ++ meta_val s ++ meta_test s = ordered shuffle_classes listed) /\
  (r0 + r1 + r2 < Z.of_nat (List.length (ordered shuffle_classes listed)) ->
   meta_classes_selector c dataset path generate_new shuffle_classes d
   = (Failed (AssertionError "error exists in the ratios supplied"), d)).
Proof.
  intros Hmem Hratio H0 H1 H2 Hgen Hlist.
  assert (exists_path d (pickle_path c dataset) && negb generate_new = false) as Hcache.
  { destruct Hgen as [->|Hnone]; [apply andb_false_r|].
    unfold exists_path. rewrite Hnone.
    rewrite bool_decide_eq_false_2 by (intros [? ?]; discriminate). reflexivity. }
  unfold meta_classes_selector, listdir. rewrite Hmem, Hcache, Hlist, Hratio.
  cbn [index nth_error bind meta_train meta_val meta_test].
  set (classes := ordered shuffle_classes listed).
  destruct (slices_of classes r0 r1 r2 H0 H1 H2) as (-> & -> & ->).
  rewrite (split_lengths classes r0 r1 r2 H0 H1 H2).
  split; intros Hn.
  - replace (Z.of_nat (List.length classes) <=? r0 + r1 + r2) with true
      by (symmetry; apply Z.leb_le; exact Hn).
    rewrite pickle_written. eexists. split; [reflexivity|]. cbn [meta_train meta_val meta_test].
    assert (firstn (Z.to_nat r2) (skipn (Z.to_nat (r0 + r1)) classes)
            = skipn (Z.to_nat (r0 + r1)) classes) as Hlast
      by (apply take_ge; rewrite length_drop; lia).
    repeat split; [exact Hlast|]. rewrite Hlast.
    rewrite app_assoc, take_take_drop, Z2Nat.inj_add by lia. apply take_drop.
  - replace (Z.of_nat (List.length classes) <=? r0 + r1 + r2) with false
      by (symmetry; apply Z.leb_gt; exact Hn).
    reflexivity.
Qed.

(** Where a call that returns leaves the pickle of what it returned. *)
Lemma selector_returns c dataset path generate_new shuffle_classes d o d' :
  meta_classes_selector c dataset path generate_new shuffle_classes d = (Done o, d') ->
  member dataset (datasets c) = true /\
  exists bytes, files d' !! pickle_path c dataset = Some bytes /\
    (pickle_load bytes = Done o \/ exists s, bytes = pickle_dump s /\ o = edict_of s).
Proof.
  unfold meta_classes_selector. intros Hcall.
  destruct (member dataset (datasets c)); [|discriminate]. split; [reflexivity|].
  destruct (exists_path d (pickle_path c dataset) && negb generate_new) eqn:Hcache.
  - unfold load_pickled_data in Hcall.
    destruct (files d !! pickle_path c dataset) as [bytes|] eqn:Hfile; [|discriminate].
    injection Hcall as Hload <-. exists bytes. split; [exact Hfile|]. left. exact Hload.
  - destruct (listdir d _) as [classes|e]; [|discriminate].
    destruct (let* r0 := index _ 0 in _) as [[[r0 r1] r2]|e]; [|discriminate].
    destruct (_ =? _)%nat; [|discriminate].
    rewrite pickle_written in Hcall. injection Hcall as <- <-.
    eexists. split; [apply lookup_insert_eq|]. right. eexists. split; reflexivity.
Qed.

(** X28: once a call has returned, a call without [generate_new] for the same
    dataset returns the same splits from the pickle and leaves the disk as it
    is: it does not list the class directories, whatever [path] and
    [shuffle_classes] are. *)
Theorem meta_classes_selector_reloads
    c dataset path generate_new shuffle_classes d o d' path' shuffle_classes' :
  (forall s, pickle_load (pickle_dump s) = Done (edict_of s)) ->
  meta_classes_selector c dataset path generate_new shuffle_classes d = (Done o, d') ->
  meta_classes_selector c dataset path' false shuffle_classes' d' = (Done o, d').
Proof.
  intros Hround Hcall.
  destruct (selector_returns _ _ _ _ _ _ _ _ Hcall) as (Hmem & bytes & Hfile & Hbytes).
  unfold meta_classes_selector, exists_path, load_pickled_data. rewrite Hmem, Hfile.
  rewrite bool_decide_eq_true_2 by eauto. cbn [negb andb].
  destruct Hbytes as [->|(s & -> & ->)]; [reflexivity|].
  rewrite Hround. reflexivity.
Qed.

End Selector.

(** A run on three class directories.  The pickle of the splits is their
    text, one split after the other, and an object is known by that text. *)
Definition demo_config : config :=
  {| datasets := ["pascal"]; data_path := "data"; meta_train_val_test_ratio := [1; 1; 2] |}.

Definition demo_disk : disk :=
  {| files := ∅;
     listing := {[ "root/data/pascal/train/images" := ["bird"; "cat"; "dog"] ]} |}.

Definition demo_dump (s : splits) : string :=
  String.concat "," (meta_train s) ++ ";" ++ String.concat "," (meta_val s) ++ ";"
  ++ String.concat "," (meta_test s).

Definition demo_selector (path : string) (generate_new shuffle_classes : bool) (d : disk)
    : outcome string * disk :=
  meta_classes_selector string demo_dump demo_dump Done (fun l => rev l) "src"
    demo_config "pascal" path generate_new shuffle_classes d.

Definition demo_pickled : disk :=
  {| files := {[ "src/data/pascal/meta_classes.pkl" := "bird;cat;dog" ]};
     listing := listing demo_disk |}.

Lemma meta_classes_selector_generates_witness :
  (Z.of_nat (List.length (ordered (fun l => rev l) false ["bird"; "cat"; "dog"])) <= 1 + 1 + 2 ->
   exists s,
     demo_selector "root" true false demo_disk
     = (Done (demo_dump s),
        {| files := <[pickle_path "src" demo_config "pascal" := demo_dump s]> (files demo_disk);
           listing := listing demo_disk |}) /\
     meta_train s = firstn (Z.to_nat 1) (ordered (fun l => rev l) false ["bird"; "cat"; "dog"]) /\
     meta_val s
     = firstn (Z.to_nat 1)
         (skipn (Z.to_nat 1) (ordered (fun l => rev l) false ["bird"; "cat"; "dog"])) /\
     meta_test s
     = skipn (Z.to_nat (1 + 1)) (ordered (fun l => rev l) false ["bird"; "cat"; "dog"]) /\
     meta_train s ++ meta_val s ++ meta_test s
     = ordered (fun l => rev l) false ["bird"; "cat"; "dog"]) /\
  (1 + 1 + 2 < Z.of_nat (List.length (ordered (fun l => rev l) false ["bird"; "cat"; "dog"])) ->
   demo_selector "root" true false demo_disk
   = (Failed (AssertionError "error exists in the ratios supplied"), demo_disk)).
Proof.
  apply (meta_classes_selector_generates string demo_dump demo_dump Done
           (fun l => rev l) "src" demo_config "pascal" "root" true false demo_disk
           ["bird"; "cat"; "dog"] 1 1 2 []).
  - reflexivity.
  - reflexivity.
  - lia.
  - lia.
  - lia.
  - left. reflexivity.
  - reflexivity.
Defined.

Lemma meta_classes_selector_reloads_witness :
  demo_selector "elsewhere" false true demo_pickled = (Done "bird;cat;dog", demo_pickled).
Proof.
  apply (meta_classes_selector_reloads string demo_dump demo_dump Done
           (fun l => rev l) "src" demo_config "pascal" "root" true false demo_disk
           "bird;cat;dog" demo_pickled "elsewhere" true).
  - intros s. reflexivity.
  - vm_compute. reflexivity.
Defined.

End ClassSplits.

(** ** utils.py: save_npy and load_npy *)

Module NpyFiles.
Import PyStr.

(** Line 59 and line 66: the name that is opened. *)
Definition npy_name (filename : string) : string :=
  if (String.length (splitext_ext filename) =? 0)%nat then (filename ++ ".npy")%string
  else filename.

Section Npy.
Variable Array : Type.
(** The bytes that [np.save] writes, and [np.load] on the bytes of a file. *)
Variable np_save : Array -> string.
Variable np_load : string -> result Array.

(** [save_npy] into an existing directory; it returns [None]. *)
Definition save_npy (np_array : Array) (filename : string) (fs : gmap string string)
    : gmap string string :=
  <[npy_name filename := np_save np_array]> fs.

Definition load_npy (filename : string) (fs : gmap string string) : result Array :=
  match fs !! npy_name filename with
  | Some bytes => np_load bytes
  | None => Raise (FileNotFoundError (npy_name filename))
  end.

End Npy.

Lemma rfind_from_bound c s : forall i last,
  rfind_from c s i last = last \/
  (i <= rfind_from c s i last < i + Z.of_nat (String.length s)).
Proof.
  induction s as [|d s IH]; intros i last; [left; reflexivity|].
  cbn [rfind_from String.length].
  destruct (IH (i + 1) (if Ascii.eqb d c then i else last)) as [->|Hr].
  - destruct (Ascii.eqb d c); [right; lia|left; reflexivity].
  - right. lia.
Qed.

Lemma substring_middle a b c :
  substring (String.length a) (String.length b) (a ++ b ++ c) = b.
Proof.
  induction a as [|x a IH].
  - change ("" ++ b ++ c)%string with (b ++ c)%string. cbn [String.length].
    induction b as [|y b IHb]; [destruct c; reflexivity|].
    rewrite append_cons. cbn [String.length substring]. rewrite IHb. reflexivity.
  - rewrite append_cons. cbn [String.length substring]. exact IH.
Qed.

Lemma all_dots_lacks base :
  base <> "" -> lacks "." base = true -> all_dots base = false.
Proof.
  destruct base as [|x base]; [contradiction|]. intros _. cbn [lacks all_dots].
  destruct (Ascii.eqb x "."); [discriminate|reflexivity].
Qed.

(** A directory prefix: nothing, or text that ends with the separator. *)
Definition is_prefix_dir (d : string) : Prop := d = "" \/ exists d', d = (d' ++ "/")%string.

Lemma rfind_sep d rest :
  is_prefix_dir d -> lacks "/" rest = true ->
  rfind "/" (d ++ rest) = Z.of_nat (String.length d) - 1.
Proof.
  intros Hd Hrest. unfold rfind. rewrite rfind_from_app, rfind_from_lacks by exact Hrest.
  destruct Hd as [->|(d' & ->)]; [reflexivity|].
  rewrite rfind_from_app, length_append. cbn [rfind_from String.length Ascii.eqb Bool.eqb].
  lia.
Qed.

Lemma rfind_dot_before d base :
  is_prefix_dir d -> lacks "." base = true ->
  rfind "." (d ++ base) <= Z.of_nat (String.length d) - 1.
Proof.
  intros Hd Hbase. unfold rfind. rewrite rfind_from_app, rfind_from_lacks by exact Hbase.
  destruct Hd as [->|(d' & ->)]; [cbn; lia|].
  rewrite rfind_from_app, length_append. cbn [rfind_from String.length Ascii.eqb Bool.eqb].
  destruct (rfind_from_bound "." d' 0 (-1)) as [->|Hr]; lia.
Qed.

Lemma npy_name_plain d base :
  is_prefix_dir d -> lacks "/" base = true -> lacks "." base = true ->
  npy_name (d ++ base) = (d ++ base ++ ".npy")%string.
Proof.
  intros Hd Hsep Hdot. unfold npy_name, splitext_ext.
  rewrite (rfind_sep d base Hd Hsep).
  pose proof (rfind_dot_before d base Hd Hdot) as Hle.
  replace (_ <? _) with false by (symmetry; apply Z.ltb_ge; exact Hle).
  cbn [String.length Nat.eqb]. rewrite append_assoc. reflexivity.
Qed.

Lemma npy_name_suffixed d base :
  is_prefix_dir d -> lacks "/" base = true -> lacks "." base = true -> base <> "" ->
  npy_name (d ++ base ++ ".npy") = (d ++ base ++ ".npy")%string.
Proof.
  intros Hd Hsep Hdot Hne. unfold npy_name, splitext_ext.
  rewrite (rfind_sep d (base ++ ".npy") Hd) by (apply lacks_app; [exact Hsep|reflexivity]).
  assert (rfind "." (d ++ base ++ ".npy")
          = Z.of_nat (String.length d) + Z.of_nat (String.length base)) as ->.
  { unfold rfind. rewrite !rfind_from_app. cbn [rfind_from Ascii.eqb Bool.eqb]. lia. }
  replace (_ <? _) with true by (symmetry; apply Z.ltb_lt; lia).
  replace (Z.to_nat (Z.of_nat (String.length d) - 1 + 1)) with (String.length d) by lia.
  replace (Z.to_nat (Z.of_nat (String.length d) + Z.of_nat (String.length base))
           - String.length d)%nat with (String.length base) by lia.
  rewrite substring_middle, (all_dots_lacks base Hne Hdot).
  rewrite <- !append_assoc.
  replace (Z.to_nat (Z.of_nat (String.length d) + Z.of_nat (String.length base)))
    with (String.length (d ++ base)) by (rewrite length_append; lia).
  replace (String.length ((d ++ base) ++ ".npy") - String.length (d ++ base))%nat
    with (String.length ".npy") by (rewrite (length_append (d ++ base) ".npy"); lia).
  rewrite substring_skip. reflexivity.
Qed.

Section NpyFacts.
Variable Array : Type.
Variable np_save : Array -> string.
Variable np_load : string -> result Array.
Hypothesis np_load_save : forall a, np_load (np_save a) = Return a.

(** X29: for a file name without a dot, in any directory, the [.npy]
    extension is optional on both sides: [save_npy] writes the same file with
    or without it, and an array saved under either spelling is read back by
    [load_npy] under the other. *)
Theorem npy_extension_optional d base np_array fs :
  is_prefix_dir d -> lacks "/" base = true -> lacks "." base = true -> base <> "" ->
  save_npy Array np_save np_array (d ++ base) fs
  = save_npy Array np_save np_array (d ++ base ++ ".npy") fs /\
  load_npy Array np_load (d ++ base ++ ".npy")
    (save_npy Array np_save np_array (d ++ base) fs) = Return np_array /\
  load_npy Array np_load (d ++ base)
    (save_npy Array np_save np_array (d ++ base ++ ".npy") fs) = Return np_array.
Proof.
  intros Hd Hsep Hdot Hne. unfold save_npy, load_npy.
  rewrite (npy_name_plain d base Hd Hsep Hdot), (npy_name_suffixed d base Hd Hsep Hdot Hne).
  rewrite lookup_insert_eq, np_load_save. repeat split.
Qed.

End NpyFacts.

Lemma npy_extension_optional_witness :
  save_npy string (fun a => a) "0 1 1 0" ("data/" ++ "masks") ∅
  = save_npy string (fun a => a) "0 1 1 0" ("data/" ++ "masks" ++ ".npy") ∅ /\
  load_npy string Return ("data/" ++ "masks" ++ ".npy")
    (save_npy string (fun a => a) "0 1 1 0" ("data/" ++ "masks") ∅) = Return "0 1 1 0" /\
  load_npy string Return ("data/" ++ "masks")
    (save_npy string (fun a => a) "0 1 1 0" ("data/" ++ "masks" ++ ".npy") ∅)
  = Return "0 1 1 0".
Proof.
  apply (npy_extension_optional string (fun a => a) Return (fun a => eq_refl)
           "data/" "masks" "0 1 1 0" ∅).
  - right. exists "data". reflexivity.
  - reflexivity.
  - reflexivity.
  - discriminate.
Defined.

End NpyFiles.
